(** * A reverse-proxy load balancer with token-bucket rate limiting

    Shallow embedding of the Go packages [storage], [ratelimit], [balancer],
    [health] and [proxy], followed by the properties established about them.

    Conventions of the embedding.
    - Go's [int] and [int64] are 64-bit, [int32] is 32-bit: values are kept in
      [Z] and every Go addition or subtraction on them is wrapped with
      [wrap64] / [wrap32] (two's complement).
    - Go's [float64] and the numbers of Lua are IEEE 754 binary64 numbers,
      with the arithmetic of the Standard Library's [SpecFloat].
    - [time.Now()] is an explicit argument of every operation that reads the
      clock: an instant is a number of nanoseconds since the epoch.
    - Mutation of objects behind pointers becomes explicit state passing: an
      operation returns the new state next to its Go results.
    - A Go [error] result is an [option error]; [None] is [nil]. *)

From Stdlib Require Import ZArith Lia Bool List Ascii String SpecFloat.
From stdpp Require Import gmap strings list fin_maps pretty.

Local Open Scope Z_scope.

(** ** Machine integers *)

Definition wrap (bits : Z) (z : Z) : Z :=
  (z + 2 ^ (bits - 1)) mod 2 ^ bits - 2 ^ (bits - 1).

Definition wrap64 : Z -> Z := wrap 64.
Definition wrap32 : Z -> Z := wrap 32.

Definition max_int64 : Z := 2 ^ 63 - 1.

(** ** float64

    A [float64] of Go and a number of Lua are IEEE 754 binary64 numbers: a
    [spec_float] of the Standard Library, with 53 bits of precision and
    exponents below 1024.  Every operation returns the exact result rounded
    to the nearest number, ties to even. *)

Module float64.

(** [float64(z)] for an integer, and a decimal integer read as a number. *)
Definition of_int (z : Z) : spec_float := binary_normalize 53 1024 z 0 false.

Definition add : spec_float -> spec_float -> spec_float := SFadd 53 1024.
Definition sub : spec_float -> spec_float -> spec_float := SFsub 53 1024.
Definition mul : spec_float -> spec_float -> spec_float := SFmul 53 1024.
Definition div : spec_float -> spec_float -> spec_float := SFdiv 53 1024.

(** [x < y] and [x <= y]: false when either side is NaN. *)
Definition ltb : spec_float -> spec_float -> bool := SFltb.
Definition leb : spec_float -> spec_float -> bool := SFleb.

(** The integer part of a finite number, toward zero. *)
Definition trunc (x : spec_float) : option Z :=
  match x with
  | S754_zero _ => Some 0
  | S754_finite s m e => Some (cond_Zopp s (Z.shiftl (Zpos m) e))
  | S754_infinity _ | S754_nan => None
  end.

(** The conversion to a 64-bit integer: Go's [int(x)] and the cast to
    [long long] of the Redis server.  Where the integer part does not fit, and
    for an infinity or NaN, the language leaves the result to the
    implementation; it is the most negative integer on amd64. *)
Definition to_int (x : spec_float) : Z :=
  match trunc x with
  | Some z => if (- 2 ^ 63 <=? z) && (z <? 2 ^ 63) then z else - 2 ^ 63
  | None => - 2 ^ 63
  end.

(** [math.floor] *)
Definition floor (x : spec_float) : spec_float :=
  match x with
  | S754_finite s m e =>
      if e <? 0
      then binary_normalize 53 1024 (cond_Zopp s (Zpos m) / 2 ^ (- e)) 0 s
      else x
  | _ => x
  end.

End float64.

(** ** package time *)

(** An instant, in nanoseconds since the epoch ([time.Time]). *)
Abbreviation Instant := Z (only parsing).

(** [t.UnixMilli()] *)
Definition UnixMilli (t : Instant) : Z := t / 1000000.

Definition Second : Z := 1000000000.

(** [t.Sub(u)]: the [Duration] from [u] to [t], in nanoseconds; the largest
    or the smallest [Duration] when the difference does not fit in int64. *)
Definition Sub (t u : Instant) : Z :=
  if 2 ^ 63 <=? t - u then max_int64
  else if t - u <? - 2 ^ 63 then - 2 ^ 63
  else t - u.

(** [d.Seconds()]: [float64(sec) + float64(nsec)/1e9] for [sec := d / Second]
    and [nsec := d % Second], both truncated toward zero. *)
Definition Seconds (d : Z) : spec_float :=
  let sec := Z.quot d Second in
  let nsec := Z.rem d Second in
  float64.add (float64.of_int sec)
    (float64.div (float64.of_int nsec) (float64.of_int 1000000000)).

(** ** Errors *)

Inductive error : Type :=
  | ErrRateLimitExceeded      (* ratelimit.ErrRateLimitExceeded *)
  | ErrNoBackends             (* balancer.ErrNoBackends *)
  | ErrNoValidBackends        (* balancer.ErrNoValidBackends *)
  | ErrInvalid                (* errors.New("capacity and refillRate must be positive") *)
  | ErrURL                    (* an error returned by url.Parse *)
  | ErrStore (msg : string).  (* an error wrapped by the networked store *)

Global Instance error_eq_dec : EqDecision error.
Proof. solve_decision. Defined.

(** ** package config *)

Module config.

Record TokenBucketConfig : Type := {
  Capacity : Z;
  RefillRate : Z
}.

Record BackendConfig : Type := { URL : string }.

Record HealthCheckConfig : Type := {
  Enabled : bool;
  Interval : Z;                 (* time.Duration, nanoseconds *)
  HPath : string                (* Path *)
}.

Record RateLimitConfig : Type := { Default : TokenBucketConfig }.

Record Config : Type := {
  Backends : list BackendConfig;
  Algorithm : string            (* Balancer.Algorithm *)
}.

End config.

(** ** package storage *)

(** The [Storage] interface.  [TakeTokens] reads the clock, so it receives the
    instant [now]. *)
Class Storage (S : Type) : Type := {
  TakeTokens : S -> Instant -> string -> Z -> Z -> Z -> S * (bool * Z * option error);
  GetClientConfig : S -> string -> Z * Z * option error;
  SetClientConfig : S -> string -> Z -> Z -> S * option error;
  Ping : S -> option error
}.

Definition RateLimitPrefix : string := "ratelimit:".
Definition ConfigPrefix : string := "config:".

Definition RateLimitKey (clientID : string) : string :=
  String.append RateLimitPrefix clientID.

Definition ConfigKey (clientID : string) : string :=
  String.append RateLimitPrefix (String.append ConfigPrefix clientID).

Record clientConfig : Type := {
  capacity : Z;
  refillRate : Z
}.

Global Instance clientConfig_eq_dec : EqDecision clientConfig.
Proof. solve_decision. Defined.

(** *** memory.go *)

Module MemoryStorage.

Record tokenBucket : Type := {
  tokens : Z;
  lastRefill : Instant
}.

Record t : Type := {
  buckets : gmap string tokenBucket;   (* field [tokens] of the Go struct *)
  configs : gmap string clientConfig
}.

Definition NewMemoryStorage : t := {| buckets := ∅; configs := ∅ |}.

(** [elapsed := now.Sub(bucket.lastRefill).Seconds()] and
    [int(elapsed * float64(refillRate))]. *)
Definition tokensToAdd (now last : Instant) (refillRate : Z) : Z :=
  let elapsed := Seconds (Sub now last) in
  float64.to_int (float64.mul elapsed (float64.of_int refillRate)).

(** The bucket after the refill step of [TakeTokens] (the [if !ok / else]
    statement). *)
Definition refill (b : option tokenBucket) (now : Instant) (capacity refillRate : Z)
  : tokenBucket :=
  match b with
  | None => {| tokens := capacity; lastRefill := now |}
  | Some bucket =>
      let add := tokensToAdd now (lastRefill bucket) refillRate in
      if 0 <? add
      then {| tokens := Z.min capacity (wrap64 (tokens bucket + add));
              lastRefill := now |}
      else bucket
  end.

Definition TakeTokens (s : t) (now : Instant) (key : string)
    (tokensToTake capacity refillRate : Z) : t * (bool * Z * option error) :=
  let bucket := refill (buckets s !! key) now capacity refillRate in
  if tokensToTake <=? tokens bucket then
    let bucket' := {| tokens := wrap64 (tokens bucket - tokensToTake);
                      lastRefill := lastRefill bucket |} in
    ({| buckets := <[key := bucket']> (buckets s); configs := configs s |},
     (true, tokens bucket', None))
  else
    ({| buckets := <[key := bucket]> (buckets s); configs := configs s |},
     (false, tokens bucket, None)).

Definition GetClientConfig (s : t) (key : string) : Z * Z * option error :=
  match configs s !! key with
  | None => (0, 0, None)
  | Some c => (capacity c, refillRate c, None)
  end.

Definition SetClientConfig (s : t) (key : string) (cap rate : Z)
  : t * option error :=
  if (cap =? 0) && (rate =? 0)
  then ({| buckets := buckets s; configs := delete key (configs s) |}, None)
  else ({| buckets := buckets s;
           configs := <[key := {| capacity := cap; refillRate := rate |}]> (configs s) |},
        None).

Definition Ping (s : t) : option error := None.

End MemoryStorage.

Global Instance MemoryStorage_Storage : Storage MemoryStorage.t := {
  TakeTokens := MemoryStorage.TakeTokens;
  GetClientConfig := MemoryStorage.GetClientConfig;
  SetClientConfig := MemoryStorage.SetClientConfig;
  Ping := MemoryStorage.Ping
}.

(** *** redis.go *)

Module RedisStorage.

(** The server holds hashes: key, then field, then value.  [online] is the
    state of the connection: when it is down every command fails (after the
    retries of [WithRetry]) and the data is untouched. *)
Record t : Type := {
  db : gmap string (gmap string Z);
  online : bool
}.

Definition HGET (d : gmap string (gmap string Z)) (key field : string) : option Z :=
  d !! key ≫= (fun h => h !! field).

Definition HSET (d : gmap string (gmap string Z)) (key field : string) (v : Z)
  : gmap string (gmap string Z) :=
  <[key := <[field := v]> (default ∅ (d !! key))]> d.

(** *** The Lua script

    The server runs the script atomically, with Lua 5.1: every number is a
    binary64 number.  The arguments arrive as the decimal text of Go integers
    and [tonumber] reads them. *)
Definition tonumber (z : Z) : spec_float := float64.of_int z.

(** [math.max(x, y)] and [math.min(x, y)]: the first argument, unless the
    second is greater (smaller). *)
Definition math_max (x y : spec_float) : spec_float :=
  if float64.ltb x y then y else x.

Definition math_min (x y : spec_float) : spec_float :=
  if float64.ltb y x then y else x.

(** A number handed to [HSET] is stored as its decimal text, from which
    [tonumber] reads the same number back.  The numbers the script stores
    have no fraction, and a field is kept as the integer its text denotes.
    (An infinity or NaN, which takes an argument or a field of more than a
    thousand bits, is not such a text; the field is then kept as 0.) *)
Definition number_field (x : spec_float) : Z := default 0 (float64.trunc x).

(** [x or y] takes [y] when the field is missing; [a >= b] is [b <= a]; the
    numbers of the returned table reach the client as 64-bit integers. *)
Definition tokenBucketScript (d : gmap string (gmap string Z)) (key : string)
    (tokensToTake capacity refillRate now : Z)
  : gmap string (gmap string Z) * (Z * Z) :=
  let tokensToTake := tonumber tokensToTake in
  let capacity := tonumber capacity in
  let refillRate := tonumber refillRate in
  let now := tonumber now in
  let tokens := default capacity (tonumber <$> HGET d key "tokens") in
  let lastRefill := default now (tonumber <$> HGET d key "lastRefill") in
  let elapsed := math_max (tonumber 0) (float64.sub now lastRefill) in
  let tokensToAdd :=
    math_min (float64.sub capacity tokens)
      (float64.floor (float64.div (float64.mul elapsed refillRate) (tonumber 1000))) in
  let tokens := math_min capacity (float64.add tokens tokensToAdd) in
  let allowed := float64.leb tokensToTake tokens in
  let tokens := if allowed then float64.sub tokens tokensToTake else tokens in
  let d := HSET d key "tokens" (number_field tokens) in
  let d := HSET d key "lastRefill" (number_field now) in
  (d, (if allowed then 1 else 0, float64.to_int tokens)).

Definition TakeTokens (s : t) (now : Instant) (key : string)
    (tokensToTake capacity refillRate : Z) : t * (bool * Z * option error) :=
  let key := RateLimitKey key in
  let now := UnixMilli now in
  if online s then
    let '(d, (allowed, tokens)) :=
      tokenBucketScript (db s) key tokensToTake capacity refillRate now in
    ({| db := d; online := true |}, (allowed =? 1, tokens, None))
  else (s, (false, 0, Some (ErrStore "failed to execute token bucket script"))).

Definition GetClientConfig (s : t) (key : string) : Z * Z * option error :=
  let configKey := ConfigKey key in
  if online s then
    match db s !! configKey with
    | None => (0, 0, None)
    | Some result =>
        if decide (result = ∅) then (0, 0, None)
        else (default 0 (result !! "capacity"),
              default 0 (result !! "refillRate"), None)
    end
  else (0, 0, Some (ErrStore "failed to get client config")).

Definition SetClientConfig (s : t) (key : string) (cap rate : Z)
  : t * option error :=
  let configKey := ConfigKey key in
  if online s then
    ({| db := HSET (HSET (db s) configKey "capacity" cap) configKey "refillRate" rate;
        online := true |}, None)
  else (s, Some (ErrStore "failed to set client config")).

Definition Ping (s : t) : option error :=
  if online s then None else Some (ErrStore "ping").

End RedisStorage.

Global Instance RedisStorage_Storage : Storage RedisStorage.t := {
  TakeTokens := RedisStorage.TakeTokens;
  GetClientConfig := RedisStorage.GetClientConfig;
  SetClientConfig := RedisStorage.SetClientConfig;
  Ping := RedisStorage.Ping
}.

(** ** package balancer *)

(** A result of a Go function that can also stop with a run-time panic
    (an index out of range). *)
Inductive outcome (A : Type) : Type :=
  | Ok (a : A)
  | Err (e : error)
  | Panic.
Arguments Ok {A} a.
Arguments Err {A} e.
Arguments Panic {A}.

Global Instance outcome_eq_dec {A : Type} `{EqDecision A} : EqDecision (outcome A).
Proof. solve_decision. Defined.

(** [net/url] is not part of the repository: a URL is kept as its three
    visible parts and [String()] puts them back together. *)
Record URL : Type := {
  Scheme : string;
  Host : string;
  Path : string
}.

Definition URL_String (u : URL) : string :=
  String.append (Scheme u) (String.append "://" (String.append (Host u) (Path u))).

Module balancer.

Record Backend : Type := {
  BURL : URL;
  IsAlive : bool;
  ActiveConns : Z;      (* atomic.Int32 *)
  LastChecked : Instant;
  FailureCount : Z;     (* atomic.Int32 *)
  TotalRequests : Z;    (* atomic.Int64 *)
  FailedReqs : Z        (* atomic.Int64 *)
}.

Definition with_IsAlive (v : bool) (b : Backend) : Backend :=
  {| BURL := BURL b; IsAlive := v; ActiveConns := ActiveConns b;
     LastChecked := LastChecked b; FailureCount := FailureCount b;
     TotalRequests := TotalRequests b; FailedReqs := FailedReqs b |}.
Definition with_ActiveConns (v : Z) (b : Backend) : Backend :=
  {| BURL := BURL b; IsAlive := IsAlive b; ActiveConns := v;
     LastChecked := LastChecked b; FailureCount := FailureCount b;
     TotalRequests := TotalRequests b; FailedReqs := FailedReqs b |}.
Definition with_LastChecked (v : Instant) (b : Backend) : Backend :=
  {| BURL := BURL b; IsAlive := IsAlive b; ActiveConns := ActiveConns b;
     LastChecked := v; FailureCount := FailureCount b;
     TotalRequests := TotalRequests b; FailedReqs := FailedReqs b |}.
Definition with_FailureCount (v : Z) (b : Backend) : Backend :=
  {| BURL := BURL b; IsAlive := IsAlive b; ActiveConns := ActiveConns b;
     LastChecked := LastChecked b; FailureCount := v;
     TotalRequests := TotalRequests b; FailedReqs := FailedReqs b |}.
Definition with_TotalRequests (v : Z) (b : Backend) : Backend :=
  {| BURL := BURL b; IsAlive := IsAlive b; ActiveConns := ActiveConns b;
     LastChecked := LastChecked b; FailureCount := FailureCount b;
     TotalRequests := v; FailedReqs := FailedReqs b |}.
Definition with_FailedReqs (v : Z) (b : Backend) : Backend :=
  {| BURL := BURL b; IsAlive := IsAlive b; ActiveConns := ActiveConns b;
     LastChecked := LastChecked b; FailureCount := FailureCount b;
     TotalRequests := TotalRequests b; FailedReqs := v |}.

Section WithParse.
(** [url.Parse], from Go's standard library. *)
Variable Parse : string -> option URL.

Definition NewBackend (backendURL : string) (now : Instant) : outcome Backend :=
  match Parse backendURL with
  | None => Err ErrURL
  | Some u =>
      Ok {| BURL := u; IsAlive := true; ActiveConns := 0; LastChecked := now;
            FailureCount := 0; TotalRequests := 0; FailedReqs := 0 |}
  end.
End WithParse.

Definition IncrementActiveConns (b : Backend) : Backend :=
  with_ActiveConns (wrap32 (ActiveConns b + 1)) b.

Definition DecrementActiveConns (b : Backend) : Backend :=
  with_ActiveConns (wrap32 (ActiveConns b + -1)) b.

Definition GetActiveConns (b : Backend) : Z := ActiveConns b.

Definition MarkUp (now : Instant) (b : Backend) : Backend :=
  with_LastChecked now (with_FailureCount 0 (with_IsAlive true b)).

Definition MarkDown (now : Instant) (b : Backend) : Backend :=
  with_LastChecked now (with_IsAlive false b).

Definition IsAvailable (b : Backend) : bool := IsAlive b.

Definition IncrementFailureCount (b : Backend) : Backend :=
  with_FailureCount (wrap32 (FailureCount b + 1)) b.

Definition RecordRequest (success : bool) (b : Backend) : Backend :=
  let b := with_TotalRequests (wrap64 (TotalRequests b + 1)) b in
  if negb success then with_FailedReqs (wrap64 (FailedReqs b + 1)) b else b.

(** The registry.  The Go slice holds pointers; a [*Backend] of the registry
    is identified with its position in [backends], and a method called
    through the pointer updates the object at that position. *)
Abbreviation ptr := nat (only parsing).

Record BaseBalancer : Type := { backends : list Backend }.

Definition NewBaseBalancer (bs : list Backend) : BaseBalancer :=
  {| backends := bs |}.

Definition deref (b : BaseBalancer) (p : ptr) : option Backend :=
  backends b !! p.

Definition update (b : BaseBalancer) (p : ptr) (f : Backend -> Backend)
  : BaseBalancer :=
  {| backends := alter f p (backends b) |}.

Definition same_URL (x y : Backend) : bool :=
  bool_decide (URL_String (BURL x) = URL_String (BURL y)).

(** Position of the first registered backend with the URL of [backend]:
    the [for ... range b.backends] loops that compare [URL.String()]. *)
Fixpoint find_by_URL (bs : list Backend) (backend : Backend) : option ptr :=
  match bs with
  | [] => None
  | existingBackend :: rest =>
      if same_URL existingBackend backend then Some 0%nat
      else S <$> find_by_URL rest backend
  end.

Definition RegisterBackend (b : BaseBalancer) (backend : Backend) : BaseBalancer :=
  match find_by_URL (backends b) backend with
  | Some _ => b
  | None => {| backends := backends b ++ [backend] |}
  end.

Definition RemoveBackend (b : BaseBalancer) (backend : Backend) : BaseBalancer :=
  match find_by_URL (backends b) backend with
  | Some i => {| backends := take i (backends b) ++ drop (S i) (backends b) |}
  | None => b
  end.

Definition MarkBackendDown (b : BaseBalancer) (backend : Backend) (now : Instant)
  : BaseBalancer :=
  match find_by_URL (backends b) backend with
  | Some i => update b i (MarkDown now)
  | None => b
  end.

Definition MarkBackendUp (b : BaseBalancer) (backend : Backend) (now : Instant)
  : BaseBalancer :=
  match find_by_URL (backends b) backend with
  | Some i => update b i (MarkUp now)
  | None => b
  end.

(** The loop of [GetHealthyBackends], started at position [i]. *)
Fixpoint healthy_from (i : ptr) (bs : list Backend) : list ptr :=
  match bs with
  | [] => []
  | backend :: rest =>
      if IsAvailable backend then i :: healthy_from (S i) rest
      else healthy_from (S i) rest
  end.

Definition GetHealthyBackends (b : BaseBalancer) : list ptr :=
  healthy_from 0%nat (backends b).

Definition GetAllBackends (b : BaseBalancer) : list ptr :=
  seq 0 (length (backends b)).

(** [s[i]] for a Go slice and a signed index: a panic when out of range. *)
Definition index {A : Type} (s : list A) (i : Z) : outcome A :=
  if i <? 0 then Panic
  else match s !! Z.to_nat i with
       | Some a => Ok a
       | None => Panic
       end.

(** *** roundrobin.go *)

Record RoundRobinBalancer : Type := {
  rr_base : BaseBalancer;
  current : Z             (* atomic.Int64 *)
}.

Definition NewRoundRobinBalancer (bs : list Backend) : RoundRobinBalancer :=
  {| rr_base := NewBaseBalancer bs; current := 0 |}.

(** Go's [%] truncates toward zero: [Z.rem]. *)
Definition rr_NextBackend (rb : RoundRobinBalancer)
  : RoundRobinBalancer * outcome ptr :=
  let healthy := GetHealthyBackends (rr_base rb) in
  if (length healthy =? 0)%nat then (rb, Err ErrNoBackends)
  else
    let cur := wrap64 (current rb + 1) in
    let next := Z.rem cur (Z.of_nat (length healthy)) in
    ({| rr_base := rr_base rb; current := cur |}, index healthy next).

(** *** Least connections *)

Record LeastConnectionsBalancer : Type := { lc_base : BaseBalancer }.

Definition NewLeastConnectionsBalancer (bs : list Backend)
  : LeastConnectionsBalancer :=
  {| lc_base := NewBaseBalancer bs |}.

Definition conns_of (b : BaseBalancer) (p : ptr) : Z :=
  match deref b p with
  | Some backend => GetActiveConns backend
  | None => 0
  end.

(** The scan [for i := 1; i < len(healthy); i++]: [rest] is [healthy[i:]]. *)
Fixpoint lc_scan (b : BaseBalancer) (rest : list ptr) (i : nat)
    (minIdx : nat) (minConn : Z) : nat * Z :=
  match rest with
  | [] => (minIdx, minConn)
  | p :: rest' =>
      let conn := conns_of b p in
      if conn <? minConn then lc_scan b rest' (S i) i conn
      else lc_scan b rest' (S i) minIdx minConn
  end.

Definition lc_NextBackend (lb : LeastConnectionsBalancer) : outcome ptr :=
  let healthy := GetHealthyBackends (lc_base lb) in
  match healthy with
  | [] => Err ErrNoBackends
  | h0 :: rest =>
      let '(minIdx, _) := lc_scan (lc_base lb) rest 1%nat 0%nat (conns_of (lc_base lb) h0) in
      index healthy (Z.of_nat minIdx)
  end.

(** *** Random *)

Record RandomBalancer : Type := { rnd_base : BaseBalancer }.

Definition NewRandomBalancer (bs : list Backend) : RandomBalancer :=
  {| rnd_base := NewBaseBalancer bs |}.

Definition rnd_NextBackend (rb : RandomBalancer) (now : Instant) : outcome ptr :=
  let healthy := GetHealthyBackends (rnd_base rb) in
  if (length healthy =? 0)%nat then Err ErrNoBackends
  else index healthy (Z.rem now (Z.of_nat (length healthy))).

(** *** The [Balancer] interface and its three implementations *)

Inductive Balancer : Type :=
  | RoundRobin (rb : RoundRobinBalancer)
  | LeastConnections (lb : LeastConnectionsBalancer)
  | Random (rb : RandomBalancer).

Definition base (bal : Balancer) : BaseBalancer :=
  match bal with
  | RoundRobin rb => rr_base rb
  | LeastConnections lb => lc_base lb
  | Random rb => rnd_base rb
  end.

Definition with_base (bal : Balancer) (b : BaseBalancer) : Balancer :=
  match bal with
  | RoundRobin rb => RoundRobin {| rr_base := b; current := current rb |}
  | LeastConnections _ => LeastConnections {| lc_base := b |}
  | Random _ => Random {| rnd_base := b |}
  end.

Definition Name (bal : Balancer) : string :=
  match bal with
  | RoundRobin _ => "round_robin"
  | LeastConnections _ => "least_connections"
  | Random _ => "random"
  end.

Definition NextBackend (bal : Balancer) (now : Instant) : Balancer * outcome ptr :=
  match bal with
  | RoundRobin rb => let '(rb', r) := rr_NextBackend rb in (RoundRobin rb', r)
  | LeastConnections lb => (bal, lc_NextBackend lb)
  | Random rb => (bal, rnd_NextBackend rb now)
  end.

Section Factory.
Variable Parse : string -> option URL.

(** The loop over [cfg.Backends]: an entry that does not parse is logged
    and skipped.  [now] stands for the clock readings of the [NewBackend]
    calls, which only end up in [LastChecked]. *)
Fixpoint collect (cfgs : list config.BackendConfig) (now : Instant)
  : list Backend :=
  match cfgs with
  | [] => []
  | backendCfg :: rest =>
      match NewBackend Parse (config.URL backendCfg) now with
      | Ok backend => backend :: collect rest now
      | _ => collect rest now
      end
  end.

Definition BalancerFactory (cfg : config.Config) (now : Instant)
  : outcome Balancer :=
  let bs := collect (config.Backends cfg) now in
  if (length bs =? 0)%nat then Err ErrNoValidBackends
  else
    if String.eqb (config.Algorithm cfg) "round_robin"
    then Ok (RoundRobin (NewRoundRobinBalancer bs))
    else if String.eqb (config.Algorithm cfg) "least_connections"
    then Ok (LeastConnections (NewLeastConnectionsBalancer bs))
    else if String.eqb (config.Algorithm cfg) "random"
    then Ok (Random (NewRandomBalancer bs))
    else Ok (RoundRobin (NewRoundRobinBalancer bs)).
End Factory.

End balancer.

(** *** StartHealthChecks and package health *)

Module health.
Import balancer.

Record HTTPHealthChecker : Type := {
  path : string;
  timeout : Z;
  threshold : Z
}.

Definition NewHTTPHealthChecker (cfg : config.HealthCheckConfig)
  : HTTPHealthChecker :=
  let timeout := Z.quot (config.Interval cfg) 2 in
  let timeout := if 5 * 1000000000 <? timeout then 5 * 1000000000 else timeout in
  {| path := config.HPath cfg; timeout := timeout; threshold := 3 |}.

(** What the GET of one probe comes back with; it is decided by the network
    and the upstream, outside the program. *)
Inductive probe : Type :=
  | NewRequestFailed          (* http.NewRequestWithContext returned an error *)
  | DoFailed                  (* hc.client.Do returned an error *)
  | Status (code : Z).        (* a response with this status code *)

(** The two identical [if backend.IsAvailable() { ... }] blocks of [Check]. *)
Definition count_failure (hc : HTTPHealthChecker) (backend : Backend)
  : Backend * bool :=
  if IsAvailable backend then
    let backend := IncrementFailureCount backend in
    if wrap32 (threshold hc) <=? FailureCount backend
    then (backend, false)
    else (backend, true)
  else (backend, false).

(** [Check] works on the backend through its pointer: the updated object is
    returned next to the verdict. *)
Definition Check (hc : HTTPHealthChecker) (r : probe) (backend : Backend)
  : Backend * bool :=
  match r with
  | NewRequestFailed => (backend, false)
  | DoFailed => count_failure hc backend
  | Status code =>
      if (200 <=? code) && (code <? 400) then (backend, true)
      else count_failure hc backend
  end.

End health.

Module healthloop.
Import balancer.

(** The body of one goroutine of a tick, for the backend behind [p]:
    [healthChecker.Check(ctx, b)] and then [MarkBackendUp] or
    [MarkBackendDown].  [check] is the [HealthChecker] at that moment. *)
Definition probe_one (check : ptr -> Backend -> Backend * bool) (now : Instant)
    (bal : BaseBalancer) (p : ptr) : BaseBalancer :=
  match deref bal p with
  | None => bal
  | Some b =>
      let '(b', isHealthy) := check p b in
      let bal := update bal p (fun _ => b') in
      if isHealthy then MarkBackendUp bal b' now
      else MarkBackendDown bal b' now
  end.

(** One firing of the ticker.  The goroutines of a tick work on different
    backends; they are run one after the other, and a tick is over before
    the next one fires. *)
Definition tick (check : ptr -> Backend -> Backend * bool) (now : Instant)
    (bal : BaseBalancer) : BaseBalancer :=
  fold_left (probe_one check now) (GetAllBackends bal) bal.

(** [StartHealthChecks]: the ticks that fire before the context is
    cancelled, each with its instant and the checker's view of the world. *)
Definition StartHealthChecks (cfg : config.HealthCheckConfig)
    (ticks : list (Instant * (ptr -> Backend -> Backend * bool)))
    (bal : BaseBalancer) : BaseBalancer :=
  if negb (config.Enabled cfg) then bal
  else fold_left (fun bal t => tick (snd t) (fst t) bal) ticks bal.

End healthloop.

(** ** net/http, as far as the handlers use it *)

Record Request : Type := {
  Method : string;
  Header : gmap string (list string);
  RemoteAddr : string;
  Query : gmap string string;
  (** the body decoded as a [ClientConfigRequest]: id, capacity, refill rate;
      [None] when the decoder fails *)
  JSON : option (string * Z * Z)
}.

(** [Header.Get]: the first value stored under the name, or the empty
    string.  Go puts both the stored and the requested name in canonical form;
    here a header is stored under the name the handlers ask for. *)
Definition Header_Get (h : gmap string (list string)) (key : string) : string :=
  match h !! key with
  | Some (v :: _) => v
  | _ => ""
  end.

Definition Query_Get (q : gmap string string) (key : string) : string :=
  default "" (q !! key).

Inductive body : Type :=
  | NoBody
  | Text (s : string)
  | JSONError (code : Z) (message : string)
  | JSONConfig (clientID : string) (cap rate : Z)
  | JSONStatus (clientID : string) (cap rate remaining percentage : Z)
  | Streamed.                       (* the upstream's body, copied through *)

Record ResponseWriter : Type := {
  WHeader : gmap string string;
  WStatus : Z;
  WBody : body
}.

Definition NewResponseWriter : ResponseWriter :=
  {| WHeader := ∅; WStatus := 200; WBody := NoBody |}.

Definition Header_Set (w : ResponseWriter) (k v : string) : ResponseWriter :=
  {| WHeader := <[k := v]> (WHeader w); WStatus := WStatus w; WBody := WBody w |}.

Definition WriteHeader (w : ResponseWriter) (code : Z) : ResponseWriter :=
  {| WHeader := WHeader w; WStatus := code; WBody := WBody w |}.

Definition WriteBody (w : ResponseWriter) (b : body) : ResponseWriter :=
  {| WHeader := WHeader w; WStatus := WStatus w; WBody := b |}.

(** [http.Error] *)
Definition http_Error (w : ResponseWriter) (msg : string) (code : Z)
  : ResponseWriter :=
  let w := Header_Set w "Content-Type" "text/plain; charset=utf-8" in
  let w := Header_Set w "X-Content-Type-Options" "nosniff" in
  WriteBody (WriteHeader w code) (Text msg).

Definition StatusOK : Z := 200.
Definition StatusNoContent : Z := 204.
Definition StatusBadRequest : Z := 400.
Definition StatusMethodNotAllowed : Z := 405.
Definition StatusTooManyRequests : Z := 429.
Definition StatusInternalServerError : Z := 500.
Definition StatusBadGateway : Z := 502.
Definition StatusServiceUnavailable : Z := 503.

(** ** package strings, the two functions used *)

(** [strings.Split(s, sep)] for a one-character separator. *)
Fixpoint Split (s : string) (sep : ascii) : list string :=
  match s with
  | EmptyString => [EmptyString]
  | String c r =>
      if Ascii.eqb c sep then EmptyString :: Split r sep
      else match Split r sep with
           | x :: xs => String c x :: xs
           | [] => [String c EmptyString]
           end
  end.

(** The value of a byte of a string. *)
Definition byte (c : ascii) : Z := Z.of_N (N_of_ascii c).

(** The ASCII white space: tab, line feed, vertical tab, form feed, carriage
    return, space. *)
Definition isSpace (c : ascii) : bool :=
  let n := nat_of_ascii c in
  ((9 <=? n)%nat && (n <=? 13)%nat) || (n =? 32)%nat.

(** *** package unicode/utf8 *)

Definition RuneError : Z := 65533.

(** A byte other than a continuation byte [10xxxxxx]. *)
Definition RuneStart (c : ascii) : bool :=
  negb ((128 <=? byte c) && (byte c <? 192)).

Definition between (lo hi : Z) (c : ascii) : bool :=
  (lo <=? byte c) && (byte c <=? hi).

(** [utf8.DecodeRuneInString]: the first rune of the string and its width
    in bytes.  A byte that does not begin a well-formed encoding is
    [RuneError] of width 1: a stray continuation byte, an overlong form, a
    surrogate, a value above U+10FFFF, a sequence cut short. *)
Definition DecodeRuneInString (s : string) : Z * nat :=
  match s with
  | EmptyString => (RuneError, 0%nat)
  | String c0 r =>
      let s0 := byte c0 in
      if s0 <? 128 then (s0, 1%nat)
      else if (s0 <? 194) || (244 <? s0) then (RuneError, 1%nat)
      else
        let lo := if s0 =? 224 then 160 else if s0 =? 240 then 144 else 128 in
        let hi := if s0 =? 237 then 159 else if s0 =? 244 then 143 else 191 in
        match r with
        | String c1 r1 =>
            if negb (between lo hi c1) then (RuneError, 1%nat)
            else if s0 <? 224
            then (Z.lor (Z.shiftl (Z.land s0 31) 6) (Z.land (byte c1) 63), 2%nat)
            else
              match r1 with
              | String c2 r2 =>
                  if negb (between 128 191 c2) then (RuneError, 1%nat)
                  else if s0 <? 240
                  then (Z.lor (Z.shiftl (Z.land s0 15) 12)
                          (Z.lor (Z.shiftl (Z.land (byte c1) 63) 6)
                             (Z.land (byte c2) 63)), 3%nat)
                  else
                    match r2 with
                    | String c3 _ =>
                        if negb (between 128 191 c3) then (RuneError, 1%nat)
                        else (Z.lor (Z.shiftl (Z.land s0 7) 18)
                                (Z.lor (Z.shiftl (Z.land (byte c1) 63) 12)
                                   (Z.lor (Z.shiftl (Z.land (byte c2) 63) 6)
                                      (Z.land (byte c3) 63))), 4%nat)
                    | EmptyString => (RuneError, 1%nat)
                    end
              | EmptyString => (RuneError, 1%nat)
              end
        | EmptyString => (RuneError, 1%nat)
        end
  end.

(** [utf8.DecodeLastRuneInString], given the bytes of the string from the
    last to the first.  The rune starts at the nearest byte before the last
    one, at most three back, that is not a continuation byte, and it must end
    where the string ends; otherwise the last byte is [RuneError] of width 1. *)
Definition DecodeLastRuneInString (rev : list ascii) : Z * nat :=
  match rev with
  | [] => (RuneError, 0%nat)
  | c :: before =>
      if byte c <? 128 then (byte c, 1%nat)
      else
        let from (k : nat) :=
          let '(r, size) :=
            DecodeRuneInString (string_of_list_ascii (reverse (take k rev))) in
          if (size =? k)%nat then (r, size) else (RuneError, 1%nat) in
        match before with
        | b1 :: b2 :: b3 :: _ =>
            if RuneStart b1 then from 2%nat
            else if RuneStart b2 then from 3%nat
            else if RuneStart b3 then from 4%nat
            else (RuneError, 1%nat)
        | [b1; b2] =>
            if RuneStart b1 then from 2%nat
            else if RuneStart b2 then from 3%nat
            else (RuneError, 1%nat)
        | [b1] => if RuneStart b1 then from 2%nat else (RuneError, 1%nat)
        | [] => (RuneError, 1%nat)
        end
  end.

(** *** package unicode *)

(** [unicode.IsSpace]: the white space of Latin-1, then the rest of the
    Unicode property White_Space. *)
Definition IsSpace (r : Z) : bool :=
  if r <=? 255
  then ((9 <=? r) && (r <=? 13)) || (r =? 32) || (r =? 133) || (r =? 160)
  else (r =? 5760) || ((8192 <=? r) && (r <=? 8202)) || (r =? 8232) ||
       (r =? 8233) || (r =? 8239) || (r =? 8287) || (r =? 12288).

(** *** [strings.TrimSpace]

    The string without its leading and its trailing white space, rune by
    rune.  [skip] counts the bytes of a white-space rune still to drop. *)
Fixpoint TrimLeft_from (skip : nat) (s : string) : string :=
  match skip, s with
  | _, EmptyString => EmptyString
  | S k, String _ r => TrimLeft_from k r
  | O, String _ r =>
      let '(rune, size) := DecodeRuneInString s in
      if IsSpace rune then TrimLeft_from (size - 1) r else s
  end.

Definition TrimLeft (s : string) : string := TrimLeft_from 0 s.

(** The same from the end, on the bytes from the last to the first. *)
Fixpoint TrimRight_from (skip : nat) (rev : list ascii) : list ascii :=
  match skip, rev with
  | _, [] => []
  | S k, _ :: before => TrimRight_from k before
  | O, _ :: before =>
      let '(rune, size) := DecodeLastRuneInString rev in
      if IsSpace rune then TrimRight_from (size - 1) before else rev
  end.

Definition TrimRight (s : string) : string :=
  string_of_list_ascii
    (reverse (TrimRight_from 0 (reverse (list_ascii_of_string s)))).

Definition TrimSpace (s : string) : string := TrimRight (TrimLeft s).

(** ** package ratelimit *)

Module ratelimit.

Section WithStorage.
Context {S : Type} `{Storage S}.

Record TokenBucketRateLimiter : Type := {
  storage : S;
  defaultConfig : config.TokenBucketConfig;
  clients : gmap string clientConfig
}.

Definition NewTokenBucketRateLimiter (store : S) (cfg : config.RateLimitConfig)
  : outcome TokenBucketRateLimiter :=
  match Ping store with
  | Some err => Err err
  | None => Ok {| storage := store; defaultConfig := config.Default cfg;
                  clients := ∅ |}
  end.

Definition getClientConfig (tb : TokenBucketRateLimiter) (clientID : string)
  : TokenBucketRateLimiter * (Z * Z * option error) :=
  match clients tb !! clientID with
  | Some cfg => (tb, (capacity cfg, refillRate cfg, None))
  | None =>
      let '(cap, rate, err) := GetClientConfig (storage tb) clientID in
      match err with
      | Some e => (tb, (0, 0, Some e))
      | None =>
          let '(cap, rate) :=
            if (cap =? 0) || (rate =? 0)
            then (config.Capacity (defaultConfig tb),
                  config.RefillRate (defaultConfig tb))
            else (cap, rate) in
          ({| storage := storage tb; defaultConfig := defaultConfig tb;
              clients := <[clientID := {| capacity := cap; refillRate := rate |}]>
                           (clients tb) |},
           (cap, rate, None))
      end
  end.

Definition Allow (tb : TokenBucketRateLimiter) (now : Instant)
    (clientID : string) (tokens : Z)
  : TokenBucketRateLimiter * (bool * Z * option error) :=
  if tokens <=? 0 then (tb, (true, 0, None))
  else
    let '(tb, (cap, rate, err)) := getClientConfig tb clientID in
    match err with
    | Some e => (tb, (false, 0, Some e))
    | None =>
        let '(store, (allowed, remaining, err)) :=
          TakeTokens (storage tb) now clientID tokens cap rate in
        let tb := {| storage := store; defaultConfig := defaultConfig tb;
                     clients := clients tb |} in
        match err with
        | Some e => (tb, (false, 0, Some e))
        | None =>
            if negb allowed then (tb, (false, remaining, Some ErrRateLimitExceeded))
            else (tb, (true, remaining, None))
        end
    end.

Definition UpdateClientConfig (tb : TokenBucketRateLimiter)
    (clientID : string) (cap rate : Z)
  : TokenBucketRateLimiter * option error :=
  if (cap <=? 0) || (rate <=? 0) then (tb, Some ErrInvalid)
  else
    let '(store, err) := SetClientConfig (storage tb) clientID cap rate in
    let tb := {| storage := store; defaultConfig := defaultConfig tb;
                 clients := clients tb |} in
    match err with
    | Some e => (tb, Some e)
    | None =>
        ({| storage := storage tb; defaultConfig := defaultConfig tb;
            clients := <[clientID := {| capacity := cap; refillRate := rate |}]>
                         (clients tb) |}, None)
    end.

(** *** The management handlers

    [ClientManager.storage] is the very store of its rate limiter (main.go
    passes the same object to both), so the manager is its limiter plus
    the default configuration. *)
Record ClientManager : Type := {
  rateLimiter : TokenBucketRateLimiter;
  cm_defaultConfig : config.TokenBucketConfig
}.

Definition cm_storage (cm : ClientManager) : S := storage (rateLimiter cm).

Definition with_storage (cm : ClientManager) (store : S) : ClientManager :=
  {| rateLimiter := {| storage := store;
                       defaultConfig := defaultConfig (rateLimiter cm);
                       clients := clients (rateLimiter cm) |};
     cm_defaultConfig := cm_defaultConfig cm |}.

Definition NewClientManager (limiter : TokenBucketRateLimiter)
    (cfg : config.RateLimitConfig) : ClientManager :=
  {| rateLimiter := limiter; cm_defaultConfig := config.Default cfg |}.

Definition sendErrorResponse (w : ResponseWriter) (statusCode : Z)
    (message : string) : ResponseWriter :=
  let w := Header_Set w "Content-Type" "application/json" in
  WriteBody (WriteHeader w statusCode) (JSONError statusCode message).

Definition HandleAddClient (cm : ClientManager) (w : ResponseWriter)
    (r : Request) : ClientManager * ResponseWriter :=
  if negb (String.eqb (Method r) "POST")
  then (cm, sendErrorResponse w StatusMethodNotAllowed "Method not allowed")
  else
    match JSON r with
    | None => (cm, sendErrorResponse w StatusBadRequest "Invalid request format")
    | Some (ClientID, Capacity, RefillRate) =>
        if String.eqb ClientID ""
        then (cm, sendErrorResponse w StatusBadRequest "Client ID is required")
        else
          let Capacity :=
            if Capacity <=? 0 then config.Capacity (cm_defaultConfig cm)
            else Capacity in
          let RefillRate :=
            if RefillRate <=? 0 then config.RefillRate (cm_defaultConfig cm)
            else RefillRate in
          let '(tb, err) :=
            UpdateClientConfig (rateLimiter cm) ClientID Capacity RefillRate in
          let cm := {| rateLimiter := tb; cm_defaultConfig := cm_defaultConfig cm |} in
          match err with
          | Some _ =>
              (cm, sendErrorResponse w StatusInternalServerError
                     "Failed to update client configuration")
          | None =>
              let w := Header_Set w "Content-Type" "application/json" in
              (cm, WriteBody (WriteHeader w StatusOK)
                     (JSONConfig ClientID Capacity RefillRate))
          end
    end.

Definition HandleGetClient (cm : ClientManager) (w : ResponseWriter)
    (r : Request) : ClientManager * ResponseWriter :=
  if negb (String.eqb (Method r) "GET")
  then (cm, sendErrorResponse w StatusMethodNotAllowed "Method not allowed")
  else
    let clientID := Query_Get (Query r) "client_id" in
    if String.eqb clientID ""
    then (cm, sendErrorResponse w StatusBadRequest "Client ID is required")
    else
      let '(cap, rate, err) := GetClientConfig (cm_storage cm) clientID in
      match err with
      | Some _ =>
          (cm, sendErrorResponse w StatusInternalServerError
                 "Failed to get client configuration")
      | None =>
          let '(cap, rate) :=
            if (cap =? 0) || (rate =? 0)
            then (config.Capacity (cm_defaultConfig cm),
                  config.RefillRate (cm_defaultConfig cm))
            else (cap, rate) in
          let w := Header_Set w "Content-Type" "application/json" in
          (cm, WriteBody (WriteHeader w StatusOK) (JSONConfig clientID cap rate))
      end.

Definition HandleDeleteClient (cm : ClientManager) (w : ResponseWriter)
    (r : Request) : ClientManager * ResponseWriter :=
  if negb (String.eqb (Method r) "DELETE")
  then (cm, sendErrorResponse w StatusMethodNotAllowed "Method not allowed")
  else
    let clientID := Query_Get (Query r) "client_id" in
    if String.eqb clientID ""
    then (cm, sendErrorResponse w StatusBadRequest "Client ID is required")
    else
      let '(store, err) := SetClientConfig (cm_storage cm) clientID 0 0 in
      let cm := with_storage cm store in
      match err with
      | Some _ =>
          (cm, sendErrorResponse w StatusInternalServerError
                 "Failed to delete client configuration")
      | None => (cm, WriteHeader w StatusNoContent)
      end.

Definition HandleCRUD (cm : ClientManager) (w : ResponseWriter) (r : Request)
  : ClientManager * ResponseWriter :=
  if String.eqb (Method r) "POST" then HandleAddClient cm w r
  else if String.eqb (Method r) "GET" then HandleGetClient cm w r
  else if String.eqb (Method r) "DELETE" then HandleDeleteClient cm w r
  else (cm, sendErrorResponse w StatusMethodNotAllowed "Method not allowed").

Section WithNet.
(** [net.SplitHostPort], from Go's standard library: host and port, or
    [None] for its error. *)
Variable SplitHostPort : string -> option (string * string).

Definition getClientIP (r : Request) : string :=
  let forwardedFor := Header_Get (Header r) "X-Forwarded-For" in
  if negb (String.eqb forwardedFor "") then forwardedFor
  else
    let realIP := Header_Get (Header r) "X-Real-IP" in
    if negb (String.eqb realIP "") then realIP
    else
      match SplitHostPort (RemoteAddr r) with
      | None => RemoteAddr r
      | Some (remoteIP, _) => remoteIP
      end.

(** The client whose status [HandleStatus] reports. *)
Definition status_clientID (r : Request) : string :=
  let clientID := Query_Get (Query r) "client_id" in
  if String.eqb clientID "" then getClientIP r else clientID.

(** [int(float64(remaining) / float64(capacity) * 100)] *)
Definition percentage (remaining cap : Z) : Z :=
  float64.to_int
    (float64.mul (float64.div (float64.of_int remaining) (float64.of_int cap))
       (float64.of_int 100)).

Definition HandleStatus (cm : ClientManager) (now : Instant)
    (w : ResponseWriter) (r : Request) : ClientManager * ResponseWriter :=
  if negb (String.eqb (Method r) "GET")
  then (cm, sendErrorResponse w StatusMethodNotAllowed "Method not allowed")
  else
    let clientID := status_clientID r in
    let '(cap, rate, err) := GetClientConfig (cm_storage cm) clientID in
    match err with
    | Some _ =>
        (cm, sendErrorResponse w StatusInternalServerError
               "Failed to get client status")
    | None =>
        let '(cap, rate) :=
          if (cap =? 0) || (rate =? 0)
          then (config.Capacity (cm_defaultConfig cm),
                config.RefillRate (cm_defaultConfig cm))
          else (cap, rate) in
        let '(tb, (_, remaining, err)) :=
          Allow (rateLimiter cm) now clientID 0 in
        let cm := {| rateLimiter := tb; cm_defaultConfig := cm_defaultConfig cm |} in
        match err with
        | Some _ =>
            (cm, sendErrorResponse w StatusInternalServerError
                   "Failed to get tokens remaining")
        | None =>
            let w := Header_Set w "Content-Type" "application/json" in
            (cm, WriteBody (WriteHeader w StatusOK)
                   (JSONStatus clientID cap rate remaining
                      (percentage remaining cap)))
        end
    end.
End WithNet.

End WithStorage.

Arguments TokenBucketRateLimiter S : clear implicits.
Arguments ClientManager S : clear implicits.

End ratelimit.

(** ** package proxy *)

Module proxy.
Import balancer.

Section WithStorage.
Context {S : Type} `{Storage S}.

Definition ErrorHandler : Type := ResponseWriter -> Request -> error -> ResponseWriter.

(** The rate limiter field is an interface value, [nil] when rate limiting
    is off; the token-bucket limiter is its one implementation. *)
Record Proxy : Type := {
  p_balancer : Balancer;
  rateLimiter : option (ratelimit.TokenBucketRateLimiter S);
  errorHandler : ErrorHandler
}.

(** The handler installed by [NewProxy]. *)
Definition defaultErrorHandler : ErrorHandler :=
  fun w r err => http_Error w "Service Unavailable" StatusServiceUnavailable.

Definition NewProxy (loadBalancer : Balancer) : Proxy :=
  {| p_balancer := loadBalancer; rateLimiter := None;
     errorHandler := defaultErrorHandler |}.

Definition WithErrorHandler (handler : ErrorHandler) (p : Proxy) : Proxy :=
  {| p_balancer := p_balancer p; rateLimiter := rateLimiter p;
     errorHandler := handler |}.

Definition WithRateLimiter
    (limiter : option (ratelimit.TokenBucketRateLimiter S)) (p : Proxy) : Proxy :=
  {| p_balancer := p_balancer p; rateLimiter := limiter;
     errorHandler := errorHandler p |}.

(** What the deferred [requestLogger] call receives. *)
Record logEntry : Type := {
  log_backend : option ptr;
  log_status : Z;
  log_err : option error
}.

Section WithNet.
Variable SplitHostPort : string -> option (string * string).

Definition getClientIP (r : Request) : string :=
  let forwardedFor := Header_Get (Header r) "X-Forwarded-For" in
  if negb (String.eqb forwardedFor "") then
    let ips := Split forwardedFor "," in
    TrimSpace (hd EmptyString ips)
  else
    let realIP := Header_Get (Header r) "X-Real-IP" in
    if negb (String.eqb realIP "") then realIP
    else
      match SplitHostPort (RemoteAddr r) with
      | None => RemoteAddr r
      | Some (ip, _) => ip
      end.

(** The rate-limit gate of [ServeHTTP]: [inl] when the handler has
    answered and returned, [inr] when the request goes on. *)
Definition gate (p : Proxy) (now : Instant) (w : ResponseWriter) (r : Request)
  : Proxy * (ResponseWriter * logEntry + ResponseWriter) :=
  match rateLimiter p with
  | None => (p, inr w)
  | Some limiter =>
      let clientIP := getClientIP r in
      let '(limiter, (allowed, remaining, err)) :=
        ratelimit.Allow limiter now clientIP 1 in
      let p := {| p_balancer := p_balancer p; rateLimiter := Some limiter;
                  errorHandler := errorHandler p |} in
      match err with
      | Some e =>
          (p, inl (errorHandler p w r e,
                   {| log_backend := None;
                      log_status := StatusInternalServerError;
                      log_err := None |}))
      | None =>
          if negb allowed then
            let w := Header_Set w "X-RateLimit-Remaining"
                       (pretty remaining) in
            let w := Header_Set w "Retry-After" "1" in
            (p, inl (http_Error w "Rate limit exceeded" StatusTooManyRequests,
                     {| log_backend := None;
                        log_status := StatusTooManyRequests;
                        log_err := None |}))
          else (p, inr w)
      end
  end.

Definition on_backend (p : Proxy) (b : ptr) (f : Backend -> Backend) : Proxy :=
  {| p_balancer := with_base (p_balancer p) (update (base (p_balancer p)) b f);
     rateLimiter := rateLimiter p; errorHandler := errorHandler p |}.

(** [upstream] is what forwarding this request to the chosen backend
    comes back with: [None] for a transport failure, otherwise the status
    code of the upstream's response. *)
Definition ServeHTTP (p : Proxy) (now : Instant) (upstream : ptr -> option Z)
    (w : ResponseWriter) (r : Request) : Proxy * (ResponseWriter * logEntry) :=
  let '(p, g) := gate p now w r in
  match g with
  | inl done => (p, done)
  | inr w =>
      let '(bal, res) := NextBackend (p_balancer p) now in
      let p := {| p_balancer := bal; rateLimiter := rateLimiter p;
                  errorHandler := errorHandler p |} in
      match res with
      | Panic =>
          (p, (w, {| log_backend := None; log_status := StatusOK;
                     log_err := None |}))
      | Err e =>
          (p, (errorHandler p w r e,
               {| log_backend := None;
                  log_status := StatusServiceUnavailable;
                  log_err := None |}))
      | Ok backend =>
          let p := on_backend p backend IncrementActiveConns in
          let '(p, out) :=
            match upstream backend with
            | None =>
                let p := on_backend p backend (RecordRequest false) in
                let p := on_backend p backend IncrementFailureCount in
                (p, (errorHandler p w r (ErrStore "upstream"),
                     {| log_backend := Some backend;
                        log_status := StatusBadGateway;
                        log_err := Some (ErrStore "upstream") |}))
            | Some statusCode =>
                let p := on_backend p backend
                           (RecordRequest (negb (500 <=? statusCode))) in
                (p, (WriteBody (WriteHeader w statusCode) Streamed,
                     {| log_backend := Some backend;
                        log_status := statusCode;
                        log_err := None |}))
            end in
          (on_backend p backend DecrementActiveConns, out)
      end
  end.
End WithNet.

End WithStorage.

Arguments Proxy S : clear implicits.

End proxy.


(** * Further parts of the program *)

Local Open Scope Z_scope.

(** ** package redis (pkg/redis/client.go): retries *)

Module redisclient.

(** What one call of [fn] returns: nil, an error that [isConnectionError]
    recognises (closed client, deadline exceeded, cancelled), or another
    error.  It is decided by the server and the network. *)
Inductive fn_result : Type :=
  | FnNil
  | FnConnError
  | FnOtherError.

(** The error [WithRetry] returns: nil, the last error of [fn] (a connection
    error or not), or [ctx.Err()]. *)
Inductive retry_error : Type :=
  | NoError
  | LastError (connection : bool)
  | CtxError.

(** What a run of [WithRetry] did: the error returned, the number of calls
    of [fn], and the waits that were sat through, in nanoseconds. *)
Record run : Type := {
  returned : retry_error;
  calls : nat;
  slept : list Z
}.

(** [time.Duration(1<<uint(i)) * 100 * time.Millisecond], capped at two
    seconds.  The shift and the products are int64 operations. *)
Definition backoff (i : Z) : Z :=
  let b := wrap64 (wrap64 (wrap64 (2 ^ i) * 100) * 1000000) in
  if 2 * 1000000000 <? b then 2 * 1000000000 else b.

(** The [for i := 0; i <= maxRetries; i++] loop from iteration [i] on, [err]
    being the variable of that name.  [fn i] is what the call of iteration
    [i] returns and [ctxDone i] tells whether the [select] of that iteration
    ends on [ctx.Done()].  The fuel bounds the iterations still possible. *)
Fixpoint retry_loop (fuel : nat) (i maxRetries : Z) (fn : Z -> fn_result)
    (ctxDone : Z -> bool) (err : retry_error) : run :=
  match fuel with
  | O => {| returned := err; calls := 0; slept := [] |}
  | S fuel' =>
      if negb (i <=? maxRetries) then {| returned := err; calls := 0; slept := [] |}
      else
        match fn i with
        | FnNil => {| returned := NoError; calls := 1; slept := [] |}
        | FnOtherError => {| returned := LastError false; calls := 1; slept := [] |}
        | FnConnError =>
            if i =? maxRetries
            then {| returned := LastError true; calls := 1; slept := [] |}
            else
              if ctxDone i
              then {| returned := CtxError; calls := 1; slept := [] |}
              else
                let rest := retry_loop fuel' (i + 1) maxRetries fn ctxDone
                              (LastError true) in
                {| returned := returned rest; calls := S (calls rest);
                   slept := backoff i :: slept rest |}
        end
  end.

Definition WithRetry (maxRetries : Z) (fn : Z -> fn_result) (ctxDone : Z -> bool)
  : run :=
  retry_loop (Z.to_nat (maxRetries + 1)) 0 maxRetries fn ctxDone NoError.

End redisclient.

(** ** package config: validation *)

Module configcheck.

Record LoggerConfig : Type := {
  Level : string;
  Format : string;
  Output : string;
  FilePath : string
}.

(** The fields of [Config] that [validateConfig] reads: the server port, the
    logging section, and the part modelled as [config.Config] above (the
    backends and the balancing algorithm). *)
Record Settings : Type := {
  Port : Z;
  Logging : LoggerConfig;
  Rest : config.Config
}.

(** [m[k]] for a Go [map[string]bool]: false for a missing key. *)
Definition has (m : gmap string bool) (k : string) : bool := default false (m !! k).

Definition validAlgorithms : gmap string bool :=
  <["round_robin" := true]> (<["least_connections" := true]> (<["random" := true]> ∅)).

Definition validLogLevels : gmap string bool :=
  <["debug" := true]> (<["info" := true]> (<["warn" := true]> (<["error" := true]> ∅))).

Definition validLogFormats : gmap string bool :=
  <["json" := true]> (<["console" := true]> ∅).

Definition validLogOutputs : gmap string bool :=
  <["stdout" := true]> (<["file" := true]> ∅).

Section WithToLower.
(** [strings.ToLower], from Go's standard library. *)
Variable ToLower : string -> string.

(** The error message, or [None] for nil. *)
Definition validateConfig (c : Settings) : option string :=
  if (Port c <=? 0) || (65535 <? Port c)
  then Some "server port must be between 1 and 65535"
  else if (length (config.Backends (Rest c)) =? 0)%nat
  then Some "at least one backend must be configured"
  else if negb (has validAlgorithms (config.Algorithm (Rest c)))
  then Some (String.append "invalid balancer algorithm: " (config.Algorithm (Rest c)))
  else if negb (has validLogLevels (ToLower (Level (Logging c))))
  then Some (String.append "invalid log level: " (Level (Logging c)))
  else if negb (has validLogFormats (ToLower (Format (Logging c))))
  then Some (String.append "invalid log format: " (Format (Logging c)))
  else if negb (has validLogOutputs (ToLower (Output (Logging c))))
  then Some (String.append "invalid log output: " (Output (Logging c)))
  else if String.eqb (ToLower (Output (Logging c))) "file"
          && String.eqb (FilePath (Logging c)) ""
  then Some "file_path must be specified when output is set to file"
  else None.

End WithToLower.

End configcheck.
(** * Runs and scenarios

    Definitions used to state the properties: repeated calls, sequences of
    health-check ticks, and the concrete systems on which the code is run. *)

Local Open Scope string_scope.
Local Open Scope list_scope.
Local Open Scope Z_scope.

(** ** Sequences of [TakeTokens] calls *)

(** One call on a fixed key: the instant it is made at and its arguments. *)
Record take_call : Type := {
  c_now : Z;
  c_take : Z;
  c_cap : Z;
  c_rate : Z
}.

(** The calls made one after the other on a store, with their results. *)
Fixpoint take_all {S : Type} `{Storage S} (s : S) (key : string)
    (calls : list take_call) : S * list (bool * Z * option error) :=
  match calls with
  | [] => (s, [])
  | c :: rest =>
      let '(s1, r) := TakeTokens s (c_now c) key (c_take c) (c_cap c) (c_rate c) in
      let '(s2, rs) := take_all s1 key rest in
      (s2, r :: rs)
  end.

(** An empty networked store with a working connection. *)
Definition NewRedisStorage : RedisStorage.t :=
  {| RedisStorage.db := ∅; RedisStorage.online := true |}.

(** The token count and the refill stamp a store holds for a client. *)
Definition memory_bucket (s : MemoryStorage.t) (key : string) : option (Z * Z) :=
  (fun b => (MemoryStorage.tokens b, MemoryStorage.lastRefill b))
    <$> MemoryStorage.buckets s !! key.

Definition redis_tokens (s : RedisStorage.t) (key : string) : option Z :=
  RedisStorage.HGET (RedisStorage.db s) (RateLimitKey key) "tokens".

Definition redis_lastRefill (s : RedisStorage.t) (key : string) : option Z :=
  RedisStorage.HGET (RedisStorage.db s) (RateLimitKey key) "lastRefill".

(** A bucket of capacity 1 refilled at 1 token per second, asked for one token
    at 0 s, 0.6 s and 1.2 s. *)
Definition slow_client : list take_call :=
  [ {| c_now := 0; c_take := 1; c_cap := 1; c_rate := 1 |};
    {| c_now := 600000000; c_take := 1; c_cap := 1; c_rate := 1 |};
    {| c_now := 1200000000; c_take := 1; c_cap := 1; c_rate := 1 |} ].

(** A client whose capacity is lowered from 10 to 5 between two requests made
    a microsecond apart. *)
Definition lowered_capacity : list take_call :=
  [ {| c_now := 0; c_take := 1; c_cap := 10; c_rate := 1 |};
    {| c_now := 1000; c_take := 1; c_cap := 5; c_rate := 1 |} ].

(** ** Rate limiting *)

(** A limiter over the in-process store, with the default bucket (10, 5). *)
Definition limiter0 : ratelimit.TokenBucketRateLimiter MemoryStorage.t :=
  {| ratelimit.storage := MemoryStorage.NewMemoryStorage;
     ratelimit.defaultConfig := {| config.Capacity := 10; config.RefillRate := 5 |};
     ratelimit.clients := ∅ |}.

(** The limiter after client "c" spent 3 tokens at instant 0. *)
Definition limiter1 : ratelimit.TokenBucketRateLimiter MemoryStorage.t :=
  (ratelimit.Allow limiter0 0 "c" 3).1.

Definition backendA : balancer.Backend :=
  {| balancer.BURL := {| Scheme := "http"; Host := "a"; Path := "" |};
     balancer.IsAlive := true; balancer.ActiveConns := 0;
     balancer.LastChecked := 0; balancer.FailureCount := 0;
     balancer.TotalRequests := 0; balancer.FailedReqs := 0 |}.

(** A proxy in front of one backend, limiting every client to a bucket of
    capacity 1 refilled at 1 token per second, with the handlers of main.go. *)
Definition proxy0 : proxy.Proxy MemoryStorage.t :=
  {| proxy.p_balancer := balancer.RoundRobin (balancer.NewRoundRobinBalancer [backendA]);
     proxy.rateLimiter :=
       Some {| ratelimit.storage := MemoryStorage.NewMemoryStorage;
               ratelimit.defaultConfig :=
                 {| config.Capacity := 1; config.RefillRate := 1 |};
               ratelimit.clients := ∅ |};
     proxy.errorHandler := proxy.defaultErrorHandler |}.

Definition request_from (ip : string) : Request :=
  {| Method := "GET"; Header := {[ "X-Real-IP" := [ip] ]};
     RemoteAddr := "192.0.2.1:4000"; Query := ∅; JSON := None |}.

Definition manager0 : ratelimit.ClientManager MemoryStorage.t :=
  {| ratelimit.rateLimiter :=
       {| ratelimit.storage := MemoryStorage.NewMemoryStorage;
          ratelimit.defaultConfig :=
            {| config.Capacity := 50; config.RefillRate := 10 |};
          ratelimit.clients := ∅ |};
     ratelimit.cm_defaultConfig :=
       {| config.Capacity := 50; config.RefillRate := 10 |} |}.

Definition post_client (id : string) (cap rate : Z) : Request :=
  {| Method := "POST"; Header := ∅; RemoteAddr := "192.0.2.1:4000";
     Query := ∅; JSON := Some (id, cap, rate) |}.

Definition delete_client (id : string) : Request :=
  {| Method := "DELETE"; Header := ∅; RemoteAddr := "192.0.2.1:4000";
     Query := {[ "client_id" := id ]}; JSON := None |}.

Definition forwarded_request : Request :=
  {| Method := "GET";
     Header := {[ "X-Forwarded-For" := ["10.0.0.1, 10.0.0.2"] ]};
     RemoteAddr := "192.0.2.1:4000"; Query := ∅; JSON := None |}.

(** ** Health checking *)

Definition health_cfg : config.HealthCheckConfig :=
  {| config.Enabled := true; config.Interval := 5000000000;
     config.HPath := "/health" |}.

(** The checker main.go builds: its threshold is 3. *)
Definition checker3 : health.HTTPHealthChecker :=
  health.NewHTTPHealthChecker health_cfg.

(** Ticks of the HTTP checker from the outcomes of the probes: the i-th tick
    fires after i intervals and every probe of that tick comes back with the
    i-th outcome. *)
Definition http_ticks (hc : health.HTTPHealthChecker) (rs : list health.probe)
  : list (Z * (nat -> balancer.Backend -> balancer.Backend * bool)) :=
  imap (fun i r => (Z.of_nat (S i) * 5000000000,
                    fun (_ : nat) b => health.Check hc r b)) rs.

(** A tick of the HTTP checker whose probes all come back with a response or
    a transport error. *)
Definition http_tick_of (hc : health.HTTPHealthChecker)
    (t : Z * (nat -> balancer.Backend -> balancer.Backend * bool)) : Prop :=
  exists r, r <> health.NewRequestFailed /\ t.2 = (fun _ => health.Check hc r).

(** Liveness and failure count of the backend behind a pointer. *)
Definition liveness (bal : balancer.BaseBalancer) (p : nat) : option (bool * Z) :=
  (fun b => (balancer.IsAlive b, balancer.FailureCount b)) <$> balancer.deref bal p.

(** ** Selection *)

Definition backend_at (host : string) (conns : Z) : balancer.Backend :=
  {| balancer.BURL := {| Scheme := "http"; Host := host; Path := "" |};
     balancer.IsAlive := true; balancer.ActiveConns := conns;
     balancer.LastChecked := 0; balancer.FailureCount := 0;
     balancer.TotalRequests := 0; balancer.FailedReqs := 0 |}.

(** Backends A, B, C with 5, 2 and 10 active connections. *)
Definition lc0 : balancer.LeastConnectionsBalancer :=
  balancer.NewLeastConnectionsBalancer
    [backend_at "a" 5; backend_at "b" 2; backend_at "c" 10].

(** The same balancer after B took one more connection and A released four. *)
Definition lc1 : balancer.LeastConnectionsBalancer :=
  let b := balancer.lc_base lc0 in
  let b := balancer.update b 1%nat balancer.IncrementActiveConns in
  let b := Nat.iter 4 (fun b => balancer.update b 0%nat balancer.DecrementActiveConns) b in
  {| balancer.lc_base := b |}.

(** [n] consecutive calls of the round-robin [NextBackend], with what each
    returned. *)
Fixpoint rr_calls (n : nat) (rb : balancer.RoundRobinBalancer)
  : balancer.RoundRobinBalancer * list (outcome nat) :=
  match n with
  | O => (rb, [])
  | S n' =>
      let '(rb1, r) := balancer.rr_NextBackend rb in
      let '(rb2, rs) := rr_calls n' rb1 in
      (rb2, r :: rs)
  end.

(** How many of the calls returned the backend behind [p]. *)
Definition times_selected (p : nat) (rs : list (outcome nat)) : nat :=
  length (filter (fun r => r = Ok p) rs).

(** Three backends, all up. *)
Definition rr0 : balancer.RoundRobinBalancer :=
  balancer.NewRoundRobinBalancer
    [backend_at "a" 0; backend_at "b" 0; backend_at "c" 0].

(** A stand-in for [url.Parse] in examples: a URL is "scheme://host", and
    an empty scheme is a parse error, as for "://invalid-url". *)
Definition split_scheme (s : string) : option URL :=
  match index 0 "://" s with
  | Some (S n) => Some {| Scheme := substring 0 (S n) s;
                          Host := substring (S n + 3) (String.length s) s;
                          Path := "" |}
  | _ => None
  end.

(** ** Further runs and scenarios *)

Local Open Scope string_scope.
Local Open Scope list_scope.
Local Open Scope Z_scope.

(** The binary64 number of sign [s] and magnitude [n], for an integer [n]
    with [0 < n < 2^53]: its 53-bit mantissa and its exponent. *)
Definition canon (s : bool) (n : Z) : spec_float :=
  S754_finite s (Z.to_pos (n * 2 ^ (52 - Z.log2 n))) (Z.log2 n - 52).

(** Requests for one token each, at the given instants, against a bucket of
    capacity [C] that is never refilled (rate 0). *)
Definition unit_takes (C : Z) (instants : list Z) : list take_call :=
  (fun t => {| c_now := t; c_take := 1; c_cap := C; c_rate := 0 |}) <$> instants.

(** The answers to [n] such requests when [t] tokens are left: the first [t]
    are allowed and count the bucket down, the rest are denied with 0 left. *)
Definition drained (t : Z) (n : nat) : list (bool * Z * option error) :=
  (fun j : nat =>
     if Z.of_nat j <? t then (true, t - 1 - Z.of_nat j, None)
     else (false, 0, None)) <$> seq 0 n.

Definition get_client (id : string) : Request :=
  {| Method := "GET"; Header := ∅; RemoteAddr := "192.0.2.1:4000";
     Query := {[ "client_id" := id ]}; JSON := None |}.

(** The manager of [manager0] over an empty networked store. *)
Definition manager_redis : ratelimit.ClientManager RedisStorage.t :=
  {| ratelimit.rateLimiter :=
       {| ratelimit.storage := NewRedisStorage;
          ratelimit.defaultConfig :=
            {| config.Capacity := 50; config.RefillRate := 10 |};
          ratelimit.clients := ∅ |};
     ratelimit.cm_defaultConfig :=
       {| config.Capacity := 50; config.RefillRate := 10 |} |}.

(** Client "c" is given capacity 10 by POST /clients and takes a token; it is
    then given capacity 5 and takes another token a microsecond later.  The
    statuses of the two POSTs, the result of the second [Allow], and the store
    afterwards. *)
Definition lowered_by_post {S : Type} `{Storage S} (cm : ratelimit.ClientManager S)
  : (Z * Z) * (bool * Z * option error) * S :=
  let a1 := ratelimit.HandleAddClient cm NewResponseWriter (post_client "c" 10 1) in
  let t1 := ratelimit.Allow (ratelimit.rateLimiter a1.1) 0 "c" 1 in
  let cm1 := {| ratelimit.rateLimiter := t1.1;
                ratelimit.cm_defaultConfig := ratelimit.cm_defaultConfig cm |} in
  let a2 := ratelimit.HandleAddClient cm1 NewResponseWriter (post_client "c" 5 1) in
  let t2 := ratelimit.Allow (ratelimit.rateLimiter a2.1) 1000 "c" 1 in
  ((WStatus a1.2, WStatus a2.2), t2.2, ratelimit.storage t2.1).

(** The URLs of the registry, as the registry compares them. *)
Definition url_of (x : balancer.Backend) : string := URL_String (balancer.BURL x).

Definition urls (b : balancer.BaseBalancer) : list string :=
  url_of <$> balancer.backends b.

(** The requests completed on a backend, one after the other: [true] for a
    success. *)
Definition record_all (outcomes : list bool) (b : balancer.Backend) : balancer.Backend :=
  fold_left (fun b ok => balancer.RecordRequest ok b) outcomes b.

(** ** Shapes of strings *)

Fixpoint occurs (c : ascii) (s : string) : Prop :=
  match s with
  | EmptyString => False
  | String d r => c = d \/ occurs c r
  end.

Definition starts_with_space (s : string) : bool :=
  match s with
  | EmptyString => false
  | String c _ => isSpace c
  end.

Fixpoint ends_with_space (s : string) : bool :=
  match s with
  | EmptyString => false
  | String c EmptyString => isSpace c
  | String _ r => ends_with_space r
  end.

(** An ASCII character other than white space. *)
Definition plain (c : ascii) : bool := (byte c <? 128) && negb (isSpace c).

Definition starts_plain (s : string) : bool :=
  match s with
  | EmptyString => false
  | String c _ => plain c
  end.

Fixpoint ends_plain (s : string) : bool :=
  match s with
  | EmptyString => false
  | String c EmptyString => plain c
  | String _ r => ends_plain r
  end.

(** A request that went through one proxy. *)
Definition forwarded_once : Request :=
  {| Method := "GET"; Header := {[ "X-Forwarded-For" := ["10.0.0.1"] ]};
     RemoteAddr := "192.0.2.1:4000"; Query := ∅; JSON := None |}.

(** A request whose X-Forwarded-For begins with a no-break space, U+00A0. *)
Definition forwarded_nbsp : Request :=
  {| Method := "GET";
     Header := {[ "X-Forwarded-For" :=
                    [String (ascii_of_nat 194) (String (ascii_of_nat 160) "10.0.0.1")] ]};
     RemoteAddr := "192.0.2.1:4000"; Query := ∅; JSON := None |}.

(** ** Health checking, continued *)

(** What the health loop has no business with: the URL and the traffic
    counters of a backend. *)
Definition frozen (b : balancer.Backend) : string * Z * Z * Z :=
  (url_of b, balancer.ActiveConns b, balancer.TotalRequests b, balancer.FailedReqs b).

(** A tick of the HTTP checker: its instant and, for each backend, what the
    probe of that backend comes back with. *)
Definition http_tick (hc : health.HTTPHealthChecker) (t : Z * (nat -> health.probe))
  : Z * (nat -> balancer.Backend -> balancer.Backend * bool) :=
  (t.1, fun p b => health.Check hc (t.2 p) b).

(** ** Retries *)

(** The iterations of the retry loop are numbered from 0. *)
Definition iterations (n : nat) : list Z := Z.of_nat <$> seq 0 n.

(** Total of the waits of a run. *)
Definition total_sleep (r : redisclient.run) : Z :=
  foldr Z.add 0 (redisclient.slept r).

(** What the call of [fn] in iteration [last] must have returned, and where
    the loop stood, for [WithRetry] to return [e] from that iteration. *)
Definition explains (maxRetries : Z) (fn : Z -> redisclient.fn_result)
    (ctxDone : Z -> bool) (last : Z) (e : redisclient.retry_error) : Prop :=
  match e with
  | redisclient.NoError => fn last = redisclient.FnNil
  | redisclient.LastError false => fn last = redisclient.FnOtherError
  | redisclient.LastError true =>
      fn last = redisclient.FnConnError /\ last = maxRetries
  | redisclient.CtxError =>
      fn last = redisclient.FnConnError /\ ctxDone last = true /\ last < maxRetries
  end.

(** * Properties *)

(** ** The rate limiter: zero-token requests, denial, deletion *)

Section RateLimiterFacts.
Context {S : Type} `{Storage S}.

(** A nil error from [Allow] means the request was allowed: a denial always
    carries [ErrRateLimitExceeded]. *)
Lemma Allow_no_error_allowed (tb tb' : ratelimit.TokenBucketRateLimiter S)
    (now : Z) (clientID : string) (n : Z) (allowed : bool) (remaining : Z) :
  ratelimit.Allow tb now clientID n = (tb', (allowed, remaining, None)) ->
  allowed = true.
Proof.
  unfold ratelimit.Allow.
  destruct (n <=? 0); [intros [= _ <- _]; reflexivity|].
  destruct (ratelimit.getClientConfig tb clientID) as [tb1 [[cap rate] [e|]]];
    [intros [=]|].
  destruct (TakeTokens _ _ _ _ _ _) as [store [[ok rem] [e|]]]; [intros [=]|].
  destruct ok; simpl; [intros [= _ <- _]; reflexivity|intros [=]].
Qed.

(** [HandleDeleteClient] never touches the limiter's cache. *)
Lemma HandleDeleteClient_cache (cm : ratelimit.ClientManager S)
    (w : ResponseWriter) (r : Request) :
  ratelimit.clients (ratelimit.rateLimiter (ratelimit.HandleDeleteClient cm w r).1)
  = ratelimit.clients (ratelimit.rateLimiter cm).
Proof.
  unfold ratelimit.HandleDeleteClient.
  destruct (negb _); [reflexivity|].
  destruct (String.eqb _ _); [reflexivity|].
  destruct (SetClientConfig _ _ _ _) as [store [e|]]; reflexivity.
Qed.

(** A cached client is resolved from the cache, whatever the store holds. *)
Lemma getClientConfig_cached (tb : ratelimit.TokenBucketRateLimiter S)
    (clientID : string) (c : clientConfig) :
  ratelimit.clients tb !! clientID = Some c ->
  ratelimit.getClientConfig tb clientID = (tb, (capacity c, refillRate c, None)).
Proof. intros Hc. unfold ratelimit.getClientConfig. rewrite Hc. reflexivity. Qed.

(** So after a DELETE the client keeps the pair it had in the cache. *)
Lemma delete_then_resolve (cm : ratelimit.ClientManager S)
    (w : ResponseWriter) (r : Request) (clientID : string) (c : clientConfig) :
  ratelimit.clients (ratelimit.rateLimiter cm) !! clientID = Some c ->
  (ratelimit.getClientConfig
     (ratelimit.rateLimiter (ratelimit.HandleDeleteClient cm w r).1) clientID).2
  = (capacity c, refillRate c, None).
Proof.
  intros Hc. rewrite (getClientConfig_cached _ clientID c); [reflexivity|].
  rewrite HandleDeleteClient_cache. exact Hc.
Qed.

(** For every client and every [n <= 0], [Allow] returns at its guard:
    allowed, 0 remaining and no error, the limiter (its store, hence the
    client's bucket, and its cache) exactly as it was. *)
Lemma Allow_nonpositive (tb : ratelimit.TokenBucketRateLimiter S)
    (now : Z) (clientID : string) (n : Z) :
  n <= 0 ->
  ratelimit.Allow tb now clientID n = (tb, (true, 0, None)).
Proof.
  intros Hn. unfold ratelimit.Allow.
  destruct (Z.leb_spec n 0) as [_|Hlt]; [reflexivity|lia].
Qed.

End RateLimiterFacts.

(** C3 at a failing input.  Client "c" has taken 3 of its 10 tokens and holds
    7.  A zero-token [Allow] is allowed, without an error and without touching
    the limiter or the bucket, but the count it returns is 0, where the claim
    has the 7 tokens the client holds; GET /client-status?client_id=c, which
    reads the count through this call, reports 0 tokens remaining and 0 per
    cent. *)
Theorem C3_zero_token_peek_reports_zero
    (SplitHostPort : string -> option (string * string)) :
  let cm := {| ratelimit.rateLimiter := limiter1;
               ratelimit.cm_defaultConfig :=
                 {| config.Capacity := 10; config.RefillRate := 5 |} |} in
  let status := ratelimit.HandleStatus SplitHostPort cm 1 NewResponseWriter
                  (get_client "c") in
  memory_bucket (ratelimit.storage limiter1) "c" = Some (7, 0) /\
  ratelimit.Allow limiter1 1 "c" 0 = (limiter1, (true, 0, None)) /\
  WStatus status.2 = 200 /\
  WBody status.2 = JSONStatus "c" 10 5 0 0.
Proof.
  cbv zeta. repeat apply conj; [vm_compute; reflexivity|reflexivity| |];
    vm_compute; reflexivity.
Qed.

(** ** The proxy's rate-limit gate *)

Section GateFacts.
Context {S : Type} `{Storage S}.
Variable SplitHostPort : string -> option (string * string).

(** Whenever the gate answers a request itself, it took the error branch:
    the status handed to the logger is 500 and the response is whatever the
    error handler wrote.  The branch that answers 429 is never taken with the
    token-bucket limiter. *)
Lemma gate_answers_through_errorHandler (p p' : proxy.Proxy S) (now : Z)
    (w w' : ResponseWriter) (r : Request) (l : proxy.logEntry) :
  proxy.gate SplitHostPort p now w r = (p', inl (w', l)) ->
  proxy.log_status l = StatusInternalServerError /\
  exists e, w' = proxy.errorHandler p w r e.
Proof.
  unfold proxy.gate.
  destruct (proxy.rateLimiter p) as [limiter|]; [|intros [=]].
  destruct (ratelimit.Allow limiter now _ 1) as [lim' [[allowed remaining] err]] eqn:HA.
  destruct err as [e|].
  - intros [= _ <- <-]. split; [reflexivity|]. exists e. reflexivity.
  - apply Allow_no_error_allowed in HA. subst allowed. simpl. intros [=].
Qed.

End GateFacts.

(** C1 at a failing input.  Client 10.0.0.9 sends two requests one microsecond
    apart.  The first is forwarded.  For the second the limiter denies
    (allowed = false, remaining = 0, ErrRateLimitExceeded), and the proxy
    answers 503 through its error handler, logs status 500, and sets neither
    X-RateLimit-Remaining nor Retry-After: not the 429 of the claim. *)
Theorem C1_denied_request_is_not_429
    (SplitHostPort : string -> option (string * string)) :
  let up := fun _ : nat => Some 200 in
  let r := request_from "10.0.0.9" in
  let s1 := proxy.ServeHTTP SplitHostPort proxy0 0 up NewResponseWriter r in
  let s2 := proxy.ServeHTTP SplitHostPort s1.1 1000 up NewResponseWriter r in
  WStatus s1.2.1 = 200 /\
  (fun lim => (ratelimit.Allow lim 1000 "10.0.0.9" 1).2) <$> proxy.rateLimiter s1.1
    = Some (false, 0, Some ErrRateLimitExceeded) /\
  WStatus s2.2.1 = 503 /\
  proxy.log_status s2.2.2 = 500 /\
  WHeader s2.2.1 !! "X-RateLimit-Remaining" = None /\
  WHeader s2.2.1 !! "Retry-After" = None.
Proof. cbv zeta. repeat apply conj; vm_compute; reflexivity. Qed.

(** A store that cannot be reached takes the same path: the error handler
    answers and status 500 is logged. *)
Example store_failure_takes_the_same_path
    (SplitHostPort : string -> option (string * string)) :
  let p := {| proxy.p_balancer := proxy.p_balancer proxy0;
              proxy.rateLimiter :=
                Some {| ratelimit.storage :=
                          {| RedisStorage.db := ∅; RedisStorage.online := false |};
                        ratelimit.defaultConfig :=
                          {| config.Capacity := 1; config.RefillRate := 1 |};
                        ratelimit.clients := ∅ |};
              proxy.errorHandler := proxy.defaultErrorHandler |} in
  let s := proxy.ServeHTTP SplitHostPort p 0 (fun _ : nat => Some 200)
             NewResponseWriter (request_from "10.0.0.9") in
  WStatus s.2.1 = 503 /\ proxy.log_status s.2.2 = 500.
Proof. cbv zeta. split; vm_compute; reflexivity. Qed.

(** ** Deleting a client's configuration *)

(** C5 at a failing input.  POST /clients sets client "c" to (100, 20), which
    the limiter caches; DELETE /clients?client_id=c answers 204 and empties
    the store's entry; the next resolution of "c" still yields the cached
    (100, 20), not the default (50, 10), and the next [Allow] draws from a
    bucket of capacity 100. *)
Theorem C5_delete_leaves_stale_cache :
  let a := ratelimit.HandleAddClient manager0 NewResponseWriter (post_client "c" 100 20) in
  let d := ratelimit.HandleDeleteClient a.1 NewResponseWriter (delete_client "c") in
  let tb := ratelimit.rateLimiter d.1 in
  WStatus a.2 = 200 /\
  WStatus d.2 = 204 /\
  GetClientConfig (ratelimit.storage tb) "c" = (0, 0, None) /\
  (ratelimit.getClientConfig tb "c").2 = (100, 20, None) /\
  (ratelimit.Allow tb 0 "c" 1).2 = (true, 99, None).
Proof. cbv zeta. repeat apply conj; vm_compute; reflexivity. Qed.

(** ** Client identification *)

Section ClientIP.
Variable SplitHostPort : string -> option (string * string).

(** The proxy's [getClientIP]: first entry of X-Forwarded-For, trimmed. *)
Lemma proxy_getClientIP_forwarded (r : Request) :
  Header_Get (Header r) "X-Forwarded-For" <> "" ->
  proxy.getClientIP SplitHostPort r
  = TrimSpace (hd "" (Split (Header_Get (Header r) "X-Forwarded-For") ",")).
Proof.
  intros Hne. unfold proxy.getClientIP.
  destruct (String.eqb_spec (Header_Get (Header r) "X-Forwarded-For") "");
    [contradiction|reflexivity].
Qed.

Lemma proxy_getClientIP_realIP (r : Request) :
  Header_Get (Header r) "X-Forwarded-For" = "" ->
  Header_Get (Header r) "X-Real-IP" <> "" ->
  proxy.getClientIP SplitHostPort r = Header_Get (Header r) "X-Real-IP".
Proof.
  intros He Hne. unfold proxy.getClientIP. rewrite He. simpl.
  destruct (String.eqb_spec (Header_Get (Header r) "X-Real-IP") "");
    [contradiction|reflexivity].
Qed.

Lemma proxy_getClientIP_remote (r : Request) (host port : string) :
  Header_Get (Header r) "X-Forwarded-For" = "" ->
  Header_Get (Header r) "X-Real-IP" = "" ->
  SplitHostPort (RemoteAddr r) = Some (host, port) ->
  proxy.getClientIP SplitHostPort r = host.
Proof.
  intros He1 He2 Hs. unfold proxy.getClientIP. rewrite He1, He2, Hs. reflexivity.
Qed.

(** The management side's [getClientIP] hands back the whole header. *)
Lemma ratelimit_getClientIP_forwarded (r : Request) :
  Header_Get (Header r) "X-Forwarded-For" <> "" ->
  ratelimit.getClientIP SplitHostPort r = Header_Get (Header r) "X-Forwarded-For".
Proof.
  intros Hne. unfold ratelimit.getClientIP.
  destruct (String.eqb_spec (Header_Get (Header r) "X-Forwarded-For") "");
    [contradiction|reflexivity].
Qed.

(** C8 at a failing input.  For a request carrying
    X-Forwarded-For: 10.0.0.1, 10.0.0.2 the proxy limits client 10.0.0.1,
    but /client-status (no client_id parameter) reports on the client named
    by the whole header value. *)
Theorem C8_status_uses_whole_header :
  proxy.getClientIP SplitHostPort forwarded_request = "10.0.0.1" /\
  ratelimit.getClientIP SplitHostPort forwarded_request = "10.0.0.1, 10.0.0.2" /\
  ratelimit.status_clientID SplitHostPort forwarded_request = "10.0.0.1, 10.0.0.2".
Proof. repeat apply conj; vm_compute; reflexivity. Qed.

End ClientIP.

(** ** The health loop *)

Lemma wrap32_small (z : Z) : -2147483648 <= z < 2147483648 -> wrap32 z = z.
Proof.
  intros Hz. unfold wrap32, wrap.
  change (2 ^ (32 - 1)) with 2147483648. change (2 ^ 32) with 4294967296.
  rewrite Z.mod_small; lia.
Qed.

Lemma wrap64_small (z : Z) :
  -9223372036854775808 <= z < 9223372036854775808 -> wrap64 z = z.
Proof.
  intros Hz. unfold wrap64, wrap.
  change (2 ^ (64 - 1)) with 9223372036854775808.
  change (2 ^ 64) with 18446744073709551616.
  rewrite Z.mod_small; lia.
Qed.

Lemma find_by_URL_head (b : balancer.Backend) (rest : list balancer.Backend) :
  balancer.find_by_URL (b :: rest) b = Some 0%nat.
Proof.
  simpl. unfold balancer.same_URL. rewrite bool_decide_eq_true_2; reflexivity.
Qed.

(** On a registry of one backend, [MarkBackendUp] and [MarkBackendDown] find
    the backend that was probed: a tick is the verdict of the checker followed
    by [MarkUp] or [MarkDown]. *)
Lemma tick_single (check : nat -> balancer.Backend -> balancer.Backend * bool)
    (now : Z) (b : balancer.Backend) :
  healthloop.tick check now (balancer.NewBaseBalancer [b])
  = balancer.NewBaseBalancer
      [if (check 0%nat b).2 then balancer.MarkUp now (check 0%nat b).1
       else balancer.MarkDown now (check 0%nat b).1].
Proof.
  unfold healthloop.tick, balancer.GetAllBackends, balancer.NewBaseBalancer.
  simpl. unfold healthloop.probe_one, balancer.deref. simpl.
  destruct (check 0%nat b) as [b' ok].
  unfold balancer.MarkBackendUp, balancer.MarkBackendDown, balancer.update. simpl.
  unfold balancer.same_URL. rewrite bool_decide_eq_true_2 by reflexivity.
  destruct ok; reflexivity.
Qed.

(** With a threshold of 2 or more, a backend that is up with no recorded
    failure, alone in the registry, is in the same state after a tick,
    whatever the probe's response: a failure below the threshold makes [Check]
    answer true, and the loop then calls [MarkBackendUp], which clears the
    count. *)
Lemma single_backend_stays_up (hc : health.HTTPHealthChecker) (now : Z)
    (r : health.probe) (b : balancer.Backend) :
  2 <= health.threshold hc < 2147483648 ->
  r <> health.NewRequestFailed ->
  balancer.IsAlive b = true ->
  balancer.FailureCount b = 0 ->
  exists b',
    healthloop.tick (fun _ => health.Check hc r) now (balancer.NewBaseBalancer [b])
    = balancer.NewBaseBalancer [b'] /\
    balancer.IsAlive b' = true /\ balancer.FailureCount b' = 0.
Proof.
  intros Ht Hr Ha Hf. rewrite tick_single. eexists. split; [reflexivity|].
  assert (Hfail : health.count_failure hc b
                  = (balancer.IncrementFailureCount b, true)).
  { unfold health.count_failure, balancer.IsAvailable. rewrite Ha. simpl.
    rewrite Hf. change (wrap32 (0 + 1)) with 1.
    rewrite wrap32_small by lia.
    destruct (Z.leb_spec (health.threshold hc) 1); [lia|reflexivity]. }
  destruct r as [| |code]; [contradiction| |]; simpl.
  - rewrite Hfail. split; reflexivity.
  - destruct ((200 <=? code) && (code <? 400)); [|rewrite Hfail]; split; reflexivity.
Qed.

Lemma http_ticks_shape (hc : health.HTTPHealthChecker) (rs : list health.probe)
    (g : nat -> Z) :
  Forall (fun r => r <> health.NewRequestFailed) rs ->
  Forall (http_tick_of hc)
    (imap (fun i r => (g i, fun (_ : nat) b => health.Check hc r b)) rs).
Proof.
  intros Hrs. revert g. induction Hrs as [|r rs Hr Hrs IH]; intros g.
  - constructor.
  - simpl. constructor.
    + exists r. split; [exact Hr|reflexivity].
    + apply (IH (fun i => g (S i))).
Qed.

Lemma ticks_keep_up (hc : health.HTTPHealthChecker)
    (ticks : list (Z * (nat -> balancer.Backend -> balancer.Backend * bool))) :
  2 <= health.threshold hc < 2147483648 ->
  Forall (http_tick_of hc) ticks ->
  forall b : balancer.Backend,
    balancer.IsAlive b = true ->
    balancer.FailureCount b = 0 ->
    liveness (fold_left (fun bal t => healthloop.tick t.2 t.1 bal) ticks
                (balancer.NewBaseBalancer [b])) 0
    = Some (true, 0).
Proof.
  intros Ht Hticks.
  induction Hticks as [|[now chk] ticks [r [Hr Hchk]] Hticks IH]; intros b Ha Hf.
  - simpl. unfold liveness. simpl. rewrite Ha, Hf. reflexivity.
  - simpl in Hchk. subst chk. cbn [fold_left fst snd].
    destruct (single_backend_stays_up hc now r b Ht Hr Ha Hf) as (b' & -> & Ha' & Hf').
    apply IH; assumption.
Qed.

(** Hence, as long as the health loop alone works on the registry, no run of
    responses, however many of them unhealthy, takes such a backend down. *)
Lemma health_loop_never_marks_down (hc : health.HTTPHealthChecker)
    (rs : list health.probe) (b : balancer.Backend) :
  2 <= health.threshold hc < 2147483648 ->
  Forall (fun r => r <> health.NewRequestFailed) rs ->
  balancer.IsAlive b = true ->
  balancer.FailureCount b = 0 ->
  liveness (healthloop.StartHealthChecks health_cfg (http_ticks hc rs)
              (balancer.NewBaseBalancer [b])) 0
  = Some (true, 0).
Proof.
  intros Ht Hrs Ha Hf. unfold healthloop.StartHealthChecks. simpl.
  apply (ticks_keep_up hc); try assumption.
  apply http_ticks_shape. exact Hrs.
Qed.

(** C2 at a failing input.  Threshold 3, one backend that starts UP, probe
    responses {200, 500, 500, 500}: after the fourth tick the backend is still
    UP and its failure count is 0, where the claim has it DOWN.  The same
    holds when the three failures are transport errors. *)
Theorem C2_three_failures_leave_backend_up :
  health.threshold checker3 = 3 /\
  liveness (balancer.NewBaseBalancer [backendA]) 0 = Some (true, 0) /\
  liveness
    (healthloop.StartHealthChecks health_cfg
       (http_ticks checker3
          [health.Status 200; health.Status 500; health.Status 500; health.Status 500])
       (balancer.NewBaseBalancer [backendA])) 0
  = Some (true, 0) /\
  liveness
    (healthloop.StartHealthChecks health_cfg
       (http_ticks checker3
          [health.Status 200; health.DoFailed; health.DoFailed; health.DoFailed])
       (balancer.NewBaseBalancer [backendA])) 0
  = Some (true, 0).
Proof. repeat apply conj; vm_compute; reflexivity. Qed.

(** A healthy response brings the backend up with a failure count of 0. *)
Lemma single_backend_recovers (hc : health.HTTPHealthChecker) (now : Z)
    (code : Z) (b : balancer.Backend) :
  200 <= code < 400 ->
  liveness (healthloop.tick (fun _ => health.Check hc (health.Status code)) now
              (balancer.NewBaseBalancer [b])) 0
  = Some (true, 0).
Proof.
  intros Hc. rewrite tick_single. simpl.
  destruct (Z.leb_spec 200 code); [|lia].
  destruct (Z.ltb_spec code 400); [|lia].
  reflexivity.
Qed.

(** The loop itself has no threshold: with a checker that just answers false
    (the test double) the backend is DOWN after one tick. *)
Example plain_false_verdict_marks_down :
  liveness (healthloop.tick (fun _ b => (b, false)) 1
              (balancer.NewBaseBalancer [backendA])) 0
  = Some (false, 0).
Proof. vm_compute. reflexivity. Qed.

(** ** The healthy set *)

(** [GetHealthyBackends] lists, in registration order, the pointers to the
    backends that are up. *)
Lemma healthy_from_spec (bs : list balancer.Backend) (i p : nat) :
  p ∈ balancer.healthy_from i bs <->
  (i <= p)%nat /\ exists b, bs !! (p - i)%nat = Some b /\ balancer.IsAlive b = true.
Proof.
  revert i. induction bs as [|b bs IH]; intros i; simpl.
  - split; [intros Hin; inversion Hin|intros [_ [b [Hb _]]]; discriminate Hb].
  - unfold balancer.IsAvailable. destruct (balancer.IsAlive b) eqn:Hb.
    + rewrite elem_of_cons, IH. split.
      * intros [->|[Hle [b' [Hb' Ha']]]].
        -- split; [lia|]. exists b. rewrite Nat.sub_diag. split; [reflexivity|exact Hb].
        -- split; [lia|]. exists b'. replace (p - i)%nat with (S (p - S i)) by lia.
           split; assumption.
      * intros [Hle [b' [Hb' Ha']]].
        destruct (decide (p = i)) as [->|Hne]; [left; reflexivity|right].
        split; [lia|]. exists b'.
        replace (p - i)%nat with (S (p - S i)) in Hb' by lia. split; assumption.
    + rewrite IH. split.
      * intros [Hle [b' [Hb' Ha']]]. split; [lia|]. exists b'.
        replace (p - i)%nat with (S (p - S i)) by lia. split; assumption.
      * intros [Hle [b' [Hb' Ha']]].
        destruct (decide (p = i)) as [->|Hne].
        -- rewrite Nat.sub_diag in Hb'. simpl in Hb'. congruence.
        -- split; [lia|]. exists b'.
           replace (p - i)%nat with (S (p - S i)) in Hb' by lia. split; assumption.
Qed.

Lemma GetHealthyBackends_spec (b : balancer.BaseBalancer) (p : nat) :
  p ∈ balancer.GetHealthyBackends b <->
  exists backend, balancer.deref b p = Some backend /\ balancer.IsAlive backend = true.
Proof.
  unfold balancer.GetHealthyBackends, balancer.deref. rewrite healthy_from_spec.
  rewrite Nat.sub_0_r. split; [intros [_ Hx]; exact Hx|intros Hx; split; [lia|exact Hx]].
Qed.

Lemma healthy_from_NoDup (bs : list balancer.Backend) (i : nat) :
  NoDup (balancer.healthy_from i bs).
Proof.
  revert i. induction bs as [|b bs IH]; intros i; simpl; [constructor|].
  destruct (balancer.IsAvailable b); [|apply IH].
  constructor; [|apply IH].
  rewrite healthy_from_spec. intros [Hle _]. lia.
Qed.

(** ** Least connections *)

Lemma index_of_nat {A : Type} (s : list A) (i : nat) (a : A) :
  s !! i = Some a -> balancer.index s (Z.of_nat i) = Ok a.
Proof.
  intros Hs. unfold balancer.index.
  destruct (Z.ltb_spec (Z.of_nat i) 0); [lia|].
  rewrite Nat2Z.id, Hs. reflexivity.
Qed.

(** The scan keeps the first position of the least count seen so far. *)
Lemma lc_scan_spec (b : balancer.BaseBalancer) (rest pre : list nat)
    (minIdx : nat) (minConn : Z) :
  (exists q, pre !! minIdx = Some q /\ balancer.conns_of b q = minConn) ->
  (forall j q, pre !! j = Some q -> minConn <= balancer.conns_of b q) ->
  (forall j q, (j < minIdx)%nat -> pre !! j = Some q -> minConn < balancer.conns_of b q) ->
  exists mi mc p,
    balancer.lc_scan b rest (length pre) minIdx minConn = (mi, mc) /\
    (pre ++ rest) !! mi = Some p /\ balancer.conns_of b p = mc /\
    (forall j q, (pre ++ rest) !! j = Some q -> mc <= balancer.conns_of b q) /\
    (forall j q, (j < mi)%nat -> (pre ++ rest) !! j = Some q -> mc < balancer.conns_of b q).
Proof.
  revert pre minIdx minConn.
  induction rest as [|p rest IH]; intros pre minIdx minConn [q [Hq Hc]] Hall Hbefore.
  - simpl. exists minIdx, minConn, q. rewrite app_nil_r. repeat apply conj; auto.
  - simpl. replace (pre ++ p :: rest) with ((pre ++ [p]) ++ rest)
      by (rewrite <- app_assoc; reflexivity).
    replace (S (length pre)) with (length (pre ++ [p]))
      by (rewrite length_app; simpl; lia).
    destruct (Z.ltb_spec (balancer.conns_of b p) minConn) as [Hlt|Hge].
    + apply IH.
      * exists p. split; [|reflexivity].
        rewrite lookup_app_r by lia. rewrite Nat.sub_diag. reflexivity.
      * intros j q' Hj. apply lookup_app_Some in Hj as [Hj|[_ Hj]].
        -- specialize (Hall j q' Hj). lia.
        -- destruct (j - length pre)%nat; simpl in Hj; [|discriminate Hj].
           injection Hj as <-. lia.
      * intros j q' Hlt' Hj. rewrite lookup_app_l in Hj by exact Hlt'.
        specialize (Hall j q' Hj). lia.
    + apply IH.
      * exists q. split; [|exact Hc].
        rewrite lookup_app_l; [exact Hq|]. apply lookup_lt_Some in Hq. exact Hq.
      * intros j q' Hj. apply lookup_app_Some in Hj as [Hj|[_ Hj]].
        -- exact (Hall j q' Hj).
        -- destruct (j - length pre)%nat; simpl in Hj; [|discriminate Hj].
           injection Hj as <-. lia.
      * intros j q' Hlt' Hj. apply (Hbefore j q' Hlt').
        rewrite lookup_app_l in Hj; [exact Hj|].
        apply lookup_lt_Some in Hq. lia.
Qed.

(** C9.  For every non-empty healthy set H, the least-connections
    [NextBackend] returns a backend of H (at position i, say) whose count of
    active connections is least among H, and every backend earlier in H has
    strictly more: the least count, ties broken by first occurrence. *)
Theorem C9_least_connections_first_minimum (lb : balancer.LeastConnectionsBalancer) :
  balancer.GetHealthyBackends (balancer.lc_base lb) <> [] ->
  exists (i p : nat),
    balancer.lc_NextBackend lb = Ok p /\
    balancer.GetHealthyBackends (balancer.lc_base lb) !! i = Some p /\
    (forall j q, balancer.GetHealthyBackends (balancer.lc_base lb) !! j = Some q ->
       balancer.conns_of (balancer.lc_base lb) p
       <= balancer.conns_of (balancer.lc_base lb) q) /\
    (forall j q, (j < i)%nat ->
       balancer.GetHealthyBackends (balancer.lc_base lb) !! j = Some q ->
       balancer.conns_of (balancer.lc_base lb) p
       < balancer.conns_of (balancer.lc_base lb) q).
Proof.
  intros Hne. unfold balancer.lc_NextBackend.
  destruct (balancer.GetHealthyBackends (balancer.lc_base lb)) as [|h0 rest] eqn:HH;
    [contradiction|].
  destruct (lc_scan_spec (balancer.lc_base lb) rest [h0] 0%nat
              (balancer.conns_of (balancer.lc_base lb) h0))
    as [mi [mc [p [Hscan [Hp [Hc [Hall Hbefore]]]]]]].
  - exists h0. split; reflexivity.
  - intros [|j] q Hj; simpl in Hj; [|discriminate Hj]. injection Hj as <-. lia.
  - intros j q Hlt. lia.
  - simpl in Hscan. rewrite Hscan. simpl in Hp, Hall, Hbefore.
    exists mi, p. repeat apply conj.
    + apply index_of_nat. exact Hp.
    + exact Hp.
    + intros j q Hj. rewrite Hc. exact (Hall j q Hj).
    + intros j q Hlt Hj. rewrite Hc. exact (Hbefore j q Hlt Hj).
Qed.

Lemma C9_least_connections_first_minimum_witness :
  exists (i p : nat),
    balancer.lc_NextBackend lc0 = Ok p /\
    balancer.GetHealthyBackends (balancer.lc_base lc0) !! i = Some p /\
    (forall j q, balancer.GetHealthyBackends (balancer.lc_base lc0) !! j = Some q ->
       balancer.conns_of (balancer.lc_base lc0) p
       <= balancer.conns_of (balancer.lc_base lc0) q) /\
    (forall j q, (j < i)%nat ->
       balancer.GetHealthyBackends (balancer.lc_base lc0) !! j = Some q ->
       balancer.conns_of (balancer.lc_base lc0) p
       < balancer.conns_of (balancer.lc_base lc0) q).
Proof. apply (C9_least_connections_first_minimum lc0). vm_compute. discriminate. Defined.

(** The scenario of the specification: with counts A:5, B:2, C:10 the choice
    is B; once B has 3 and A has 1 it is A. *)
Example least_connections_scenario :
  balancer.conns_of (balancer.lc_base lc0) <$> [0; 1; 2]%nat = [5; 2; 10] /\
  balancer.lc_NextBackend lc0 = Ok 1%nat /\
  balancer.conns_of (balancer.lc_base lc1) <$> [0; 1; 2]%nat = [1; 3; 10] /\
  balancer.lc_NextBackend lc1 = Ok 0%nat.
Proof. repeat apply conj; vm_compute; reflexivity. Qed.

(** Equal counts: the first of them is taken. *)
Example least_connections_tie :
  balancer.lc_NextBackend
    (balancer.NewLeastConnectionsBalancer
       [backend_at "a" 4; backend_at "b" 2; backend_at "c" 2])
  = Ok 1%nat.
Proof. vm_compute. reflexivity. Qed.

(** ** The factory *)

Section FactoryFacts.
Variable Parse : string -> option URL.

(** The backends built are those of the entries that parse, in the order of
    the configuration, each one up. *)
Lemma collect_spec (cfgs : list config.BackendConfig) (now : Z) :
  balancer.BURL <$> balancer.collect Parse cfgs now
  = omap (fun c => Parse (config.URL c)) cfgs /\
  Forall (fun b => balancer.IsAlive b = true) (balancer.collect Parse cfgs now).
Proof.
  induction cfgs as [|c cfgs [IH1 IH2]]; simpl; [split; [reflexivity|constructor]|].
  unfold balancer.NewBackend.
  destruct (Parse (config.URL c)) as [u|]; simpl.
  - split; [f_equal; exact IH1|constructor; [reflexivity|exact IH2]].
  - split; assumption.
Qed.

Lemma omap_nil_Forall (cfgs : list config.BackendConfig) :
  omap (fun c => Parse (config.URL c)) cfgs = []
  <-> Forall (fun c => Parse (config.URL c) = None) cfgs.
Proof.
  induction cfgs as [|c cfgs IH]; simpl.
  - split; [constructor|reflexivity].
  - destruct (Parse (config.URL c)) as [u|] eqn:Hu.
    + split; [intros [=]|intros HF; inversion HF; congruence].
    + rewrite IH. split; [intros HF; constructor; assumption|].
      intros HF. inversion HF. assumption.
Qed.

(** C10.  With [valid] the URLs of the configuration that parse, in
    configuration order: [BalancerFactory] fails, with ErrNoValidBackends,
    exactly when [valid] is empty, that is when no configured URL parses;
    otherwise it returns a balancer whose registry holds exactly the backends
    of [valid], in that order and all up. *)
Theorem C10_factory_skips_unparsable (cfg : config.Config) (now : Z) :
  (omap (fun c => Parse (config.URL c)) (config.Backends cfg) = []
   <-> Forall (fun c => Parse (config.URL c) = None) (config.Backends cfg)) /\
  match balancer.BalancerFactory Parse cfg now with
  | Ok bal =>
      omap (fun c => Parse (config.URL c)) (config.Backends cfg) <> [] /\
      balancer.BURL <$> balancer.backends (balancer.base bal)
      = omap (fun c => Parse (config.URL c)) (config.Backends cfg) /\
      Forall (fun b => balancer.IsAlive b = true)
        (balancer.backends (balancer.base bal))
  | Err e =>
      e = ErrNoValidBackends /\
      omap (fun c => Parse (config.URL c)) (config.Backends cfg) = []
  | Panic => False
  end.
Proof.
  split; [apply omap_nil_Forall|].
  unfold balancer.BalancerFactory.
  destruct (collect_spec (config.Backends cfg) now) as [Hu Ha].
  destruct (balancer.collect Parse (config.Backends cfg) now) as [|b bs] eqn:Hc.
  - simpl. split; [reflexivity|]. rewrite <- Hu. reflexivity.
  - assert (Hne : omap (fun c => Parse (config.URL c)) (config.Backends cfg) <> [])
      by (rewrite <- Hu; discriminate).
    cbn [length Nat.eqb].
    destruct (String.eqb (config.Algorithm cfg) "round_robin");
      [|destruct (String.eqb (config.Algorithm cfg) "least_connections");
        [|destruct (String.eqb (config.Algorithm cfg) "random")]];
      (split; [exact Hne|split; [exact Hu|exact Ha]]).
Qed.

End FactoryFacts.

(** A configuration mixing valid and invalid URLs starts with the valid ones. *)
Example factory_mixed_configuration :
  let cfg := {| config.Backends :=
                  [ {| config.URL := "http://a" |};
                    {| config.URL := "://invalid-url" |};
                    {| config.URL := "http://b" |} ];
                config.Algorithm := "round_robin" |} in
  (fun bal => URL_String <$> (balancer.BURL <$> balancer.backends (balancer.base bal)))
    <$> (match balancer.BalancerFactory split_scheme cfg 0 with
         | Ok bal => Some bal
         | _ => None
         end)
  = Some ["http://a"; "http://b"].
Proof. vm_compute. reflexivity. Qed.

Example factory_no_valid_backend :
  balancer.BalancerFactory split_scheme
    {| config.Backends := [ {| config.URL := "://invalid-url" |} ];
       config.Algorithm := "round_robin" |} 0
  = Err ErrNoValidBackends.
Proof. vm_compute. reflexivity. Qed.

(** ** Round robin *)

(** How many of [n] consecutive integers starting at [a] fall in the residue
    class of [i] modulo [k]. *)
Lemma div_step (y k : Z) :
  0 < k -> y / k - (y - 1) / k = if decide (y mod k = 0) then 1 else 0.
Proof.
  intros Hk.
  pose proof (Z.div_mod y k ltac:(lia)) as Hy.
  pose proof (Z.div_mod (y - 1) k ltac:(lia)) as Hy1.
  pose proof (Z.mod_pos_bound y k Hk) as By.
  pose proof (Z.mod_pos_bound (y - 1) k Hk) as By1.
  destruct (decide (y mod k = 0)) as [H0|Hn0]; nia.
Qed.

Lemma residue_shift (x k i : Z) :
  0 < k -> 0 <= i < k -> (x mod k = i <-> (x - i) mod k = 0).
Proof.
  intros Hk Hi. split; intros Hx.
  - pose proof (Z.div_mod x k ltac:(lia)) as Hd. rewrite Hx in Hd.
    replace (x - i) with (x / k * k) by lia. apply Z_mod_mult.
  - pose proof (Z.div_mod (x - i) k ltac:(lia)) as Hd. rewrite Hx in Hd.
    replace x with (i + (x - i) / k * k) by lia.
    rewrite Z_mod_plus_full. apply Z.mod_small. exact Hi.
Qed.

Lemma count_residue (a k i : Z) (n : nat) :
  0 < k -> 0 <= i < k ->
  Z.of_nat (length (filter (fun j : nat => (a + Z.of_nat j) mod k = i) (seq 0 n)))
  = (a + Z.of_nat n - 1 - i) / k - (a - 1 - i) / k.
Proof.
  intros Hk Hi. induction n as [|n IH].
  - cbn [seq filter length]. change (Z.of_nat 0) with 0. rewrite Z.add_0_r. simpl. lia.
  - rewrite seq_S, filter_app, length_app, Nat2Z.inj_add, IH. simpl.
    rewrite filter_cons, filter_nil.
    pose proof (div_step (a + Z.of_nat n - i) k Hk) as Hs.
    replace (a + Z.of_nat n - i - 1) with (a + Z.of_nat n - 1 - i) in Hs by lia.
    replace (a + Z.of_nat (S n) - 1 - i) with (a + Z.of_nat n - i) by lia.
    destruct (decide ((a + Z.of_nat n) mod k = i)) as [He|Hne];
      destruct (decide ((a + Z.of_nat n - i) mod k = 0)) as [H0|Hn0]; simpl; try lia.
    + exfalso. apply Hn0.
      apply (proj1 (residue_shift (a + Z.of_nat n) k i Hk Hi)). exact He.
    + exfalso. apply Hne.
      apply (proj2 (residue_shift (a + Z.of_nat n) k i Hk Hi)). exact H0.
Qed.

Lemma length_filter_fmap {A B : Type} (f : A -> B) (P : B -> Prop)
    `{forall b, Decision (P b)} (l : list A) :
  length (filter P (f <$> l)) = length (filter (fun a => P (f a)) l).
Proof.
  induction l as [|a l IH]; [reflexivity|].
  rewrite fmap_cons, !filter_cons.
  destruct (decide (P (f a))); simpl; rewrite IH; reflexivity.
Qed.

Lemma index_in_range {A : Type} (s : list A) (z : Z) :
  0 <= z < Z.of_nat (length s) ->
  exists a, s !! Z.to_nat z = Some a /\ balancer.index s z = Ok a.
Proof.
  intros Hz. destruct (lookup_lt_is_Some_2 s (Z.to_nat z) ltac:(lia)) as [a Ha].
  exists a. split; [exact Ha|]. unfold balancer.index.
  destruct (Z.ltb_spec z 0); [lia|]. rewrite Ha. reflexivity.
Qed.

(** One call: the cursor moves on by one and the backend at the new cursor
    modulo the size of the healthy set is returned. *)
Lemma rr_NextBackend_step (rb : balancer.RoundRobinBalancer) :
  (0 < length (balancer.GetHealthyBackends (balancer.rr_base rb)))%nat ->
  0 <= balancer.current rb ->
  balancer.current rb + 1 < 2 ^ 63 ->
  balancer.rr_NextBackend rb
  = ({| balancer.rr_base := balancer.rr_base rb;
        balancer.current := balancer.current rb + 1 |},
     balancer.index (balancer.GetHealthyBackends (balancer.rr_base rb))
       ((balancer.current rb + 1)
          mod Z.of_nat (length (balancer.GetHealthyBackends (balancer.rr_base rb))))).
Proof.
  intros Hk Hc Hlt. unfold balancer.rr_NextBackend.
  change (2 ^ 63) with 9223372036854775808 in Hlt.
  destruct (Nat.eqb_spec (length (balancer.GetHealthyBackends (balancer.rr_base rb))) 0);
    [lia|].
  rewrite wrap64_small by lia.
  rewrite Z.rem_mod_nonneg by lia. reflexivity.
Qed.

Lemma rr_calls_spec (n : nat) (rb : balancer.RoundRobinBalancer) :
  (0 < length (balancer.GetHealthyBackends (balancer.rr_base rb)))%nat ->
  0 <= balancer.current rb ->
  balancer.current rb + Z.of_nat n < 2 ^ 63 ->
  rr_calls n rb
  = ({| balancer.rr_base := balancer.rr_base rb;
        balancer.current := balancer.current rb + Z.of_nat n |},
     (fun j : nat =>
        balancer.index (balancer.GetHealthyBackends (balancer.rr_base rb))
          ((balancer.current rb + 1 + Z.of_nat j)
             mod Z.of_nat (length (balancer.GetHealthyBackends (balancer.rr_base rb)))))
     <$> seq 0 n).
Proof.
  revert rb. induction n as [|n IH]; intros rb Hk Hc Hlt.
  - simpl. rewrite Z.add_0_r. destruct rb; reflexivity.
  - cbn [rr_calls]. rewrite rr_NextBackend_step by lia.
    rewrite IH by (simpl; lia). cbn [balancer.rr_base balancer.current].
    f_equal; [f_equal; lia|].
    cbn [seq fmap list_fmap]. f_equal; [f_equal; f_equal; lia|].
    rewrite <- fmap_S_seq, <- list_fmap_compose.
    apply list_fmap_ext. intros _ j _. simpl. f_equal. f_equal. lia.
Qed.

(** C7.  Let H be the healthy set of a round-robin balancer, of size k > 0,
    and let k * m calls of [NextBackend] follow one another with nothing else
    touching the balancer, the cursor staying within int64.  The healthy set
    is the same afterwards; call number j (from 0) returns the backend at
    position (cursor + 1 + j) mod k of H, so the sequence is fixed by the
    starting cursor; and each backend of H is returned exactly m times. *)
Theorem C7_round_robin_fair (rb : balancer.RoundRobinBalancer) (m : nat) :
  (0 < length (balancer.GetHealthyBackends (balancer.rr_base rb)))%nat ->
  0 <= balancer.current rb ->
  balancer.current rb
    + Z.of_nat (length (balancer.GetHealthyBackends (balancer.rr_base rb)) * m) < 2 ^ 63 ->
  balancer.GetHealthyBackends
    (balancer.rr_base
       (rr_calls (length (balancer.GetHealthyBackends (balancer.rr_base rb)) * m) rb).1)
  = balancer.GetHealthyBackends (balancer.rr_base rb) /\
  (forall j : nat,
     (j < length (balancer.GetHealthyBackends (balancer.rr_base rb)) * m)%nat ->
     (rr_calls (length (balancer.GetHealthyBackends (balancer.rr_base rb)) * m) rb).2 !! j
     = Ok <$> balancer.GetHealthyBackends (balancer.rr_base rb)
                !! Z.to_nat ((balancer.current rb + 1 + Z.of_nat j)
                     mod Z.of_nat (length (balancer.GetHealthyBackends (balancer.rr_base rb))))) /\
  (forall p : nat,
     p ∈ balancer.GetHealthyBackends (balancer.rr_base rb) ->
     times_selected p
       (rr_calls (length (balancer.GetHealthyBackends (balancer.rr_base rb)) * m) rb).2
     = m).
Proof.
  intros Hk Hc Hlt.
  set (H := balancer.GetHealthyBackends (balancer.rr_base rb)) in *.
  set (k := length H) in *.
  assert (Hrun := rr_calls_spec (k * m) rb Hk Hc Hlt).
  fold H in Hrun. fold k in Hrun. rewrite Hrun. cbn [fst snd balancer.rr_base].
  assert (Hkz : 0 < Z.of_nat k) by lia.
  repeat apply conj.
  - reflexivity.
  - intros j Hj. rewrite list_lookup_fmap, lookup_seq_lt by exact Hj. simpl.
    pose proof (Z.mod_pos_bound (balancer.current rb + 1 + Z.of_nat j) (Z.of_nat k) Hkz)
      as Hb.
    destruct (index_in_range H _ Hb) as [a [Ha Hi]]. rewrite Hi, Ha. reflexivity.
  - intros p Hp. unfold times_selected.
    apply list_elem_of_lookup in Hp as [i Hi].
    assert (Hik : (i < k)%nat) by (apply lookup_lt_Some in Hi; exact Hi).
    rewrite (length_filter_fmap _ (fun r => r = Ok p)).
    rewrite (list_filter_iff _
               (fun j : nat => (balancer.current rb + 1 + Z.of_nat j) mod Z.of_nat k
                               = Z.of_nat i)).
    + apply Nat2Z.inj. rewrite count_residue by lia.
      replace (balancer.current rb + 1 + Z.of_nat (k * m) - 1 - Z.of_nat i)
        with (balancer.current rb + 1 - 1 - Z.of_nat i + Z.of_nat m * Z.of_nat k) by lia.
      rewrite Z.div_add by lia. lia.
    + intros j.
      pose proof (Z.mod_pos_bound (balancer.current rb + 1 + Z.of_nat j) (Z.of_nat k) Hkz)
        as Hb.
      destruct (index_in_range H _ Hb) as [a [Ha Hidx]]. rewrite Hidx.
      split.
      * intros [= ->].
        assert (Z.to_nat ((balancer.current rb + 1 + Z.of_nat j) mod Z.of_nat k) = i)
          by (eapply NoDup_lookup; [apply healthy_from_NoDup|exact Ha|exact Hi]).
        lia.
      * intros He. rewrite He, Nat2Z.id in Ha. congruence.
Qed.

(** Backends A, B, C all up and nine calls from cursor 0: the calls go
    B, C, A three times over, and each backend is selected three times. *)
Lemma C7_round_robin_fair_witness :
  balancer.GetHealthyBackends (balancer.rr_base (rr_calls 9 rr0).1) = [0; 1; 2]%nat /\
  (rr_calls 9 rr0).2 !! 0%nat = Some (Ok 1%nat) /\
  times_selected 0 (rr_calls 9 rr0).2 = 3%nat /\
  times_selected 1 (rr_calls 9 rr0).2 = 3%nat /\
  times_selected 2 (rr_calls 9 rr0).2 = 3%nat.
Proof.
  destruct (C7_round_robin_fair rr0 3) as [H1 [H2 H3]];
    [vm_compute; lia|vm_compute; discriminate|vm_compute; reflexivity|].
  change (length (balancer.GetHealthyBackends (balancer.rr_base rr0)) * 3)%nat
    with 9%nat in *.
  change (balancer.GetHealthyBackends (balancer.rr_base rr0)) with [0; 1; 2]%nat in *.
  repeat apply conj.
  - exact H1.
  - exact (H2 0%nat ltac:(lia)).
  - apply H3. set_solver.
  - apply H3. set_solver.
  - apply H3. set_solver.
Defined.

Example round_robin_nine_requests :
  (rr_calls 9 rr0).2
  = [Ok 1; Ok 2; Ok 0; Ok 1; Ok 2; Ok 0; Ok 1; Ok 2; Ok 0]%nat.
Proof. vm_compute. reflexivity. Qed.

(** When the cursor reaches the end of int64 the next call does not return:
    the incremented cursor wraps to a negative number, the remainder is
    negative, and the slice index panics. *)
Example round_robin_cursor_wraps :
  (balancer.rr_NextBackend
     {| balancer.rr_base := balancer.rr_base rr0; balancer.current := max_int64 |}).2
  = Panic.
Proof. vm_compute. reflexivity. Qed.
(** ** Binary64 arithmetic on integers below 2^53

    Integers of fewer than 54 bits are binary64 numbers, and their sums,
    differences and comparisons are exact as long as the results stay in that
    range. *)

Lemma digits2_pos_log2 (p : positive) : Zpos (digits2_pos p) = Z.log2 (Zpos p) + 1.
Proof.
  assert (Hs : forall q, digits2_pos q = Pos.size q) by (induction q; simpl; congruence).
  destruct p; simpl; rewrite ?Hs; lia.
Qed.

Lemma Pos_iter_xO (d m : positive) : Zpos (Pos.iter xO m d) = Zpos m * 2 ^ Zpos d.
Proof.
  revert m. induction d as [d IH|d IH|]; intros m; simpl Pos.iter.
  - rewrite Pos2Z.inj_xO, !IH, (Pos2Z.inj_xI d).
    replace (2 * Z.pos d + 1) with (Z.pos d + Z.pos d + 1) by lia.
    rewrite !Z.pow_add_r, Z.pow_1_r by lia. ring.
  - rewrite !IH, (Pos2Z.inj_xO d).
    replace (2 * Z.pos d) with (Z.pos d + Z.pos d) by lia.
    rewrite !Z.pow_add_r by lia. ring.
  - rewrite Z.pow_1_r. lia.
Qed.

Lemma iter_pos_shr_1 (d m : positive) :
  SpecFloat.iter_pos shr_1 d {| shr_m := Zpos (Pos.iter xO m d); shr_r := false; shr_s := false |}
  = {| shr_m := Zpos m; shr_r := false; shr_s := false |}.
Proof.
  revert m. induction d as [d IH|d IH|]; intros m; simpl.
  - rewrite !IH. reflexivity.
  - rewrite !IH. reflexivity.
  - reflexivity.
Qed.

(** A mantissa of 53 bits needs no shift. *)
Lemma shr_fexp_canon (m : positive) (e : Z) :
  Zpos (digits2_pos m) = 53 -> -1074 <= e ->
  shr_fexp 53 1024 (Zpos m) e loc_Exact
  = ({| shr_m := Zpos m; shr_r := false; shr_s := false |}, e).
Proof.
  intros Hd He. unfold shr_fexp, fexp, emin. simpl Zdigits2. rewrite Hd.
  replace (Z.max (53 + e - 53) (3 - 1024 - 53) - e) with 0 by lia.
  reflexivity.
Qed.

Lemma round_after_shift (s : bool) (m0 m : positive) (e0 e : Z) :
  Zpos (digits2_pos m) = 53 -> -1074 <= e <= 971 ->
  shr_fexp 53 1024 (Zpos m0) e0 loc_Exact
  = ({| shr_m := Zpos m; shr_r := false; shr_s := false |}, e) ->
  binary_round_aux 53 1024 s (Zpos m0) e0 loc_Exact = S754_finite s m e.
Proof.
  intros Hd He Hsh. unfold binary_round_aux. rewrite Hsh.
  simpl shr_m. simpl loc_of_shr_record. simpl round_nearest_even.
  rewrite shr_fexp_canon by (try assumption; lia). simpl shr_m.
  destruct (Z.leb_spec e (1024 - 53)); [reflexivity|lia].
Qed.

(** Rounding a number that has a 53-bit mantissa returns that number. *)
Lemma round_exact (s : bool) (m0 m : positive) (e0 e : Z) :
  Zpos (digits2_pos m) = 53 -> -1074 <= e <= 971 ->
  (e <= e0 /\ Zpos m0 * 2 ^ (e0 - e) = Zpos m) \/
  (e0 < e /\ Zpos m0 = Zpos m * 2 ^ (e - e0)) ->
  binary_round 53 1024 s m0 e0 = S754_finite s m e.
Proof.
  intros Hd He Hv. unfold binary_round.
  assert (Hd0 : Zpos (digits2_pos m0) + e0 = 53 + e).
  { rewrite digits2_pos_log2 in *. destruct Hv as [[Hle Hv]|[Hlt Hv]].
    - rewrite <- Hv in Hd. rewrite Z.log2_mul_pow2 in Hd by lia. lia.
    - rewrite Hv. rewrite Z.log2_mul_pow2 by lia. lia. }
  rewrite Hd0. unfold fexp, emin.
  replace (Z.max (53 + e - 53) (3 - 1024 - 53)) with e by lia.
  unfold shl_align.
  destruct (e - e0) as [|d|d] eqn:Hdiff.
  - destruct Hv as [[Hle Hv]|[Hlt Hv]]; [|lia].
    replace (e0 - e) with 0 in Hv by lia. rewrite Z.mul_1_r in Hv.
    injection Hv as ->. replace e0 with e by lia.
    apply round_after_shift; try assumption. apply shr_fexp_canon; [assumption|lia].
  - destruct Hv as [[Hle Hv]|[Hlt Hv]]; [lia|].
    apply round_after_shift; try assumption.
    unfold shr_fexp, fexp, emin. simpl Zdigits2. rewrite Hd0.
    replace (Z.max (53 + e - 53) (3 - 1024 - 53) - e0) with (Zpos d) by lia.
    unfold shr. simpl shr_record_of_loc.
    assert (Hm : m0 = Pos.iter xO m d).
    { apply Pos2Z.inj; rewrite Pos_iter_xO, Hv; repeat f_equal; lia. }
    rewrite Hm, iter_pos_shr_1. f_equal. lia.
  - destruct Hv as [[Hle Hv]|[Hlt Hv]]; [|lia].
    assert (Hm : Pos.iter xO m0 d = m).
    { apply Pos2Z.inj; rewrite Pos_iter_xO, <- Hv; repeat f_equal; lia. }
    rewrite Hm.
    apply round_after_shift; try assumption. apply shr_fexp_canon; [assumption|lia].
Qed.

Lemma log2_53 (n : Z) : 0 < n < 2 ^ 53 -> 0 <= Z.log2 n <= 52.
Proof.
  intros Hn. split; [apply Z.log2_nonneg|].
  assert (Z.log2 n < 53) by (apply Z.log2_lt_pow2; lia). lia.
Qed.

Lemma round_shifted (s : bool) (n k : Z) :
  0 < n < 2 ^ 53 -> 0 <= k ->
  binary_round 53 1024 s (Z.to_pos (n * 2 ^ k)) (- k) = canon s n.
Proof.
  intros Hn Hk. pose proof (log2_53 n Hn) as Hl.
  assert (Hp : forall j, 0 <= j -> 0 < n * 2 ^ j).
  { intros j Hj. apply Z.mul_pos_pos; [lia|]. apply Z.pow_pos_nonneg; lia. }
  unfold canon. apply round_exact.
  - rewrite digits2_pos_log2, Z2Pos.id by (apply Hp; lia).
    rewrite Z.log2_mul_pow2 by lia. lia.
  - lia.
  - rewrite !Z2Pos.id by (apply Hp; lia).
    destruct (Z_le_gt_dec (Z.log2 n - 52) (- k)) as [Hle|Hgt].
    + left. split; [exact Hle|].
      rewrite <- Z.mul_assoc, <- Z.pow_add_r by lia. f_equal. f_equal. lia.
    + right. split; [lia|].
      rewrite <- Z.mul_assoc, <- Z.pow_add_r by lia. f_equal. f_equal. lia.
Qed.

Lemma normalize_shifted (n k : Z) :
  - 2 ^ 53 < n < 2 ^ 53 -> 0 <= k ->
  binary_normalize 53 1024 (n * 2 ^ k) (- k) false
  = match n with
    | 0 => S754_zero false
    | Zpos _ => canon false n
    | Zneg _ => canon true (- n)
    end.
Proof.
  intros Hn Hk.
  assert (H2 : 0 < 2 ^ k) by (apply Z.pow_pos_nonneg; lia).
  destruct n as [|p|p].
  - reflexivity.
  - destruct (Z.pos p * 2 ^ k) as [|q|q] eqn:Hq; try lia.
    unfold binary_normalize. rewrite <- (round_shifted false (Z.pos p) k) by lia.
    rewrite Hq. reflexivity.
  - destruct (Z.neg p * 2 ^ k) as [|q|q] eqn:Hq; try lia.
    unfold binary_normalize. rewrite <- (round_shifted true (- Z.neg p) k) by lia.
    replace (- Z.neg p * 2 ^ k) with (- (Z.neg p * 2 ^ k)) by lia.
    rewrite Hq. reflexivity.
Qed.

(** The number of an integer below 2^53 in magnitude is that integer. *)
Lemma of_int_canon (n : Z) :
  - 2 ^ 53 < n < 2 ^ 53 ->
  float64.of_int n = match n with
             | 0 => S754_zero false
             | Zpos _ => canon false n
             | Zneg _ => canon true (- n)
             end.
Proof.
  intros Hn. rewrite <- (normalize_shifted n 0) by lia.
  unfold float64.of_int. rewrite Z.pow_0_r, Z.mul_1_r. reflexivity.
Qed.

Lemma shl_align_fst (m : positive) (e ez : Z) :
  ez <= e -> Zpos (fst (shl_align m e ez)) = Zpos m * 2 ^ (e - ez).
Proof.
  intros He. unfold shl_align. destruct (ez - e) as [|d|d] eqn:Hd.
  - replace (e - ez) with 0 by lia. cbn [fst]. lia.
  - lia.
  - cbn [fst]. rewrite Pos_iter_xO. replace (e - ez) with (Zpos d) by lia. reflexivity.
Qed.

Lemma canon_value (n : Z) (ez : Z) :
  0 < n < 2 ^ 53 -> ez <= Z.log2 n - 52 ->
  Zpos (Z.to_pos (n * 2 ^ (52 - Z.log2 n))) * 2 ^ (Z.log2 n - 52 - ez) = n * 2 ^ (- ez).
Proof.
  intros Hn He. pose proof (log2_53 n Hn) as Hl.
  rewrite Z2Pos.id by (apply Z.mul_pos_pos; [lia|apply Z.pow_pos_nonneg; lia]).
  rewrite <- Z.mul_assoc, <- Z.pow_add_r by lia. f_equal. f_equal. lia.
Qed.

(** Differences and comparisons of such integers are exact. *)
Lemma of_int_sub (a b : Z) :
  0 <= a < 2 ^ 53 -> 0 <= b < 2 ^ 53 ->
  float64.sub (float64.of_int a) (float64.of_int b) = float64.of_int (a - b).
Proof.
  intros Ha Hb. unfold float64.sub. rewrite (of_int_canon a), (of_int_canon b), (of_int_canon (a - b)) by lia.
  destruct a as [|p|p]; [| |lia]; destruct b as [|q|q]; try lia.
  - reflexivity.
  - simpl Z.sub. unfold canon. simpl SFsub. reflexivity.
  - rewrite Z.sub_0_r. reflexivity.
  - unfold canon at 1 2. cbn [SFsub cond_Zopp].
    set (la := Z.log2 (Z.pos p)). set (lb := Z.log2 (Z.pos q)).
    set (ez := Z.min (la - 52) (lb - 52)).
    pose proof (log2_53 (Z.pos p) ltac:(lia)) as Hla.
    pose proof (log2_53 (Z.pos q) ltac:(lia)) as Hlb.
    fold la lb in Hla, Hlb.
    assert (Hez : ez <= la - 52 /\ ez <= lb - 52) by (subst ez; lia).
    clearbody ez. subst la lb.
    rewrite !shl_align_fst by lia.
    rewrite !canon_value by lia.
    rewrite <- Z.mul_sub_distr_r.
    replace ez with (- (- ez)) at 2 by lia.
    rewrite normalize_shifted by lia. reflexivity.
Qed.

Lemma canon_compare (a b : Z) :
  0 < a < 2 ^ 53 -> 0 < b < 2 ^ 53 ->
  SFcompare (canon false a) (canon false b) = Some (a ?= b).
Proof.
  intros Ha Hb. pose proof (log2_53 a Ha) as Hla. pose proof (log2_53 b Hb) as Hlb.
  unfold canon. cbn [SFcompare]. f_equal.
  destruct (Z.compare_spec (Z.log2 a - 52) (Z.log2 b - 52)) as [He|He|He].
  - replace (Z.log2 b) with (Z.log2 a) by lia.
    change (Pos.compare_cont Eq ?x ?y) with (Pos.compare x y).
    rewrite <- Z2Pos.inj_compare
      by (apply Z.mul_pos_pos; [lia|apply Z.pow_pos_nonneg; lia]).
    symmetry. apply Zmult_compare_compat_r. apply Z.lt_gt. apply Z.pow_pos_nonneg; lia.
  - symmetry. apply Z.compare_lt_iff. apply Z.log2_lt_cancel. lia.
  - symmetry. apply Z.compare_gt_iff. apply Z.log2_lt_cancel. lia.
Qed.

Lemma of_int_compare (a b : Z) :
  0 <= a < 2 ^ 53 -> 0 <= b < 2 ^ 53 ->
  SFcompare (float64.of_int a) (float64.of_int b) = Some (a ?= b).
Proof.
  intros Ha Hb.
  assert (- 2 ^ 53 < a < 2 ^ 53) by lia. assert (- 2 ^ 53 < b < 2 ^ 53) by lia.
  rewrite (of_int_canon a), (of_int_canon b) by assumption.
  destruct a as [|p|p]; [| |lia]; destruct b as [|q|q]; try lia; try reflexivity.
  apply canon_compare; lia.
Qed.

Lemma of_int_ltb (a b : Z) :
  0 <= a < 2 ^ 53 -> 0 <= b < 2 ^ 53 -> float64.ltb (float64.of_int a) (float64.of_int b) = (a <? b).
Proof.
  intros Ha Hb. unfold float64.ltb, SFltb, Z.ltb. rewrite of_int_compare by assumption.
  destruct (a ?= b); reflexivity.
Qed.

Lemma of_int_leb (a b : Z) :
  0 <= a < 2 ^ 53 -> 0 <= b < 2 ^ 53 -> float64.leb (float64.of_int a) (float64.of_int b) = (a <=? b).
Proof.
  intros Ha Hb. unfold float64.leb, SFleb, Z.leb. rewrite of_int_compare by assumption.
  destruct (a ?= b); reflexivity.
Qed.

Lemma of_int_positive (d : Z) :
  - 2 ^ 53 < d < 2 ^ 53 -> float64.ltb (float64.of_int 0) (float64.of_int d) = (0 <? d).
Proof.
  intros Hd. rewrite (of_int_canon d) by assumption.
  destruct d; reflexivity.
Qed.

Lemma of_int_add_0 (a : Z) :
  0 <= a < 2 ^ 53 -> float64.add (float64.of_int a) (float64.of_int 0) = float64.of_int a.
Proof.
  intros Ha. change (float64.of_int 0) with (S754_zero false).
  rewrite (of_int_canon a) by lia.
  destruct a; reflexivity.
Qed.

Lemma of_int_mul_0 (a : Z) :
  0 <= a < 2 ^ 53 -> float64.mul (float64.of_int a) (float64.of_int 0) = S754_zero false.
Proof.
  intros Ha. rewrite (of_int_canon a) by lia.
  destruct a; [reflexivity|reflexivity|lia].
Qed.

Lemma trunc_of_int (a : Z) : - 2 ^ 53 < a < 2 ^ 53 -> float64.trunc (float64.of_int a) = Some a.
Proof.
  intros Ha. rewrite (of_int_canon a) by assumption.
  assert (Hc : forall n, 0 < n < 2 ^ 53 ->
               Z.shiftl (Z.pos (Z.to_pos (n * 2 ^ (52 - Z.log2 n)))) (Z.log2 n - 52) = n).
  { intros n Hn. pose proof (log2_53 n Hn) as Hl.
    rewrite Z2Pos.id by (apply Z.mul_pos_pos; [lia|apply Z.pow_pos_nonneg; lia]).
    replace (Z.log2 n - 52) with (- (52 - Z.log2 n)) by lia.
    rewrite Z.shiftl_opp_r, Z.shiftr_div_pow2 by lia.
    apply Z.div_mul. apply Z.pow_nonzero; lia. }
  destruct a as [|p|p]; [reflexivity| |].
  - unfold canon, float64.trunc. rewrite Hc by lia. reflexivity.
  - unfold canon, float64.trunc. rewrite Hc by lia. simpl. reflexivity.
Qed.


(** ** The two stores *)

Lemma HGET_HSET_eq (d : gmap string (gmap string Z)) (key field : string) (v : Z) :
  RedisStorage.HGET (RedisStorage.HSET d key field v) key field = Some v.
Proof.
  unfold RedisStorage.HGET, RedisStorage.HSET.
  rewrite lookup_insert_eq. simpl. apply lookup_insert_eq.
Qed.

Lemma HGET_HSET_ne (d : gmap string (gmap string Z)) (key f1 f2 : string) (v : Z) :
  f1 <> f2 ->
  RedisStorage.HGET (RedisStorage.HSET d key f1 v) key f2 = RedisStorage.HGET d key f2.
Proof.
  intros Hne. unfold RedisStorage.HGET, RedisStorage.HSET.
  rewrite lookup_insert_eq. simpl. rewrite lookup_insert_ne by exact Hne.
  destruct (d !! key); reflexivity.
Qed.

(** The script stamps the bucket with the instant of the call, whether or not
    a token was added. *)
Lemma script_always_stamps (d : gmap string (gmap string Z)) (key : string)
    (n c r now : Z) :
  - 2 ^ 53 < now < 2 ^ 53 ->
  RedisStorage.HGET (RedisStorage.tokenBucketScript d key n c r now).1 key "lastRefill"
  = Some now.
Proof.
  intros Hnow. unfold RedisStorage.tokenBucketScript. cbv zeta. cbn [fst].
  rewrite HGET_HSET_eq. unfold RedisStorage.number_field, RedisStorage.tonumber.
  rewrite trunc_of_int by exact Hnow. reflexivity.
Qed.

(** The in-process store leaves the stamp alone when nothing is added. *)
Lemma refill_keeps_stamp (b : MemoryStorage.tokenBucket) (now c r : Z) :
  MemoryStorage.tokensToAdd now (MemoryStorage.lastRefill b) r <= 0 ->
  MemoryStorage.refill (Some b) now c r = b.
Proof.
  intros Hadd. unfold MemoryStorage.refill.
  destruct (Z.ltb_spec 0 (MemoryStorage.tokensToAdd now (MemoryStorage.lastRefill b) r));
    [lia|reflexivity].
Qed.

(** C4 at a failing input.  A client with capacity 1 and 1 token per second
    asks for a token at 0 s, 0.6 s and 1.2 s.  In process: allowed, denied,
    allowed; at 0.6 s nothing is added and the stamp stays at 0, so at 1.2 s a
    full second has passed.  Networked: allowed, denied, denied; the script
    moves the stamp to 0.6 s although it added nothing, and at 1.2 s only
    0.6 s count.  The two stores do not compute the same results. *)
Theorem C4_stores_disagree :
  (take_all MemoryStorage.NewMemoryStorage "k" slow_client).2
  = [(true, 0, None); (false, 0, None); (true, 0, None)] /\
  (take_all NewRedisStorage "k" slow_client).2
  = [(true, 0, None); (false, 0, None); (false, 0, None)] /\
  memory_bucket (take_all MemoryStorage.NewMemoryStorage "k" (take 2 slow_client)).1 "k"
  = Some (0, 0) /\
  redis_tokens (take_all NewRedisStorage "k" (take 2 slow_client)).1 "k" = Some 0 /\
  redis_lastRefill (take_all NewRedisStorage "k" (take 2 slow_client)).1 "k" = Some 600.
Proof. repeat apply conj; vm_compute; reflexivity. Qed.

(** ** The bounds of a bucket *)

(** C6 at a failing input.  A client takes a token from a fresh bucket of
    capacity 10 and, a microsecond later, another one with the capacity
    lowered to 5.  In process nothing is added at the second call, so the
    count is not clamped: 8 tokens are stored and returned, above the capacity
    5 passed to the call.  The script of the networked store clamps on every
    call and ends with 4.  The same happens through the API, when POST
    /clients lowers the capacity of client "c" between two requests. *)
Theorem C6_lowered_capacity_overfills :
  (take_all MemoryStorage.NewMemoryStorage "k" lowered_capacity).2
  = [(true, 9, None); (true, 8, None)] /\
  memory_bucket (take_all MemoryStorage.NewMemoryStorage "k" lowered_capacity).1 "k"
  = Some (8, 0) /\
  (take_all NewRedisStorage "k" lowered_capacity).2
  = [(true, 9, None); (true, 4, None)] /\
  redis_tokens (take_all NewRedisStorage "k" lowered_capacity).1 "k" = Some 4 /\
  (lowered_by_post manager0).1 = ((200, 200), (true, 8, None)) /\
  memory_bucket (lowered_by_post manager0).2 "c" = Some (8, 0) /\
  (lowered_by_post manager_redis).1 = ((200, 200), (true, 4, None)) /\
  redis_tokens (lowered_by_post manager_redis).2 "c" = Some 4.
Proof. repeat apply conj; vm_compute; reflexivity. Qed.

(** A negative number of tokens, which [Allow] never passes on, would push the
    count above the capacity in either store. *)
Example negative_take_overfills :
  memory_bucket
    (take_all MemoryStorage.NewMemoryStorage "k"
       [ {| c_now := 0; c_take := -5; c_cap := 10; c_rate := 1 |} ]).1 "k"
  = Some (15, 0) /\
  redis_tokens
    (take_all NewRedisStorage "k"
       [ {| c_now := 0; c_take := -5; c_cap := 10; c_rate := 1 |} ]).1 "k"
  = Some 15.
Proof. split; vm_compute; reflexivity. Qed.

(** The binary64 arithmetic shows in both stores.  In process, 290 ms at 100
    tokens per second add 28 tokens, not 29: the product of the two numbers is
    just below 29.  In the script a capacity of 2^53 + 3 is read as 2^53 + 4,
    and the bucket then holds more than the capacity passed. *)
Example binary64_rounding :
  MemoryStorage.tokensToAdd 290000000 0 100 = 28 /\
  (RedisStorage.tokenBucketScript ∅ "k" 1 (2 ^ 53 + 3) 0 5).2
  = (1, 9007199254740996).
Proof. split; vm_compute; reflexivity. Qed.

(** * Further properties *)

(** ** The stores: configurations *)

(** X1.  In the in-process store, reading a client's configuration after
    writing it gives back the pair written, (0, 0) included (which deletes the
    entry and reads as unset); the write returns no error, leaves every other
    client's configuration alone and does not touch the token buckets. *)
Theorem X1_memory_config_round_trip (s : MemoryStorage.t) (key other : string)
    (c r : Z) :
  MemoryStorage.GetClientConfig (MemoryStorage.SetClientConfig s key c r).1 key
  = (c, r, None) /\
  (MemoryStorage.SetClientConfig s key c r).2 = None /\
  (other <> key ->
   MemoryStorage.GetClientConfig (MemoryStorage.SetClientConfig s key c r).1 other
   = MemoryStorage.GetClientConfig s other) /\
  MemoryStorage.buckets (MemoryStorage.SetClientConfig s key c r).1
  = MemoryStorage.buckets s.
Proof.
  unfold MemoryStorage.SetClientConfig, MemoryStorage.GetClientConfig.
  destruct (Z.eqb_spec c 0) as [->|Hc]; [destruct (Z.eqb_spec r 0) as [->|Hr]|]; simpl.
  - rewrite lookup_delete_eq. repeat apply conj; try reflexivity.
    intros Hne. rewrite lookup_delete_ne by congruence. reflexivity.
  - rewrite lookup_insert_eq. repeat apply conj; try reflexivity.
    intros Hne. rewrite lookup_insert_ne by congruence. reflexivity.
  - rewrite lookup_insert_eq. repeat apply conj; try reflexivity.
    intros Hne. rewrite lookup_insert_ne by congruence. reflexivity.
Qed.

Lemma HSET_nonempty (d : gmap string (gmap string Z)) (key field : string) (v : Z) :
  exists h, RedisStorage.HSET d key field v !! key = Some h /\ h <> ∅ /\
            h !! field = Some v /\
            forall f, f <> field -> h !! f = default ∅ (d !! key) !! f.
Proof.
  unfold RedisStorage.HSET. rewrite lookup_insert_eq.
  eexists. split; [reflexivity|]. repeat apply conj.
  - apply insert_non_empty.
  - apply lookup_insert_eq.
  - intros f Hf. apply lookup_insert_ne. congruence.
Qed.

Lemma redis_get_after_set (s : RedisStorage.t) (key : string) (c r : Z) :
  RedisStorage.online s = true ->
  RedisStorage.SetClientConfig s key c r
  = ({| RedisStorage.db :=
          RedisStorage.HSET
            (RedisStorage.HSET (RedisStorage.db s) (ConfigKey key) "capacity" c)
            (ConfigKey key) "refillRate" r;
        RedisStorage.online := true |}, None) /\
  RedisStorage.GetClientConfig (RedisStorage.SetClientConfig s key c r).1 key
  = (c, r, None).
Proof.
  intros Hon. unfold RedisStorage.SetClientConfig, RedisStorage.GetClientConfig.
  rewrite Hon. cbn [fst snd RedisStorage.db RedisStorage.online].
  split; [reflexivity|].
  destruct (HSET_nonempty
              (RedisStorage.HSET (RedisStorage.db s) (ConfigKey key) "capacity" c)
              (ConfigKey key) "refillRate" r) as (h & Hh & Hne & Hr & Hother).
  rewrite Hh. destruct (decide (h = ∅)) as [He|_]; [contradiction|].
  rewrite Hr, Hother by discriminate.
  destruct (HSET_nonempty (RedisStorage.db s) (ConfigKey key) "capacity" c)
    as (h' & Hh' & _ & Hc & _).
  rewrite Hh'. simpl. rewrite Hc. reflexivity.
Qed.

(** X2.  In the networked store, over a working connection, reading a
    client's configuration after writing it gives back the pair written and
    the connection stays up.  Writing (0, 0) does not remove the hash: it
    stores two zero fields, which read as unset. *)
Theorem X2_redis_config_round_trip (s : RedisStorage.t) (key : string) (c r : Z) :
  RedisStorage.online s = true ->
  RedisStorage.GetClientConfig (RedisStorage.SetClientConfig s key c r).1 key
  = (c, r, None) /\
  (RedisStorage.SetClientConfig s key c r).2 = None /\
  RedisStorage.online (RedisStorage.SetClientConfig s key c r).1 = true /\
  RedisStorage.HGET (RedisStorage.db (RedisStorage.SetClientConfig s key 0 0).1)
    (ConfigKey key) "capacity" = Some 0.
Proof.
  intros Hon.
  destruct (redis_get_after_set s key c r Hon) as [Hset Hget].
  destruct (redis_get_after_set s key 0 0 Hon) as [Hset0 _].
  repeat apply conj.
  - exact Hget.
  - rewrite Hset. reflexivity.
  - rewrite Hset. reflexivity.
  - rewrite Hset0. cbn [fst RedisStorage.db].
    rewrite HGET_HSET_ne by discriminate. apply HGET_HSET_eq.
Qed.

Lemma X2_redis_config_round_trip_witness :
  RedisStorage.GetClientConfig (RedisStorage.SetClientConfig NewRedisStorage "c" 100 20).1 "c"
  = (100, 20, None) /\
  (RedisStorage.SetClientConfig NewRedisStorage "c" 100 20).2 = None /\
  RedisStorage.online (RedisStorage.SetClientConfig NewRedisStorage "c" 100 20).1 = true /\
  RedisStorage.HGET (RedisStorage.db (RedisStorage.SetClientConfig NewRedisStorage "c" 0 0).1)
    (ConfigKey "c") "capacity" = Some 0.
Proof. apply (X2_redis_config_round_trip NewRedisStorage "c" 100 20). reflexivity. Defined.

(** ** The stores: token buckets *)

(** X3.  In the in-process store a call for one client leaves every other
    client's bucket and all configurations as they were, and what a later
    call for another client returns does not depend on it. *)
Theorem X3_memory_clients_do_not_interfere (s : MemoryStorage.t)
    (key other : string) (now n c r now' n' c' r' : Z) :
  other <> key ->
  MemoryStorage.buckets (MemoryStorage.TakeTokens s now key n c r).1 !! other
  = MemoryStorage.buckets s !! other /\
  MemoryStorage.configs (MemoryStorage.TakeTokens s now key n c r).1
  = MemoryStorage.configs s /\
  (MemoryStorage.TakeTokens (MemoryStorage.TakeTokens s now key n c r).1
     now' other n' c' r').2
  = (MemoryStorage.TakeTokens s now' other n' c' r').2.
Proof.
  intros Hne.
  assert (Hb : MemoryStorage.buckets (MemoryStorage.TakeTokens s now key n c r).1 !! other
               = MemoryStorage.buckets s !! other).
  { unfold MemoryStorage.TakeTokens.
    destruct (n <=? _); simpl; apply lookup_insert_ne; congruence. }
  repeat apply conj.
  - exact Hb.
  - unfold MemoryStorage.TakeTokens. destruct (n <=? _); reflexivity.
  - unfold MemoryStorage.TakeTokens at 1 3. rewrite Hb.
    destruct (n' <=? _); reflexivity.
Qed.

Lemma X3_memory_clients_do_not_interfere_witness :
  MemoryStorage.buckets
    (MemoryStorage.TakeTokens MemoryStorage.NewMemoryStorage 0 "a" 1 10 5).1 !! "b"
  = MemoryStorage.buckets MemoryStorage.NewMemoryStorage !! "b" /\
  MemoryStorage.configs
    (MemoryStorage.TakeTokens MemoryStorage.NewMemoryStorage 0 "a" 1 10 5).1
  = MemoryStorage.configs MemoryStorage.NewMemoryStorage /\
  (MemoryStorage.TakeTokens
     (MemoryStorage.TakeTokens MemoryStorage.NewMemoryStorage 0 "a" 1 10 5).1
     7 "b" 2 10 5).2
  = (MemoryStorage.TakeTokens MemoryStorage.NewMemoryStorage 7 "b" 2 10 5).2.
Proof.
  apply (X3_memory_clients_do_not_interfere MemoryStorage.NewMemoryStorage
           "a" "b" 0 1 10 5 7 2 10 5).
  discriminate.
Defined.

Lemma drained_step (t : Z) (n : nat) :
  0 <= t ->
  drained t (S n)
  = (if 1 <=? t then (true, t - 1, None) else (false, 0, None))
    :: drained (if 1 <=? t then t - 1 else t) n.
Proof.
  intros Ht. unfold drained. cbn [seq fmap list_fmap]. f_equal.
  - change (Z.of_nat 0) with 0.
    destruct (Z.ltb_spec 0 t); destruct (Z.leb_spec 1 t); try lia;
      [f_equal; f_equal; lia|reflexivity].
  - rewrite <- fmap_S_seq, <- list_fmap_compose. apply list_fmap_ext.
    intros _ j _. simpl.
    destruct (Z.leb_spec 1 t).
    + destruct (Z.ltb_spec (Z.of_nat (S j)) t); destruct (Z.ltb_spec (Z.of_nat j) (t - 1));
        try lia; [f_equal; f_equal; lia|reflexivity].
    + destruct (Z.ltb_spec (Z.of_nat (S j)) t); destruct (Z.ltb_spec (Z.of_nat j) t);
        try lia; reflexivity.
Qed.

(** At a rate of 0 the in-process store adds nothing, whatever the time
    elapsed. *)
Lemma tokensToAdd_rate_0 (now last : Z) : MemoryStorage.tokensToAdd now last 0 <= 0.
Proof.
  unfold MemoryStorage.tokensToAdd. cbv zeta.
  change (float64.of_int 0) with (S754_zero false).
  destruct (Seconds (Sub now last)) as [s|s| |s m e]; try destruct s;
    vm_compute; congruence.
Qed.

Lemma memory_drains (key : string) (C : Z) (instants : list Z) :
  forall (s : MemoryStorage.t) (t : Z),
    0 <= t < 2 ^ 63 ->
    t = match MemoryStorage.buckets s !! key with
        | Some b => MemoryStorage.tokens b
        | None => C
        end ->
    (take_all s key (unit_takes C instants)).2 = drained t (length instants).
Proof.
  change (2 ^ 63) with 9223372036854775808.
  induction instants as [|now instants IH]; intros s t Ht He; [reflexivity|].
  change (unit_takes C (now :: instants))
    with ({| c_now := now; c_take := 1; c_cap := C; c_rate := 0 |}
          :: unit_takes C instants).
  cbn [take_all c_now c_take c_cap c_rate length].
  change (@TakeTokens MemoryStorage.t _) with MemoryStorage.TakeTokens.
  rewrite drained_step by lia.
  unfold MemoryStorage.TakeTokens.
  assert (Hr : MemoryStorage.tokens
                 (MemoryStorage.refill (MemoryStorage.buckets s !! key) now C 0) = t).
  { unfold MemoryStorage.refill.
    destruct (MemoryStorage.buckets s !! key) as [b|]; [|simpl; congruence].
    pose proof (tokensToAdd_rate_0 now (MemoryStorage.lastRefill b)) as Hadd.
    destruct (Z.ltb_spec 0 (MemoryStorage.tokensToAdd now (MemoryStorage.lastRefill b) 0));
      [lia|congruence]. }
  rewrite Hr.
  destruct (Z.leb_spec 1 t) as [Hle|Hgt].
  - rewrite wrap64_small by lia.
    set (s1 := {| MemoryStorage.buckets := _; MemoryStorage.configs := _ |}).
    specialize (IH s1 (t - 1) ltac:(lia)).
    destruct (take_all s1 key (unit_takes C instants)) as [s2 rs] eqn:Hrun.
    simpl. f_equal. apply IH. subst s1. simpl. rewrite lookup_insert_eq. reflexivity.
  - set (s1 := {| MemoryStorage.buckets := _; MemoryStorage.configs := _ |}).
    specialize (IH s1 t ltac:(lia)).
    destruct (take_all s1 key (unit_takes C instants)) as [s2 rs] eqn:Hrun.
    simpl. f_equal; [f_equal; f_equal; lia|].
    apply IH. subst s1. simpl. rewrite lookup_insert_eq. exact (eq_sym Hr).
Qed.

(** One run of the script for one token at a rate of 0, on numbers below
    2^53: nothing is added, the count goes down by one if there is a token,
    and the stamp moves to the instant of the call. *)
Lemma script_rate_0 (d : gmap string (gmap string Z)) (key : string)
    (C t last now : Z) :
  0 <= t <= C -> C < 2 ^ 53 -> 0 <= last < 2 ^ 53 -> 0 <= now < 2 ^ 53 ->
  t = default C (RedisStorage.HGET d key "tokens") ->
  last = default now (RedisStorage.HGET d key "lastRefill") ->
  RedisStorage.tokenBucketScript d key 1 C 0 now
  = (RedisStorage.HSET
       (RedisStorage.HSET d key "tokens" (if 1 <=? t then t - 1 else t))
       key "lastRefill" now,
     (if 1 <=? t then 1 else 0, if 1 <=? t then t - 1 else t)).
Proof.
  intros Ht HC Hl Hn Het Hel.
  assert (H63 : 2 ^ 53 < 2 ^ 63) by reflexivity.
  unfold RedisStorage.tokenBucketScript. cbv zeta.
  unfold RedisStorage.math_max, RedisStorage.math_min, RedisStorage.number_field,
    RedisStorage.tonumber.
  replace (default (float64.of_int C)
             (float64.of_int <$> RedisStorage.HGET d key "tokens"))
    with (float64.of_int t)
    by (rewrite Het; destruct (RedisStorage.HGET d key "tokens"); reflexivity).
  replace (default (float64.of_int now)
             (float64.of_int <$> RedisStorage.HGET d key "lastRefill"))
    with (float64.of_int last)
    by (rewrite Hel; destruct (RedisStorage.HGET d key "lastRefill"); reflexivity).
  rewrite (of_int_sub now last), (of_int_positive (now - last)) by lia.
  replace (if 0 <? now - last then float64.of_int (now - last) else float64.of_int 0)
    with (float64.of_int (Z.max 0 (now - last)))
    by (destruct (Z.ltb_spec 0 (now - last)); f_equal; lia).
  rewrite of_int_mul_0 by lia.
  change (float64.floor (float64.div (S754_zero false) (float64.of_int 1000)))
    with (float64.of_int 0).
  rewrite (of_int_sub C t), (of_int_positive (C - t)) by lia.
  replace (if 0 <? C - t then float64.of_int 0 else float64.of_int (C - t))
    with (float64.of_int 0)
    by (destruct (Z.ltb_spec 0 (C - t)); f_equal; lia).
  rewrite of_int_add_0, of_int_ltb by lia.
  replace (if t <? C then float64.of_int t else float64.of_int C)
    with (float64.of_int t)
    by (destruct (Z.ltb_spec t C); f_equal; lia).
  rewrite of_int_leb by lia.
  destruct (Z.leb_spec 1 t) as [Hle|Hgt].
  - rewrite of_int_sub by lia. unfold float64.to_int.
    rewrite !trunc_of_int by lia. cbn [default].
    destruct (Z.leb_spec (- 2 ^ 63) (t - 1)); [|lia].
    destruct (Z.ltb_spec (t - 1) (2 ^ 63)); [|lia]. reflexivity.
  - unfold float64.to_int. rewrite !trunc_of_int by lia. cbn [default].
    destruct (Z.leb_spec (- 2 ^ 63) t); [|lia].
    destruct (Z.ltb_spec t (2 ^ 63)); [|lia]. reflexivity.
Qed.

Lemma UnixMilli_range (now : Z) : 0 <= now < 2 ^ 63 -> 0 <= UnixMilli now < 2 ^ 53.
Proof.
  intros Hn. unfold UnixMilli. split; [apply Z.div_pos; lia|].
  apply Z.div_lt_upper_bound; [lia|]. change (2 ^ 63) with 9223372036854775808 in Hn.
  change (2 ^ 53) with 9007199254740992. lia.
Qed.

Lemma redis_drains (key : string) (C : Z) (instants : list Z) :
  C < 2 ^ 53 ->
  Forall (fun now => 0 <= now < 2 ^ 63) instants ->
  forall (s : RedisStorage.t) (t : Z),
    RedisStorage.online s = true ->
    0 <= t <= C ->
    t = default C (redis_tokens s key) ->
    (forall last, redis_lastRefill s key = Some last -> 0 <= last < 2 ^ 53) ->
    (take_all s key (unit_takes C instants)).2 = drained t (length instants).
Proof.
  intros HC Hall.
  induction Hall as [|now instants Hnow Hall IH]; intros s t Hon Ht He Hlast;
    [reflexivity|].
  apply UnixMilli_range in Hnow.
  change (unit_takes C (now :: instants))
    with ({| c_now := now; c_take := 1; c_cap := C; c_rate := 0 |}
          :: unit_takes C instants).
  cbn [take_all c_now c_take c_cap c_rate length].
  change (@TakeTokens RedisStorage.t _) with RedisStorage.TakeTokens.
  rewrite drained_step by lia.
  unfold RedisStorage.TakeTokens. rewrite Hon.
  unfold redis_tokens, redis_lastRefill in *.
  rewrite (script_rate_0 (RedisStorage.db s) (RateLimitKey key) C t
             (default (UnixMilli now)
                (RedisStorage.HGET (RedisStorage.db s) (RateLimitKey key) "lastRefill"))
             (UnixMilli now)); try assumption; try reflexivity.
  2:{ destruct (RedisStorage.HGET (RedisStorage.db s) (RateLimitKey key) "lastRefill")
        as [last|]; [apply Hlast; reflexivity|exact Hnow]. }
  set (s1 := {| RedisStorage.db := _; RedisStorage.online := true |}).
  assert (Hs1 : default C (RedisStorage.HGET (RedisStorage.db s1) (RateLimitKey key) "tokens")
                = if 1 <=? t then t - 1 else t).
  { subst s1. cbn [RedisStorage.db].
    rewrite HGET_HSET_ne by discriminate. rewrite HGET_HSET_eq. reflexivity. }
  assert (Hl1 : forall last,
             RedisStorage.HGET (RedisStorage.db s1) (RateLimitKey key) "lastRefill"
             = Some last -> 0 <= last < 2 ^ 53).
  { subst s1. cbn [RedisStorage.db]. rewrite HGET_HSET_eq. intros last [= <-]. exact Hnow. }
  specialize (IH s1 (if 1 <=? t then t - 1 else t) eq_refl).
  destruct (take_all s1 key (unit_takes C instants)) as [s2 rs] eqn:Hrun.
  destruct (Z.leb_spec 1 t) as [Hle|Hgt]; simpl.
  - f_equal. apply IH; [lia|symmetry; exact Hs1|exact Hl1].
  - f_equal; [f_equal; f_equal; lia|]. apply IH; [lia|symmetry; exact Hs1|exact Hl1].
Qed.

(** X4.  A new client with capacity C below 2^53 and refill rate 0 asks for one
    token at a time, at any instants of the clock from 0 up to 2^63
    nanoseconds: in both stores exactly the first C requests are allowed,
    with C-1, C-2, ..., 0 tokens left, and every later one is denied with 0
    left. *)
Theorem X4_bucket_without_refill_drains (key : string) (C : Z) (instants : list Z) :
  0 <= C < 2 ^ 53 ->
  Forall (fun now => 0 <= now < 2 ^ 63) instants ->
  (take_all MemoryStorage.NewMemoryStorage key (unit_takes C instants)).2
  = drained C (length instants) /\
  (take_all NewRedisStorage key (unit_takes C instants)).2
  = drained C (length instants).
Proof.
  intros HC Hall. split.
  - apply memory_drains.
    + change (2 ^ 63) with 9223372036854775808.
      change (2 ^ 53) with 9007199254740992 in HC. lia.
    + simpl. rewrite lookup_empty. reflexivity.
  - apply (redis_drains key C instants (proj2 HC) Hall NewRedisStorage C eq_refl);
      [lia| |].
    + unfold redis_tokens, RedisStorage.HGET. simpl. rewrite lookup_empty. reflexivity.
    + intros last. unfold redis_lastRefill, RedisStorage.HGET. simpl.
      rewrite lookup_empty. discriminate.
Qed.

Lemma X4_bucket_without_refill_drains_witness :
  (take_all MemoryStorage.NewMemoryStorage "k"
     (unit_takes 2 [5000000000; 6000000000; 4000000000])).2
  = drained 2 3 /\
  (take_all NewRedisStorage "k"
     (unit_takes 2 [5000000000; 6000000000; 4000000000])).2 = drained 2 3.
Proof.
  apply (X4_bucket_without_refill_drains "k" 2 [5000000000; 6000000000; 4000000000]).
  - vm_compute. split; congruence.
  - repeat constructor; vm_compute; congruence.
Defined.

Example drained_two_of_three :
  drained 2 3 = [(true, 1, None); (true, 0, None); (false, 0, None)].
Proof. reflexivity. Qed.

(** Above 2^53 the script no longer counts: 2^60 - 1 is the number 2^60, and
    a bucket of that capacity never drains. *)
Example redis_bucket_does_not_count_above_2_53 :
  (take_all NewRedisStorage "k" (unit_takes (2 ^ 60) [0; 1; 2])).2
  = [(true, 2 ^ 60, None); (true, 2 ^ 60, None); (true, 2 ^ 60, None)].
Proof. vm_compute. reflexivity. Qed.

(** ** The rate limiter *)

Section LimiterMore.
Context {S : Type} `{Storage S}.

(** X5.  [UpdateClientConfig] over any store.  When it succeeds both values
    are positive and the client resolves to the pair just written, from the
    cache.  When it fails the cache is as before; with a non-positive value it
    fails with the validation error before anything is touched. *)
Theorem X5_UpdateClientConfig_writes_through (tb : ratelimit.TokenBucketRateLimiter S)
    (clientID : string) (c r : Z) :
  match ratelimit.UpdateClientConfig tb clientID c r with
  | (tb', None) =>
      0 < c /\ 0 < r /\
      ratelimit.getClientConfig tb' clientID = (tb', (c, r, None))
  | (tb', Some e) =>
      ratelimit.clients tb' = ratelimit.clients tb /\
      (c <= 0 \/ r <= 0 -> tb' = tb /\ e = ErrInvalid)
  end.
Proof.
  unfold ratelimit.UpdateClientConfig.
  destruct (Z.leb_spec c 0) as [Hc|Hc]; simpl.
  { split; [reflexivity|]. intros _. split; reflexivity. }
  destruct (Z.leb_spec r 0) as [Hr|Hr]; simpl.
  { split; [reflexivity|]. intros _. split; reflexivity. }
  destruct (SetClientConfig (ratelimit.storage tb) clientID c r) as [store [e|]]; simpl.
  - split; [reflexivity|]. intros [?|?]; lia.
  - repeat apply conj; try lia.
    unfold ratelimit.getClientConfig. simpl. rewrite lookup_insert_eq. reflexivity.
Qed.

(** X6.  A resolution is remembered.  When [getClientConfig] returns a pair,
    asking again returns the same pair and changes nothing; the store is not
    written and no other client's cache entry is touched.  When the store
    fails, the limiter is left exactly as it was. *)
Theorem X6_getClientConfig_caches (tb : ratelimit.TokenBucketRateLimiter S)
    (clientID : string) :
  match ratelimit.getClientConfig tb clientID with
  | (tb', (c, r, None)) =>
      ratelimit.getClientConfig tb' clientID = (tb', (c, r, None)) /\
      ratelimit.storage tb' = ratelimit.storage tb /\
      (forall other, other <> clientID ->
         ratelimit.clients tb' !! other = ratelimit.clients tb !! other)
  | (tb', (_, _, Some _)) => tb' = tb
  end.
Proof.
  unfold ratelimit.getClientConfig at 1.
  destruct (ratelimit.clients tb !! clientID) as [cfg|] eqn:Hc.
  - repeat apply conj; try reflexivity.
    unfold ratelimit.getClientConfig. rewrite Hc. reflexivity.
  - destruct (GetClientConfig (ratelimit.storage tb) clientID) as [[c r] [e|]];
      [reflexivity|].
    destruct ((c =? 0) || (r =? 0)); simpl.
    + repeat apply conj; try reflexivity.
      * unfold ratelimit.getClientConfig. simpl. rewrite lookup_insert_eq. reflexivity.
      * intros other Hne. apply lookup_insert_ne. congruence.
    + repeat apply conj; try reflexivity.
      * unfold ratelimit.getClientConfig. simpl. rewrite lookup_insert_eq. reflexivity.
      * intros other Hne. apply lookup_insert_ne. congruence.
Qed.

(** X7.  Over any store, [Allow] reports allowed = true exactly when it
    returns no error; a request is never allowed together with an error, and a
    refusal always comes with one. *)
Theorem X7_Allow_allowed_iff_no_error (tb : ratelimit.TokenBucketRateLimiter S)
    (now : Z) (clientID : string) (n : Z) :
  match ratelimit.Allow tb now clientID n with
  | (_, (allowed, _, err)) => allowed = true <-> err = None
  end.
Proof.
  unfold ratelimit.Allow.
  destruct (n <=? 0); [split; reflexivity|].
  destruct (ratelimit.getClientConfig tb clientID) as [tb1 [[c r] [e|]]];
    [split; discriminate|].
  destruct (TakeTokens _ _ _ _ _ _) as [store [[ok rem] [e|]]];
    [split; discriminate|].
  destruct ok; simpl; split; (reflexivity || discriminate).
Qed.

End LimiterMore.

(** X8.  With the networked store unreachable, no request for a positive
    number of tokens is allowed, cached configuration or not: [Allow] answers
    (false, 0, error of the store) and the limiter stays as it was. *)
Theorem X8_Allow_fails_closed_when_store_is_down
    (tb : ratelimit.TokenBucketRateLimiter RedisStorage.t)
    (now : Z) (clientID : string) (n : Z) :
  RedisStorage.online (ratelimit.storage tb) = false ->
  0 < n ->
  exists msg,
    ratelimit.Allow tb now clientID n = (tb, (false, 0, Some (ErrStore msg))).
Proof.
  intros Hoff Hn. unfold ratelimit.Allow.
  destruct (Z.leb_spec n 0); [lia|].
  unfold ratelimit.getClientConfig.
  destruct (ratelimit.clients tb !! clientID) as [cfg|].
  - cbn [TakeTokens RedisStorage_Storage]. unfold RedisStorage.TakeTokens.
    rewrite Hoff. eexists. destruct tb; reflexivity.
  - cbn [GetClientConfig RedisStorage_Storage]. unfold RedisStorage.GetClientConfig.
    rewrite Hoff. eexists. reflexivity.
Qed.

Lemma X8_Allow_fails_closed_when_store_is_down_witness :
  exists msg,
    ratelimit.Allow
      {| ratelimit.storage := {| RedisStorage.db := ∅; RedisStorage.online := false |};
         ratelimit.defaultConfig := {| config.Capacity := 10; config.RefillRate := 5 |};
         ratelimit.clients := ∅ |} 0 "c" 1
    = ({| ratelimit.storage := {| RedisStorage.db := ∅; RedisStorage.online := false |};
          ratelimit.defaultConfig := {| config.Capacity := 10; config.RefillRate := 5 |};
          ratelimit.clients := ∅ |}, (false, 0, Some (ErrStore msg))).
Proof.
  apply (X8_Allow_fails_closed_when_store_is_down
           {| ratelimit.storage := {| RedisStorage.db := ∅; RedisStorage.online := false |};
              ratelimit.defaultConfig := {| config.Capacity := 10; config.RefillRate := 5 |};
              ratelimit.clients := ∅ |} 0 "c" 1); [reflexivity|lia].
Defined.

(** ** The management handlers *)

Lemma memory_get_after_set (s : MemoryStorage.t) (key : string) (c r : Z) :
  MemoryStorage.GetClientConfig (MemoryStorage.SetClientConfig s key c r).1 key
  = (c, r, None) /\
  (MemoryStorage.SetClientConfig s key c r).2 = None.
Proof.
  unfold MemoryStorage.SetClientConfig, MemoryStorage.GetClientConfig.
  destruct (Z.eqb_spec c 0) as [->|Hc]; [destruct (Z.eqb_spec r 0) as [->|Hr]|]; simpl.
  - rewrite lookup_delete_eq. split; reflexivity.
  - rewrite lookup_insert_eq. split; reflexivity.
  - rewrite lookup_insert_eq. split; reflexivity.
Qed.

(** X9.  POST /clients followed by GET /clients, over the in-process store.
    For a non-empty client id, with a non-positive capacity or rate replaced
    by the default and the resulting values positive, the POST answers 200
    with the configuration in effect, and a GET for that client then answers
    200 with the same configuration and changes nothing. *)
Theorem X9_add_then_get_client (cm : ratelimit.ClientManager MemoryStorage.t)
    (w1 w2 : ResponseWriter) (post get : Request) (id : string) (c r : Z) :
  Method post = "POST" ->
  JSON post = Some (id, c, r) ->
  id <> "" ->
  0 < (if c <=? 0 then config.Capacity (ratelimit.cm_defaultConfig cm) else c) ->
  0 < (if r <=? 0 then config.RefillRate (ratelimit.cm_defaultConfig cm) else r) ->
  Method get = "GET" ->
  Query_Get (Query get) "client_id" = id ->
  WStatus (ratelimit.HandleAddClient cm w1 post).2 = 200 /\
  WBody (ratelimit.HandleAddClient cm w1 post).2
  = JSONConfig id
      (if c <=? 0 then config.Capacity (ratelimit.cm_defaultConfig cm) else c)
      (if r <=? 0 then config.RefillRate (ratelimit.cm_defaultConfig cm) else r) /\
  ratelimit.HandleGetClient (ratelimit.HandleAddClient cm w1 post).1 w2 get
  = ((ratelimit.HandleAddClient cm w1 post).1,
     WriteBody (WriteHeader (Header_Set w2 "Content-Type" "application/json") 200)
       (JSONConfig id
          (if c <=? 0 then config.Capacity (ratelimit.cm_defaultConfig cm) else c)
          (if r <=? 0 then config.RefillRate (ratelimit.cm_defaultConfig cm) else r))).
Proof.
  intros Hm Hj Hid. 
  set (c' := if c <=? 0 then _ else c). set (r' := if r <=? 0 then _ else r).
  intros Hc Hr Hg Hq.
  assert (Hadd : ratelimit.HandleAddClient cm w1 post
                 = ({| ratelimit.rateLimiter :=
                         {| ratelimit.storage :=
                              (MemoryStorage.SetClientConfig
                                 (ratelimit.storage (ratelimit.rateLimiter cm)) id c' r').1;
                            ratelimit.defaultConfig :=
                              ratelimit.defaultConfig (ratelimit.rateLimiter cm);
                            ratelimit.clients :=
                              <[id := {| capacity := c'; refillRate := r' |}]>
                                (ratelimit.clients (ratelimit.rateLimiter cm)) |};
                       ratelimit.cm_defaultConfig := ratelimit.cm_defaultConfig cm |},
                    WriteBody (WriteHeader (Header_Set w1 "Content-Type" "application/json") 200)
                      (JSONConfig id c' r'))).
  { unfold ratelimit.HandleAddClient. rewrite Hm, Hj. cbn [String.eqb Ascii.eqb Bool.eqb negb].
    destruct (String.eqb_spec id ""); [contradiction|].
    fold c'. fold r'. unfold ratelimit.UpdateClientConfig.
    destruct (Z.leb_spec c' 0); [lia|]. destruct (Z.leb_spec r' 0); [lia|].
    cbn [orb SetClientConfig MemoryStorage_Storage].
    destruct (memory_get_after_set (ratelimit.storage (ratelimit.rateLimiter cm)) id c' r')
      as [_ Hnone].
    destruct (MemoryStorage.SetClientConfig _ id c' r') as [store err].
    simpl in Hnone. subst err. reflexivity. }
  rewrite Hadd. cbn [fst snd]. repeat apply conj; try reflexivity.
  unfold ratelimit.HandleGetClient. rewrite Hg, Hq.
  cbn [String.eqb Ascii.eqb Bool.eqb negb].
  destruct (String.eqb_spec id ""); [contradiction|].
  unfold ratelimit.cm_storage. cbn [ratelimit.rateLimiter ratelimit.storage
    GetClientConfig MemoryStorage_Storage].
  destruct (memory_get_after_set (ratelimit.storage (ratelimit.rateLimiter cm)) id c' r')
    as [Hget _].
  rewrite Hget.
  destruct (Z.eqb_spec c' 0); [lia|]. destruct (Z.eqb_spec r' 0); [lia|].
  reflexivity.
Qed.

Lemma X9_add_then_get_client_witness :
  WStatus (ratelimit.HandleAddClient manager0 NewResponseWriter (post_client "c" 100 0)).2
  = 200 /\
  WBody (ratelimit.HandleAddClient manager0 NewResponseWriter (post_client "c" 100 0)).2
  = JSONConfig "c" 100 10 /\
  ratelimit.HandleGetClient
    (ratelimit.HandleAddClient manager0 NewResponseWriter (post_client "c" 100 0)).1
    NewResponseWriter
    {| Method := "GET"; Header := ∅; RemoteAddr := "192.0.2.1:4000";
       Query := {[ "client_id" := "c" ]}; JSON := None |}
  = ((ratelimit.HandleAddClient manager0 NewResponseWriter (post_client "c" 100 0)).1,
     WriteBody (WriteHeader (Header_Set NewResponseWriter "Content-Type" "application/json") 200)
       (JSONConfig "c" 100 10)).
Proof.
  apply (X9_add_then_get_client manager0 NewResponseWriter NewResponseWriter
           (post_client "c" 100 0)
           {| Method := "GET"; Header := ∅; RemoteAddr := "192.0.2.1:4000";
              Query := {[ "client_id" := "c" ]}; JSON := None |} "c" 100 0);
    try reflexivity; try discriminate.
Defined.

Section HandlersAnyStore.
Context {S : Type} `{Storage S}.

(** X10.  A request to /clients that is answered 400 or 405 changes nothing:
    whatever the store, the manager (its store and its limiter's cache) is
    the one it was before. *)
Theorem X10_rejected_request_changes_nothing (cm : ratelimit.ClientManager S)
    (w : ResponseWriter) (r : Request) :
  WStatus (ratelimit.HandleCRUD cm w r).2 = StatusBadRequest \/
  WStatus (ratelimit.HandleCRUD cm w r).2 = StatusMethodNotAllowed ->
  (ratelimit.HandleCRUD cm w r).1 = cm.
Proof.
  unfold ratelimit.HandleCRUD, ratelimit.HandleAddClient, ratelimit.HandleGetClient,
    ratelimit.HandleDeleteClient.
  destruct (String.eqb (Method r) "POST").
  - cbn [negb]. destruct (JSON r) as [[[id c] rate]|]; [|reflexivity].
    destruct (String.eqb id ""); [reflexivity|].
    destruct (ratelimit.UpdateClientConfig _ _ _ _) as [tb [e|]]; simpl;
      intros [Hs|Hs]; discriminate Hs.
  - destruct (String.eqb (Method r) "GET").
    + cbn [negb]. destruct (String.eqb _ ""); [reflexivity|].
      destruct (GetClientConfig _ _) as [[c rate] [e|]]; [reflexivity|].
      destruct ((c =? 0) || (rate =? 0)); reflexivity.
    + destruct (String.eqb (Method r) "DELETE"); [|reflexivity].
      cbn [negb]. destruct (String.eqb _ ""); [reflexivity|].
      destruct (SetClientConfig _ _ _ _) as [store [e|]]; simpl;
        intros [Hs|Hs]; discriminate Hs.
Qed.

End HandlersAnyStore.

Lemma X10_rejected_request_changes_nothing_witness :
  (ratelimit.HandleCRUD manager0 NewResponseWriter (post_client "" 100 20)).1 = manager0.
Proof.
  apply (X10_rejected_request_changes_nothing manager0 NewResponseWriter
           (post_client "" 100 20)).
  left. reflexivity.
Defined.

(** X11.  DELETE /clients followed by GET /clients.  For a non-empty client
    id the DELETE answers 204 and a GET for that client then answers 200 with
    the default configuration, over the in-process store and, while the
    connection is up, over the networked one. *)
Theorem X11_delete_then_get_client
    (cm : ratelimit.ClientManager MemoryStorage.t)
    (cr : ratelimit.ClientManager RedisStorage.t)
    (w1 w2 : ResponseWriter) (del get : Request) (id : string) :
  RedisStorage.online (ratelimit.storage (ratelimit.rateLimiter cr)) = true ->
  Method del = "DELETE" ->
  Query_Get (Query del) "client_id" = id ->
  Method get = "GET" ->
  Query_Get (Query get) "client_id" = id ->
  id <> "" ->
  ((ratelimit.HandleDeleteClient cm w1 del).2 = WriteHeader w1 StatusNoContent /\
   (ratelimit.HandleGetClient (ratelimit.HandleDeleteClient cm w1 del).1 w2 get).2
   = WriteBody (WriteHeader (Header_Set w2 "Content-Type" "application/json") 200)
       (JSONConfig id (config.Capacity (ratelimit.cm_defaultConfig cm))
          (config.RefillRate (ratelimit.cm_defaultConfig cm)))) /\
  ((ratelimit.HandleDeleteClient cr w1 del).2 = WriteHeader w1 StatusNoContent /\
   (ratelimit.HandleGetClient (ratelimit.HandleDeleteClient cr w1 del).1 w2 get).2
   = WriteBody (WriteHeader (Header_Set w2 "Content-Type" "application/json") 200)
       (JSONConfig id (config.Capacity (ratelimit.cm_defaultConfig cr))
          (config.RefillRate (ratelimit.cm_defaultConfig cr)))).
Proof.
  intros Hon Hd Hqd Hg Hqg Hid. split.
  - unfold ratelimit.HandleDeleteClient. rewrite Hd, Hqd.
    cbn [String.eqb Ascii.eqb Bool.eqb negb].
    destruct (String.eqb_spec id ""); [contradiction|].
    unfold ratelimit.cm_storage. cbn [SetClientConfig MemoryStorage_Storage].
    destruct (memory_get_after_set (ratelimit.storage (ratelimit.rateLimiter cm)) id 0 0)
      as [Hget Hnone].
    destruct (MemoryStorage.SetClientConfig _ id 0 0) as [store err].
    simpl in Hnone, Hget. subst err. split; [reflexivity|].
    unfold ratelimit.HandleGetClient. rewrite Hg, Hqg.
    cbn [String.eqb Ascii.eqb Bool.eqb negb fst].
    destruct (String.eqb_spec id ""); [contradiction|].
    unfold ratelimit.cm_storage, ratelimit.with_storage.
    cbn [ratelimit.rateLimiter ratelimit.storage GetClientConfig MemoryStorage_Storage].
    rewrite Hget. reflexivity.
  - unfold ratelimit.HandleDeleteClient. rewrite Hd, Hqd.
    cbn [String.eqb Ascii.eqb Bool.eqb negb].
    destruct (String.eqb_spec id ""); [contradiction|].
    unfold ratelimit.cm_storage. cbn [SetClientConfig RedisStorage_Storage].
    destruct (redis_get_after_set (ratelimit.storage (ratelimit.rateLimiter cr)) id 0 0 Hon)
      as [Hset Hget].
    rewrite Hset in Hget |- *. cbn [fst] in Hget. split; [reflexivity|].
    unfold ratelimit.HandleGetClient. rewrite Hg, Hqg.
    cbn [String.eqb Ascii.eqb Bool.eqb negb fst].
    destruct (String.eqb_spec id ""); [contradiction|].
    unfold ratelimit.cm_storage, ratelimit.with_storage.
    cbn [ratelimit.rateLimiter ratelimit.storage GetClientConfig RedisStorage_Storage].
    rewrite Hget. reflexivity.
Qed.

Lemma X11_delete_then_get_client_witness :
  ((ratelimit.HandleDeleteClient manager0 NewResponseWriter (delete_client "c")).2
   = WriteHeader NewResponseWriter StatusNoContent /\
   (ratelimit.HandleGetClient
      (ratelimit.HandleDeleteClient manager0 NewResponseWriter (delete_client "c")).1
      NewResponseWriter (get_client "c")).2
   = WriteBody (WriteHeader (Header_Set NewResponseWriter "Content-Type" "application/json") 200)
       (JSONConfig "c" 50 10)) /\
  ((ratelimit.HandleDeleteClient manager_redis NewResponseWriter (delete_client "c")).2
   = WriteHeader NewResponseWriter StatusNoContent /\
   (ratelimit.HandleGetClient
      (ratelimit.HandleDeleteClient manager_redis NewResponseWriter (delete_client "c")).1
      NewResponseWriter (get_client "c")).2
   = WriteBody (WriteHeader (Header_Set NewResponseWriter "Content-Type" "application/json") 200)
       (JSONConfig "c" 50 10)).
Proof.
  apply (X11_delete_then_get_client manager0 manager_redis NewResponseWriter
           NewResponseWriter (delete_client "c") (get_client "c") "c");
    try reflexivity; discriminate.
Defined.

Section ReadOnly.
Context {S : Type} `{Storage S}.
Variable SplitHostPort : string -> option (string * string).

(** X28.  GET /clients and GET /client-status are read-only: whatever the
    request and the store, the manager afterwards is the manager before, so
    no token is consumed and nothing is cached.  When /client-status answers
    200, the tokens_remaining it reports is 0, whatever the client holds. *)
Theorem X28_read_only_endpoints (cm : ratelimit.ClientManager S) (now : Z)
    (w : ResponseWriter) (r : Request) :
  (ratelimit.HandleGetClient cm w r).1 = cm /\
  (ratelimit.HandleStatus SplitHostPort cm now w r).1 = cm /\
  (WStatus (ratelimit.HandleStatus SplitHostPort cm now w r).2 = StatusOK ->
   exists id c rt pct,
     WBody (ratelimit.HandleStatus SplitHostPort cm now w r).2 = JSONStatus id c rt 0 pct).
Proof.
  repeat apply conj.
  - unfold ratelimit.HandleGetClient.
    destruct (negb _); [reflexivity|]. destruct (String.eqb _ ""); [reflexivity|].
    destruct (GetClientConfig _ _) as [[c rt] [e|]]; [reflexivity|].
    destruct ((c =? 0) || (rt =? 0)); reflexivity.
  - unfold ratelimit.HandleStatus.
    destruct (negb _); [reflexivity|].
    destruct (GetClientConfig _ _) as [[c rt] [e|]]; [reflexivity|].
    destruct ((c =? 0) || (rt =? 0)); simpl; destruct cm; reflexivity.
  - unfold ratelimit.HandleStatus.
    destruct (negb _); [intros [=]|].
    destruct (GetClientConfig _ _) as [[c rt] [e|]]; [intros [=]|].
    destruct ((c =? 0) || (rt =? 0)); simpl; intros _; eauto.
Qed.

End ReadOnly.

Lemma X28_read_only_endpoints_witness :
  exists id c rt pct,
    WBody (ratelimit.HandleStatus (fun _ => None)
             {| ratelimit.rateLimiter := limiter1;
                ratelimit.cm_defaultConfig :=
                  {| config.Capacity := 10; config.RefillRate := 5 |} |}
             1 NewResponseWriter (get_client "c")).2
    = JSONStatus id c rt 0 pct.
Proof.
  apply (X28_read_only_endpoints (fun _ => None)
           {| ratelimit.rateLimiter := limiter1;
              ratelimit.cm_defaultConfig :=
                {| config.Capacity := 10; config.RefillRate := 5 |} |}
           1 NewResponseWriter (get_client "c")).
  vm_compute. reflexivity.
Defined.

(** ** The balancers *)

Lemma index_Ok_elem {A : Type} (s : list A) (i : Z) (a : A) :
  balancer.index s i = Ok a -> a ∈ s.
Proof.
  unfold balancer.index. destruct (i <? 0); [discriminate|].
  destruct (s !! Z.to_nat i) as [x|] eqn:Hx; [|discriminate].
  intros [= <-]. apply list_elem_of_lookup. eauto.
Qed.

Lemma index_not_Err {A : Type} (s : list A) (i : Z) (e : error) :
  balancer.index s i <> Err e.
Proof.
  unfold balancer.index. destruct (i <? 0); [discriminate|].
  destruct (s !! Z.to_nat i); discriminate.
Qed.

Lemma NextBackend_base (bal : balancer.Balancer) (now : Z) :
  balancer.base (balancer.NextBackend bal now).1 = balancer.base bal.
Proof.
  destruct bal as [rb|lb|rb]; simpl; try reflexivity.
  unfold balancer.rr_NextBackend. destruct (_ =? _)%nat; reflexivity.
Qed.

(** The backend a selection hands out is one of the healthy set. *)
Lemma NextBackend_Ok_healthy (bal : balancer.Balancer) (now : Z) (p : nat) :
  (balancer.NextBackend bal now).2 = Ok p ->
  p ∈ balancer.GetHealthyBackends (balancer.base bal).
Proof.
  destruct bal as [rb|lb|rb]; simpl.
  - unfold balancer.rr_NextBackend. destruct (_ =? _)%nat; simpl; [discriminate|].
    apply index_Ok_elem.
  - unfold balancer.lc_NextBackend.
    destruct (balancer.GetHealthyBackends (balancer.lc_base lb)) as [|h0 rest];
      [discriminate|].
    destruct (balancer.lc_scan _ _ _ _ _) as [mi mc]. apply index_Ok_elem.
  - unfold balancer.rnd_NextBackend. destruct (_ =? _)%nat; [discriminate|].
    apply index_Ok_elem.
Qed.

(** X12.  Whatever the algorithm, the clock and the cursor, a backend
    returned by [NextBackend] is registered and available at that moment. *)
Theorem X12_selection_returns_available (bal : balancer.Balancer) (now : Z) (p : nat) :
  (balancer.NextBackend bal now).2 = Ok p ->
  exists b, balancer.deref (balancer.base (balancer.NextBackend bal now).1) p = Some b /\
            balancer.IsAvailable b = true.
Proof.
  intros Hok. rewrite NextBackend_base.
  apply GetHealthyBackends_spec. apply NextBackend_Ok_healthy with now. exact Hok.
Qed.

Lemma X12_selection_returns_available_witness :
  exists b,
    balancer.deref
      (balancer.base (balancer.NextBackend (balancer.LeastConnections lc0) 0).1) 1%nat
    = Some b /\ balancer.IsAvailable b = true.
Proof.
  apply (X12_selection_returns_available (balancer.LeastConnections lc0) 0 1%nat).
  vm_compute. reflexivity.
Defined.

(** X13.  Whatever the algorithm, [NextBackend] fails with ErrNoBackends
    exactly when no registered backend is available, it fails with no other
    error, and a failed call leaves the balancer, the round-robin cursor
    included, as it was. *)
Theorem X13_no_backend_error (bal : balancer.Balancer) (now : Z) :
  ((balancer.NextBackend bal now).2 = Err ErrNoBackends
   <-> balancer.GetHealthyBackends (balancer.base bal) = []) /\
  (forall e, (balancer.NextBackend bal now).2 = Err e ->
     e = ErrNoBackends /\ (balancer.NextBackend bal now).1 = bal).
Proof.
  destruct bal as [rb|lb|rb]; simpl.
  - unfold balancer.rr_NextBackend.
    destruct (balancer.GetHealthyBackends (balancer.rr_base rb)) as [|h rest]; simpl.
    + split; [split; reflexivity|]. intros e [= <-]. split; reflexivity.
    + split; [split; [intros Hx; apply index_not_Err in Hx; contradiction|discriminate]|].
      intros e Hx. apply index_not_Err in Hx. contradiction.
  - unfold balancer.lc_NextBackend.
    destruct (balancer.GetHealthyBackends (balancer.lc_base lb)) as [|h rest]; simpl.
    + split; [split; reflexivity|]. intros e [= <-]. split; reflexivity.
    + destruct (balancer.lc_scan _ _ _ _ _) as [mi mc].
      split; [split; [intros Hx; apply index_not_Err in Hx; contradiction|discriminate]|].
      intros e Hx. apply index_not_Err in Hx. contradiction.
  - unfold balancer.rnd_NextBackend.
    destruct (balancer.GetHealthyBackends (balancer.rnd_base rb)) as [|h rest]; simpl.
    + split; [split; reflexivity|]. intros e [= <-]. split; reflexivity.
    + split; [split; [intros Hx; apply index_not_Err in Hx; contradiction|discriminate]|].
      intros e Hx. apply index_not_Err in Hx. contradiction.
Qed.

(** ** The registry *)

Lemma same_URL_true (y x : balancer.Backend) :
  balancer.same_URL y x = true <-> url_of y = url_of x.
Proof. unfold balancer.same_URL, url_of. apply bool_decide_eq_true. Qed.

Lemma find_by_URL_None (bs : list balancer.Backend) (x : balancer.Backend) :
  balancer.find_by_URL bs x = None <-> url_of x ∉ url_of <$> bs.
Proof.
  induction bs as [|y bs IH]; simpl.
  - split; [intros _ Hin; inversion Hin|reflexivity].
  - rewrite not_elem_of_cons.
    destruct (balancer.same_URL y x) eqn:Hs.
    + apply same_URL_true in Hs. split; [discriminate|]. intros [Hne _]. congruence.
    + assert (url_of y <> url_of x)
        by (intros He; apply same_URL_true in He; congruence).
      destruct (balancer.find_by_URL bs x) as [i|]; simpl.
      * split; [discriminate|]. intros [_ Hn]. apply IH in Hn. discriminate Hn.
      * split; [|reflexivity]. intros _. split; [congruence|]. apply IH. reflexivity.
Qed.

Lemma find_by_URL_Some (bs : list balancer.Backend) (x : balancer.Backend) (i : nat) :
  balancer.find_by_URL bs x = Some i ->
  exists y, bs !! i = Some y /\ url_of y = url_of x.
Proof.
  revert i. induction bs as [|y bs IH]; intros i; simpl; [discriminate|].
  destruct (balancer.same_URL y x) eqn:Hs.
  - intros [= <-]. exists y. split; [reflexivity|]. apply same_URL_true. exact Hs.
  - destruct (balancer.find_by_URL bs x) as [j|]; simpl; [|discriminate].
    intros [= <-]. apply IH. reflexivity.
Qed.

(** X14.  [RegisterBackend] keeps the URLs of the registry distinct.  A
    backend whose URL is already registered changes nothing; any other is
    appended at the end, so the order of registration is kept. *)
Theorem X14_register_keeps_urls_distinct (b : balancer.BaseBalancer)
    (x : balancer.Backend) :
  NoDup (urls b) ->
  NoDup (urls (balancer.RegisterBackend b x)) /\
  url_of x ∈ urls (balancer.RegisterBackend b x) /\
  (url_of x ∈ urls b -> balancer.RegisterBackend b x = b) /\
  (url_of x ∉ urls b ->
   balancer.backends (balancer.RegisterBackend b x) = balancer.backends b ++ [x]).
Proof.
  intros Hnd. unfold balancer.RegisterBackend, urls in *.
  destruct (balancer.find_by_URL (balancer.backends b) x) as [i|] eqn:Hf.
  - assert (Hin : url_of x ∈ url_of <$> balancer.backends b).
    { apply find_by_URL_Some in Hf as [y [Hy He]]. rewrite <- He.
      apply list_elem_of_fmap. exists y. split; [reflexivity|].
      apply list_elem_of_lookup. eauto. }
    repeat apply conj; [exact Hnd|exact Hin|reflexivity|contradiction].
  - apply find_by_URL_None in Hf. simpl. rewrite fmap_app. simpl.
    repeat apply conj.
    + apply NoDup_app. repeat apply conj; [exact Hnd| |apply NoDup_singleton].
      intros u Hu Hx. apply list_elem_of_singleton in Hx. subst u. contradiction.
    + apply elem_of_app. right. apply list_elem_of_singleton. reflexivity.
    + intros Hin. contradiction.
    + reflexivity.
Qed.

Lemma X14_register_keeps_urls_distinct_witness :
  NoDup (urls (balancer.RegisterBackend (balancer.NewBaseBalancer [backendA])
                 (backend_at "b" 0))) /\
  url_of (backend_at "b" 0)
    ∈ urls (balancer.RegisterBackend (balancer.NewBaseBalancer [backendA])
              (backend_at "b" 0)) /\
  (url_of (backend_at "b" 0) ∈ urls (balancer.NewBaseBalancer [backendA]) ->
   balancer.RegisterBackend (balancer.NewBaseBalancer [backendA]) (backend_at "b" 0)
   = balancer.NewBaseBalancer [backendA]) /\
  (url_of (backend_at "b" 0) ∉ urls (balancer.NewBaseBalancer [backendA]) ->
   balancer.backends
     (balancer.RegisterBackend (balancer.NewBaseBalancer [backendA]) (backend_at "b" 0))
   = balancer.backends (balancer.NewBaseBalancer [backendA]) ++ [backend_at "b" 0]).
Proof.
  apply (X14_register_keeps_urls_distinct (balancer.NewBaseBalancer [backendA])
           (backend_at "b" 0)).
  apply NoDup_singleton.
Defined.

Lemma filter_all {A : Type} (P : A -> Prop) `{forall a, Decision (P a)} (l : list A) :
  (forall a, a ∈ l -> P a) -> filter P l = l.
Proof.
  induction l as [|a l IH]; intros Hall; [reflexivity|].
  rewrite filter_cons. destruct (decide (P a)) as [_|Hn].
  - f_equal. apply IH. intros a' Ha'. apply Hall. right. exact Ha'.
  - exfalso. apply Hn. apply Hall. left.
Qed.

Lemma remove_is_filter (bs : list balancer.Backend) (x : balancer.Backend) :
  NoDup (url_of <$> bs) ->
  match balancer.find_by_URL bs x with
  | Some i => take i bs ++ drop (S i) bs
  | None => bs
  end
  = filter (fun y => url_of y <> url_of x) bs.
Proof.
  induction bs as [|y bs IH]; intros Hnd; [reflexivity|].
  rewrite fmap_cons in Hnd. apply NoDup_cons in Hnd as [Hy Hnd].
  specialize (IH Hnd). simpl. rewrite filter_cons.
  destruct (balancer.same_URL y x) eqn:Hs.
  - apply same_URL_true in Hs. simpl. rewrite drop_0.
    destruct (decide (url_of y <> url_of x)) as [Hne|_]; [contradiction|].
    symmetry. apply filter_all. intros z Hz He. apply Hy. rewrite Hs, <- He.
    apply list_elem_of_fmap. exists z. split; [reflexivity|exact Hz].
  - assert (Hne : url_of y <> url_of x)
      by (intros He; apply same_URL_true in He; congruence).
    destruct (decide (url_of y <> url_of x)) as [_|Hn]; [|contradiction].
    destruct (balancer.find_by_URL bs x) as [i|]; simpl; f_equal; exact IH.
Qed.

(** X15.  [RemoveBackend] on a registry with distinct URLs leaves exactly the
    backends with another URL, in their order; removing a backend whose URL
    is not registered changes nothing, and removing a backend right after
    registering it (its URL being new) gives the registry back. *)
Theorem X15_remove_backend (b : balancer.BaseBalancer) (x : balancer.Backend) :
  NoDup (urls b) ->
  balancer.backends (balancer.RemoveBackend b x)
  = filter (fun y => url_of y <> url_of x) (balancer.backends b) /\
  (url_of x ∉ urls b ->
   balancer.RemoveBackend b x = b /\
   balancer.RemoveBackend (balancer.RegisterBackend b x) x = b).
Proof.
  intros Hnd. split.
  - rewrite <- (remove_is_filter _ x Hnd). unfold balancer.RemoveBackend.
    destruct (balancer.find_by_URL (balancer.backends b) x); reflexivity.
  - intros Hx. unfold urls in Hx.
    assert (Hnone := proj2 (find_by_URL_None (balancer.backends b) x) Hx).
    split.
    + unfold balancer.RemoveBackend. rewrite Hnone. reflexivity.
    + unfold balancer.RegisterBackend. rewrite Hnone.
      assert (Hnd' : NoDup (url_of <$> (balancer.backends b ++ [x]))).
      { rewrite fmap_app. apply NoDup_app. repeat apply conj;
          [exact Hnd| |apply NoDup_singleton].
        intros u Hu Hux. apply list_elem_of_singleton in Hux. subst u. contradiction. }
      pose proof (remove_is_filter (balancer.backends b ++ [x]) x Hnd') as Hrm.
      unfold balancer.RemoveBackend. cbn [balancer.backends].
      destruct b as [bs]. cbn [balancer.backends] in *.
      destruct (balancer.find_by_URL (bs ++ [x]) x) as [i|] eqn:Hf.
      * f_equal. rewrite Hrm, filter_app, filter_cons, filter_nil.
        destruct (decide (url_of x <> url_of x)) as [Hn|_]; [contradiction|].
        rewrite app_nil_r. apply filter_all. intros z Hz He. apply Hx.
        rewrite <- He. apply list_elem_of_fmap. exists z. split; [reflexivity|exact Hz].
      * exfalso. apply find_by_URL_None in Hf. apply Hf.
        rewrite fmap_app. apply elem_of_app. right. left.
Qed.

Lemma X15_remove_backend_witness :
  balancer.backends
    (balancer.RemoveBackend (balancer.NewBaseBalancer [backendA]) (backend_at "b" 0))
  = filter (fun y => url_of y <> url_of (backend_at "b" 0))
      (balancer.backends (balancer.NewBaseBalancer [backendA])) /\
  (url_of (backend_at "b" 0) ∉ urls (balancer.NewBaseBalancer [backendA]) ->
   balancer.RemoveBackend (balancer.NewBaseBalancer [backendA]) (backend_at "b" 0)
   = balancer.NewBaseBalancer [backendA] /\
   balancer.RemoveBackend
     (balancer.RegisterBackend (balancer.NewBaseBalancer [backendA]) (backend_at "b" 0))
     (backend_at "b" 0)
   = balancer.NewBaseBalancer [backendA]).
Proof.
  apply (X15_remove_backend (balancer.NewBaseBalancer [backendA]) (backend_at "b" 0)).
  apply NoDup_singleton.
Defined.

Lemma deref_update (b : balancer.BaseBalancer) (i q : nat)
    (f : balancer.Backend -> balancer.Backend) :
  balancer.deref (balancer.update b i f) q
  = if decide (q = i) then f <$> balancer.deref b q else balancer.deref b q.
Proof.
  unfold balancer.deref, balancer.update. simpl.
  destruct (decide (q = i)) as [->|Hne].
  - apply list_lookup_alter_eq.
  - apply list_lookup_alter_ne. congruence.
Qed.

(** X16.  Marking through the balancer.  When the URL of the backend is
    registered, at position i say, [MarkBackendDown] takes exactly that
    backend out of the healthy set and [MarkBackendUp] puts exactly that one
    in, with its failure count back at 0; when the URL is not registered both
    change nothing. *)
Theorem X16_mark_changes_one_backend (b : balancer.BaseBalancer)
    (x : balancer.Backend) (now : Z) :
  match balancer.find_by_URL (balancer.backends b) x with
  | Some i =>
      (forall q, q ∈ balancer.GetHealthyBackends (balancer.MarkBackendDown b x now)
                 <-> q <> i /\ q ∈ balancer.GetHealthyBackends b) /\
      (forall q, q ∈ balancer.GetHealthyBackends (balancer.MarkBackendUp b x now)
                 <-> q = i \/ q ∈ balancer.GetHealthyBackends b) /\
      liveness (balancer.MarkBackendUp b x now) i = Some (true, 0)
  | None =>
      balancer.MarkBackendDown b x now = b /\ balancer.MarkBackendUp b x now = b
  end.
Proof.
  unfold balancer.MarkBackendDown, balancer.MarkBackendUp.
  destruct (balancer.find_by_URL (balancer.backends b) x) as [i|] eqn:Hf;
    [|split; reflexivity].
  apply find_by_URL_Some in Hf as [y [Hy _]].
  repeat apply conj.
  - intros q. rewrite !GetHealthyBackends_spec, deref_update.
    destruct (decide (q = i)) as [->|Hne].
    + split; [|intros [Hn _]; contradiction].
      intros [bk [Hbk Ha]]. unfold balancer.deref in Hbk. rewrite Hy in Hbk.
      simpl in Hbk. injection Hbk as <-. discriminate Ha.
    + split; [intros Hx; split; [exact Hne|exact Hx]|intros [_ Hx]; exact Hx].
  - intros q. rewrite !GetHealthyBackends_spec, deref_update.
    destruct (decide (q = i)) as [->|Hne].
    + split; [intros _; left; reflexivity|]. intros _.
      unfold balancer.deref. rewrite Hy. simpl. eexists. split; reflexivity.
    + split; [intros Hx; right; exact Hx|intros [Hq|Hx]; [contradiction|exact Hx]].
  - unfold liveness. rewrite deref_update.
    destruct (decide (i = i)) as [_|Hn]; [|contradiction].
    unfold balancer.deref. rewrite Hy. reflexivity.
Qed.

(** ** Backend counters *)

Lemma RecordRequest_fields (ok : bool) (b : balancer.Backend) :
  balancer.TotalRequests (balancer.RecordRequest ok b)
  = wrap64 (balancer.TotalRequests b + 1) /\
  balancer.FailedReqs (balancer.RecordRequest ok b)
  = (if ok then balancer.FailedReqs b else wrap64 (balancer.FailedReqs b + 1)) /\
  balancer.BURL (balancer.RecordRequest ok b) = balancer.BURL b /\
  balancer.IsAlive (balancer.RecordRequest ok b) = balancer.IsAlive b /\
  balancer.ActiveConns (balancer.RecordRequest ok b) = balancer.ActiveConns b /\
  balancer.FailureCount (balancer.RecordRequest ok b) = balancer.FailureCount b.
Proof. destruct ok; repeat apply conj; reflexivity. Qed.

(** X17.  Request accounting on a backend.  After any sequence of completed
    requests that keeps the total within int64, the total has grown by the
    number of requests and the failures by the number of failed ones, so the
    failures never exceed the total; liveness, active connections and the
    health failure count are not touched. *)
Theorem X17_request_counters (outcomes : list bool) (b : balancer.Backend) :
  0 <= balancer.FailedReqs b <= balancer.TotalRequests b ->
  balancer.TotalRequests b + Z.of_nat (length outcomes) < 2 ^ 63 ->
  balancer.TotalRequests (record_all outcomes b)
  = balancer.TotalRequests b + Z.of_nat (length outcomes) /\
  balancer.FailedReqs (record_all outcomes b)
  = balancer.FailedReqs b + Z.of_nat (length (filter (fun ok => ok = false) outcomes)) /\
  balancer.FailedReqs (record_all outcomes b)
  <= balancer.TotalRequests (record_all outcomes b) /\
  balancer.IsAlive (record_all outcomes b) = balancer.IsAlive b /\
  balancer.ActiveConns (record_all outcomes b) = balancer.ActiveConns b /\
  balancer.FailureCount (record_all outcomes b) = balancer.FailureCount b.
Proof.
  change (2 ^ 63) with 9223372036854775808.
  revert b. induction outcomes as [|ok outcomes IH]; intros b Hb Hlt.
  - simpl. repeat apply conj; try reflexivity; lia.
  - change (record_all (ok :: outcomes) b)
      with (record_all outcomes (balancer.RecordRequest ok b)).
    cbn [length] in *. rewrite Nat2Z.inj_succ in *.
    destruct (RecordRequest_fields ok b) as (Ht & Hf & _ & Ha & Hc & Hfc).
    rewrite wrap64_small in Ht by lia.
    assert (Hf' : balancer.FailedReqs (balancer.RecordRequest ok b)
                  = balancer.FailedReqs b + (if ok then 0 else 1)).
    { rewrite Hf. destruct ok; [lia|]. rewrite wrap64_small by lia. reflexivity. }
    destruct (IH (balancer.RecordRequest ok b)) as (I1 & I2 & I3 & I4 & I5 & I6).
    { rewrite Hf', Ht. destruct ok; lia. }
    { rewrite Ht. lia. }
    assert (Hcount : Z.of_nat (length (filter (fun ok0 => ok0 = false) (ok :: outcomes)))
                     = (if ok then 0 else 1)
                       + Z.of_nat (length (filter (fun ok0 => ok0 = false) outcomes))).
    { rewrite filter_cons. destruct ok; destruct (decide _) as [He|Hne];
        try discriminate He; try (exfalso; apply Hne; reflexivity);
        cbn [length]; lia. }
    repeat apply conj.
    + rewrite I1, Ht. lia.
    + rewrite I2, Hf', Hcount. lia.
    + exact I3.
    + congruence.
    + congruence.
    + congruence.
Qed.

Lemma X17_request_counters_witness :
  balancer.TotalRequests (record_all [true; false; true] backendA)
  = balancer.TotalRequests backendA + Z.of_nat (length [true; false; true]) /\
  balancer.FailedReqs (record_all [true; false; true] backendA)
  = balancer.FailedReqs backendA
    + Z.of_nat (length (filter (fun ok => ok = false) [true; false; true])) /\
  balancer.FailedReqs (record_all [true; false; true] backendA)
  <= balancer.TotalRequests (record_all [true; false; true] backendA) /\
  balancer.IsAlive (record_all [true; false; true] backendA) = balancer.IsAlive backendA /\
  balancer.ActiveConns (record_all [true; false; true] backendA)
  = balancer.ActiveConns backendA /\
  balancer.FailureCount (record_all [true; false; true] backendA)
  = balancer.FailureCount backendA.
Proof.
  apply (X17_request_counters [true; false; true] backendA); vm_compute;
    [split; congruence|reflexivity].
Defined.

(** ** The proxy *)

Lemma wrap32_inc_dec (x : Z) :
  -2147483648 <= x < 2147483648 -> wrap32 (wrap32 (x + 1) + -1) = x.
Proof.
  intros Hx. destruct (Z.eq_dec x 2147483647) as [->|Hne]; [reflexivity|].
  rewrite (wrap32_small (x + 1)) by lia. rewrite wrap32_small by lia. lia.
Qed.

Lemma base_with_base (bal : balancer.Balancer) (b : balancer.BaseBalancer) :
  balancer.base (balancer.with_base bal b) = b.
Proof. destruct bal; reflexivity. Qed.

(** A projection of the backends that a function applied at one position
    respects is the same before and after. *)
Lemma fmap_alter_same {A B : Type} (proj : A -> B) (h : A -> A) (i : nat) (l : list A) :
  (forall a, l !! i = Some a -> proj (h a) = proj a) ->
  proj <$> alter h i l = proj <$> l.
Proof.
  intros Hh. apply list_eq. intros j. rewrite !list_lookup_fmap.
  destruct (decide (j = i)) as [->|Hne].
  - rewrite list_lookup_alter_eq. destruct (l !! i) as [a|] eqn:Ha; [|reflexivity].
    simpl. f_equal. apply Hh. reflexivity.
  - rewrite list_lookup_alter_ne by congruence. reflexivity.
Qed.

Section ProxyMore.
Context {S : Type} `{Storage S}.
Variable SplitHostPort : string -> option (string * string).

(** The gate works on the limiter only and, when it lets a request through,
    has written nothing. *)
Lemma gate_keeps_balancer (p : proxy.Proxy S) (now : Z) (w : ResponseWriter)
    (r : Request) :
  proxy.p_balancer (proxy.gate SplitHostPort p now w r).1 = proxy.p_balancer p /\
  proxy.errorHandler (proxy.gate SplitHostPort p now w r).1 = proxy.errorHandler p /\
  (forall w1, (proxy.gate SplitHostPort p now w r).2 = inr w1 -> w1 = w).
Proof.
  unfold proxy.gate. destruct (proxy.rateLimiter p) as [limiter|].
  - destruct (ratelimit.Allow limiter now _ 1) as [lim' [[allowed remaining] [e|]]].
    + repeat apply conj; try reflexivity. intros w1 [=].
    + destruct allowed; simpl; repeat apply conj; try reflexivity;
        intros w1 [=]; congruence.
  - repeat apply conj; try reflexivity. intros w1 [= <-]. reflexivity.
Qed.

(** The registry after [ServeHTTP]: untouched, or one backend taken through
    increment, accounting and the deferred decrement. *)
Lemma ServeHTTP_registry (p : proxy.Proxy S) (now : Z) (upstream : nat -> option Z)
    (w : ResponseWriter) (r : Request) :
  let after := balancer.backends (balancer.base (proxy.p_balancer
                 (proxy.ServeHTTP SplitHostPort p now upstream w r).1)) in
  let before := balancer.backends (balancer.base (proxy.p_balancer p)) in
  after = before \/
  exists (backend : nat) (account : balancer.Backend -> balancer.Backend),
    after = alter (fun b => balancer.DecrementActiveConns
                              (account (balancer.IncrementActiveConns b)))
              backend before /\
    (account = balancer.RecordRequest true \/
     account = balancer.RecordRequest false \/
     account = (fun b => balancer.IncrementFailureCount (balancer.RecordRequest false b))).
Proof.
  cbv zeta. unfold proxy.ServeHTTP.
  destruct (gate_keeps_balancer p now w r) as (Hbal & _ & _).
  destruct (proxy.gate SplitHostPort p now w r) as [p1 [done|w1]]; simpl in Hbal.
  { left. simpl. rewrite Hbal. reflexivity. }
  pose proof (NextBackend_base (proxy.p_balancer p1) now) as Hbase.
  destruct (balancer.NextBackend (proxy.p_balancer p1) now) as [bal res].
  simpl in Hbase. rewrite Hbal in Hbase.
  destruct res as [backend|e|]; simpl; try (left; rewrite Hbase; reflexivity).
  right. exists backend.
  destruct (upstream backend) as [statusCode|]; simpl.
  - exists (balancer.RecordRequest (negb (500 <=? statusCode))).
    split; [|destruct (500 <=? statusCode); auto].
    unfold proxy.on_backend. simpl. rewrite !base_with_base. simpl.
    rewrite Hbase. rewrite !list_alter_alter_eq. reflexivity.
  - exists (fun b => balancer.IncrementFailureCount (balancer.RecordRequest false b)).
    split; [|auto].
    unfold proxy.on_backend. simpl. rewrite !base_with_base. simpl.
    rewrite Hbase. rewrite !list_alter_alter_eq. reflexivity.
Qed.

(** X18.  Serving a request releases the connection it took and does not
    touch liveness: with the counters of active connections within int32,
    after [ServeHTTP], whatever its outcome, every backend has the count of
    active connections, the liveness and the URL it had before. *)
Theorem X18_proxy_releases_connections (p : proxy.Proxy S) (now : Z)
    (upstream : nat -> option Z) (w : ResponseWriter) (r : Request) :
  Forall (fun b => -2147483648 <= balancer.ActiveConns b < 2147483648)
    (balancer.backends (balancer.base (proxy.p_balancer p))) ->
  balancer.ActiveConns <$> balancer.backends (balancer.base (proxy.p_balancer
      (proxy.ServeHTTP SplitHostPort p now upstream w r).1))
  = balancer.ActiveConns <$> balancer.backends (balancer.base (proxy.p_balancer p)) /\
  balancer.IsAlive <$> balancer.backends (balancer.base (proxy.p_balancer
      (proxy.ServeHTTP SplitHostPort p now upstream w r).1))
  = balancer.IsAlive <$> balancer.backends (balancer.base (proxy.p_balancer p)) /\
  url_of <$> balancer.backends (balancer.base (proxy.p_balancer
      (proxy.ServeHTTP SplitHostPort p now upstream w r).1))
  = url_of <$> balancer.backends (balancer.base (proxy.p_balancer p)).
Proof.
  intros Hrange.
  destruct (ServeHTTP_registry p now upstream w r) as [->|(backend & account & -> & Hacc)];
    [repeat apply conj; reflexivity|].
  rewrite Forall_lookup in Hrange.
  repeat apply conj; apply fmap_alter_same; intros b Hb.
  - specialize (Hrange backend b Hb). simpl in Hrange.
    destruct Hacc as [-> | [-> | ->]]; simpl; apply wrap32_inc_dec; exact Hrange.
  - destruct Hacc as [-> | [-> | ->]]; reflexivity.
  - destruct Hacc as [-> | [-> | ->]]; reflexivity.
Qed.

(** X19.  With the error handler that [NewProxy] installs, what [ServeHTTP]
    writes and hands to the logger is decided by the limiter, the selection
    and the upstream, in this order:
    - the limiter returns an error, a denial included: the handler's
      plain-text 503 "Service Unavailable", logged as 500 without a backend;
    - there is no limiter or it allows, and no backend is available: the
      same 503, logged as 503;
    - the selection panics: nothing is written;
    - an available backend is selected and cannot be reached: the same 503,
      logged as 502 with the backend and the error;
    - it answers: its status and body, logged with that status and backend.
    So no status other than 503 and the upstream's own is ever written. *)
Theorem X19_proxy_responses (p : proxy.Proxy S) (now : Z)
    (upstream : nat -> option Z) (w : ResponseWriter) (r : Request) :
  proxy.errorHandler p = proxy.defaultErrorHandler ->
  let res := (proxy.ServeHTTP SplitHostPort p now upstream w r).2 in
  let unavailable := http_Error w "Service Unavailable" StatusServiceUnavailable in
  let verdict :=
    (fun limiter =>
       (ratelimit.Allow limiter now (proxy.getClientIP SplitHostPort r) 1).2.2)
      <$> proxy.rateLimiter p in
  match verdict with
  | Some (Some _) =>
      res = (unavailable,
             {| proxy.log_backend := None;
                proxy.log_status := StatusInternalServerError;
                proxy.log_err := None |})
  | _ =>
      match (balancer.NextBackend (proxy.p_balancer p) now).2 with
      | Err _ =>
          res = (unavailable,
                 {| proxy.log_backend := None;
                    proxy.log_status := StatusServiceUnavailable;
                    proxy.log_err := None |})
      | Panic =>
          res = (w, {| proxy.log_backend := None; proxy.log_status := StatusOK;
                       proxy.log_err := None |})
      | Ok backend =>
          backend ∈ balancer.GetHealthyBackends (balancer.base (proxy.p_balancer p)) /\
          match upstream backend with
          | None =>
              res = (unavailable,
                     {| proxy.log_backend := Some backend;
                        proxy.log_status := StatusBadGateway;
                        proxy.log_err := Some (ErrStore "upstream") |})
          | Some statusCode =>
              res = (WriteBody (WriteHeader w statusCode) Streamed,
                     {| proxy.log_backend := Some backend;
                        proxy.log_status := statusCode;
                        proxy.log_err := None |})
          end
      end
  end.
Proof.
  intros Hh. cbv zeta.
  pose proof (NextBackend_Ok_healthy (proxy.p_balancer p) now) as Hok.
  unfold proxy.ServeHTTP, proxy.gate.
  destruct (proxy.rateLimiter p) as [limiter|]; cbn [fmap option_fmap option_map].
  - destruct (ratelimit.Allow limiter now _ 1) as [lim' [[allowed remaining] [e|]]] eqn:HA;
      cbn [snd].
    + rewrite Hh. reflexivity.
    + apply Allow_no_error_allowed in HA. subst allowed. cbn [negb proxy.p_balancer].
      destruct (balancer.NextBackend (proxy.p_balancer p) now) as [bal [backend|e|]];
        cbn [snd] in *; cbn [proxy.errorHandler]; rewrite ?Hh; try reflexivity.
      split; [apply Hok; reflexivity|].
      destruct (upstream backend) as [statusCode|]; cbn; rewrite ?Hh; reflexivity.
  - destruct (balancer.NextBackend (proxy.p_balancer p) now) as [bal [backend|e|]];
      cbn [snd] in *; cbn [proxy.errorHandler]; rewrite ?Hh; try reflexivity.
    split; [apply Hok; reflexivity|].
    destruct (upstream backend) as [statusCode|]; cbn; rewrite ?Hh; reflexivity.
Qed.

End ProxyMore.

Lemma X18_proxy_releases_connections_witness :
  balancer.ActiveConns <$> balancer.backends (balancer.base (proxy.p_balancer
      (proxy.ServeHTTP (fun _ => None) proxy0 0 (fun _ => Some 200) NewResponseWriter
         (request_from "10.0.0.9")).1))
  = balancer.ActiveConns <$> balancer.backends (balancer.base (proxy.p_balancer proxy0)) /\
  balancer.IsAlive <$> balancer.backends (balancer.base (proxy.p_balancer
      (proxy.ServeHTTP (fun _ => None) proxy0 0 (fun _ => Some 200) NewResponseWriter
         (request_from "10.0.0.9")).1))
  = balancer.IsAlive <$> balancer.backends (balancer.base (proxy.p_balancer proxy0)) /\
  url_of <$> balancer.backends (balancer.base (proxy.p_balancer
      (proxy.ServeHTTP (fun _ => None) proxy0 0 (fun _ => Some 200) NewResponseWriter
         (request_from "10.0.0.9")).1))
  = url_of <$> balancer.backends (balancer.base (proxy.p_balancer proxy0)).
Proof.
  apply (X18_proxy_releases_connections (fun _ => None) proxy0 0 (fun _ => Some 200)
           NewResponseWriter (request_from "10.0.0.9")).
  repeat constructor; vm_compute; congruence.
Defined.

(** The second request of a client that has just spent its only token is
    answered 503 by the gate, and logged as 500. *)
Lemma X19_proxy_responses_witness :
  let spent := (proxy.ServeHTTP (fun _ => None) proxy0 0 (fun _ => Some 200)
                  NewResponseWriter (request_from "10.0.0.9")).1 in
  (proxy.ServeHTTP (fun _ => None) spent 1000 (fun _ => Some 200)
     NewResponseWriter (request_from "10.0.0.9")).2
  = (http_Error NewResponseWriter "Service Unavailable" StatusServiceUnavailable,
     {| proxy.log_backend := None;
        proxy.log_status := StatusInternalServerError;
        proxy.log_err := None |}).
Proof.
  cbv zeta.
  exact (X19_proxy_responses (fun _ => None)
           (proxy.ServeHTTP (fun _ => None) proxy0 0 (fun _ => Some 200)
              NewResponseWriter (request_from "10.0.0.9")).1
           1000 (fun _ => Some 200) NewResponseWriter (request_from "10.0.0.9")
           eq_refl).
Defined.

(** ** Client identification, continued *)

Lemma Split_nonempty (s : string) (sep : ascii) : Split s sep <> [].
Proof.
  destruct s as [|c r]; simpl; [discriminate|].
  destruct (Ascii.eqb c sep); [discriminate|].
  destruct (Split r sep); discriminate.
Qed.

Lemma Split_hd_no_sep (s : string) (sep : ascii) :
  ~ occurs sep (hd EmptyString (Split s sep)).
Proof.
  induction s as [|c r IH]; simpl; [tauto|].
  destruct (Ascii.eqb_spec c sep) as [->|Hne]; simpl; [tauto|].
  destruct (Split r sep) as [|x xs] eqn:Hs; simpl in *.
  - intros [He|[]]. congruence.
  - intros [He|Hx]; [congruence|contradiction].
Qed.

Lemma Split_no_sep (s : string) (sep : ascii) :
  ~ occurs sep s -> Split s sep = [s].
Proof.
  induction s as [|c r IH]; simpl; [reflexivity|].
  intros Hn. destruct (Ascii.eqb_spec c sep) as [->|Hne]; [tauto|].
  rewrite IH by tauto. reflexivity.
Qed.

(** *** White space, bytes and runes *)

Lemma isSpace_IsSpace (c : ascii) : byte c < 128 -> IsSpace (byte c) = isSpace c.
Proof.
  destruct c as [[] [] [] [] [] [] [] []]; vm_compute; congruence.
Qed.

Lemma isSpace_ascii (c : ascii) : isSpace c = true -> byte c < 128.
Proof.
  destruct c as [[] [] [] [] [] [] [] []]; vm_compute; congruence.
Qed.

Lemma DecodeRune_ascii (c : ascii) (r : string) :
  byte c < 128 -> DecodeRuneInString (String c r) = (byte c, 1%nat).
Proof.
  intros Hc. unfold DecodeRuneInString.
  destruct (Z.ltb_spec (byte c) 128); [reflexivity|lia].
Qed.

Lemma DecodeLastRuneInString_ascii (c : ascii) (before : list ascii) :
  byte c < 128 -> DecodeLastRuneInString (c :: before) = (byte c, 1%nat).
Proof.
  intros Hc. unfold DecodeLastRuneInString.
  destruct (Z.ltb_spec (byte c) 128); [reflexivity|lia].
Qed.

Lemma plain_spec (c : ascii) :
  plain c = true -> byte c < 128 /\ IsSpace (byte c) = false.
Proof.
  unfold plain. intros [Hb Hs]%andb_prop. apply Z.ltb_lt in Hb.
  split; [exact Hb|]. rewrite isSpace_IsSpace by exact Hb.
  destruct (isSpace c); [discriminate Hs|reflexivity].
Qed.

(** *** Strings and their bytes *)

Lemma occurs_elem (c : ascii) (s : string) :
  occurs c s <-> c ∈ list_ascii_of_string s.
Proof.
  induction s as [|d r IH]; simpl.
  - split; [tauto|]. intros H. inversion H.
  - rewrite elem_of_cons, IH. tauto.
Qed.

Lemma ends_with_space_snoc (l : list ascii) (c : ascii) :
  ends_with_space (string_of_list_ascii (l ++ [c])) = isSpace c.
Proof.
  induction l as [|d l IH]; [reflexivity|].
  change (ends_with_space (String d (string_of_list_ascii (l ++ [c]))) = isSpace c).
  destruct (string_of_list_ascii (l ++ [c])) as [|e r] eqn:Hs; [|exact IH].
  destruct l; discriminate Hs.
Qed.

Lemma ends_plain_snoc (s : string) :
  ends_plain s = true ->
  exists l c, list_ascii_of_string s = l ++ [c] /\ plain c = true.
Proof.
  induction s as [|d r IH]; [discriminate|].
  destruct r as [|e r'].
  - simpl. intros Hd. exists [], d. split; [reflexivity|exact Hd].
  - intros He. change (ends_plain (String e r') = true) in He.
    destruct (IH He) as (l & c & Hl & Hc).
    exists (d :: l), c. split; [|exact Hc].
    change (d :: list_ascii_of_string (String e r') = d :: l ++ [c]). rewrite Hl. reflexivity.
Qed.

(** *** Trimming *)

Lemma TrimLeft_from_occurs (c : ascii) (s : string) :
  forall k, occurs c (TrimLeft_from k s) -> occurs c s.
Proof.
  induction s as [|d r IH]; intros k; [destruct k; simpl; tauto|].
  destruct k as [|k].
  - cbn [TrimLeft_from]. destruct (DecodeRuneInString (String d r)) as [rune size].
    destruct (IsSpace rune); [|tauto].
    intros Ho. right. exact (IH _ Ho).
  - cbn [TrimLeft_from]. intros Ho. right. exact (IH _ Ho).
Qed.

(** What [TrimLeft] returns does not begin with white space. *)
Lemma TrimLeft_from_rune (s : string) :
  forall k c r,
    TrimLeft_from k s = String c r ->
    IsSpace (DecodeRuneInString (String c r)).1 = false.
Proof.
  induction s as [|d r0 IH]; intros k c r; [destruct k; discriminate|].
  destruct k as [|k]; cbn [TrimLeft_from].
  - destruct (DecodeRuneInString (String d r0)) as [rune size] eqn:Hd.
    destruct (IsSpace rune) eqn:Hs; [apply IH|].
    intros [= <- <-]. rewrite Hd. exact Hs.
  - apply IH.
Qed.

Lemma TrimLeft_start (s : string) : starts_with_space (TrimLeft s) = false.
Proof.
  unfold TrimLeft. destruct (TrimLeft_from 0 s) as [|c r] eqn:Ht; [reflexivity|].
  apply TrimLeft_from_rune in Ht. simpl.
  destruct (isSpace c) eqn:Hc; [|reflexivity].
  pose proof (isSpace_ascii c Hc) as Hb.
  rewrite DecodeRune_ascii in Ht by exact Hb. simpl in Ht.
  rewrite isSpace_IsSpace in Ht by exact Hb. congruence.
Qed.

(** [TrimRight] works from the end: it leaves a suffix of the reversed
    bytes, which does not begin with white space. *)
Lemma TrimRight_from_suffix (rev : list ascii) :
  forall k, exists dropped, rev = dropped ++ TrimRight_from k rev.
Proof.
  induction rev as [|c before IH]; intros k; [exists []; destruct k; reflexivity|].
  destruct k as [|k]; cbn [TrimRight_from].
  - destruct (DecodeLastRuneInString (c :: before)) as [rune size].
    destruct (IsSpace rune); [|exists []; reflexivity].
    destruct (IH (size - 1)%nat) as [dropped Hd].
    exists (c :: dropped). simpl. rewrite <- Hd. reflexivity.
  - destruct (IH k) as [dropped Hd].
    exists (c :: dropped). simpl. rewrite <- Hd. reflexivity.
Qed.

Lemma TrimRight_from_rune (rev : list ascii) :
  forall k c before,
    TrimRight_from k rev = c :: before ->
    IsSpace (DecodeLastRuneInString (c :: before)).1 = false.
Proof.
  induction rev as [|d rest IH]; intros k c before; [destruct k; discriminate|].
  destruct k as [|k]; cbn [TrimRight_from].
  - destruct (DecodeLastRuneInString (d :: rest)) as [rune size] eqn:Hd.
    destruct (IsSpace rune) eqn:Hs; [apply IH|].
    intros [= <- <-]. rewrite Hd. exact Hs.
  - apply IH.
Qed.

(** [TrimRight s] is a prefix of [s]. *)
Lemma TrimRight_prefix (s : string) :
  exists dropped,
    list_ascii_of_string s = list_ascii_of_string (TrimRight s) ++ dropped.
Proof.
  unfold TrimRight. rewrite list_ascii_of_string_of_list_ascii.
  destruct (TrimRight_from_suffix (reverse (list_ascii_of_string s)) 0) as [dropped Hd].
  exists (reverse dropped). rewrite <- reverse_app, <- Hd.
  rewrite reverse_involutive. reflexivity.
Qed.

Lemma TrimRight_occurs (c : ascii) (s : string) : occurs c (TrimRight s) -> occurs c s.
Proof.
  rewrite !occurs_elem. destruct (TrimRight_prefix s) as [dropped ->].
  intros Hc. apply elem_of_app. left. exact Hc.
Qed.

Lemma TrimRight_start (s : string) :
  starts_with_space s = false -> starts_with_space (TrimRight s) = false.
Proof.
  destruct (TrimRight_prefix s) as [dropped Hd].
  destruct (TrimRight s) as [|c r]; [reflexivity|].
  destruct s as [|d r0]; [discriminate Hd|].
  simpl in Hd. injection Hd as -> _. simpl. tauto.
Qed.

Lemma TrimRight_end (s : string) : ends_with_space (TrimRight s) = false.
Proof.
  unfold TrimRight.
  destruct (TrimRight_from 0 (reverse (list_ascii_of_string s))) as [|c before] eqn:Ht;
    [reflexivity|].
  apply TrimRight_from_rune in Ht.
  rewrite reverse_cons, ends_with_space_snoc.
  destruct (isSpace c) eqn:Hc; [|reflexivity].
  pose proof (isSpace_ascii c Hc) as Hb.
  rewrite DecodeLastRuneInString_ascii in Ht by exact Hb. simpl in Ht.
  rewrite isSpace_IsSpace in Ht by exact Hb. congruence.
Qed.

(** A string that begins and ends with an ASCII character other than white
    space is left as it is. *)
Lemma TrimLeft_id (s : string) : starts_plain s = true -> TrimLeft s = s.
Proof.
  destruct s as [|c r]; [discriminate|]. simpl. intros [Hb Hs]%plain_spec.
  unfold TrimLeft. cbn [TrimLeft_from]. rewrite DecodeRune_ascii by exact Hb.
  rewrite Hs. reflexivity.
Qed.

Lemma TrimRight_id (s : string) : ends_plain s = true -> TrimRight s = s.
Proof.
  intros (l & c & Hl & [Hb Hs]%plain_spec)%ends_plain_snoc.
  unfold TrimRight. rewrite Hl, reverse_app.
  change (reverse [c] ++ reverse l) with (c :: reverse l). cbn [TrimRight_from].
  rewrite DecodeLastRuneInString_ascii by exact Hb. rewrite Hs.
  change (c :: reverse l) with (reverse [c] ++ reverse l).
  rewrite <- reverse_app, reverse_involutive, <- Hl.
  apply string_of_list_ascii_of_string.
Qed.

Section ClientIPMore.
Variable SplitHostPort : string -> option (string * string).

(** X20.  When the request carries a non-empty X-Forwarded-For, the client
    id the proxy limits contains no comma and neither begins nor ends with
    ASCII white space, whatever the header holds. *)
Theorem X20_forwarded_client_id_is_clean (r : Request) :
  Header_Get (Header r) "X-Forwarded-For" <> "" ->
  ~ occurs "," (proxy.getClientIP SplitHostPort r) /\
  starts_with_space (proxy.getClientIP SplitHostPort r) = false /\
  ends_with_space (proxy.getClientIP SplitHostPort r) = false.
Proof.
  intros Hne. unfold proxy.getClientIP.
  destruct (String.eqb_spec (Header_Get (Header r) "X-Forwarded-For") "");
    [contradiction|].
  cbn [negb]. unfold TrimSpace. repeat apply conj.
  - intros Ho. apply TrimRight_occurs in Ho. apply TrimLeft_from_occurs in Ho.
    exact (Split_hd_no_sep _ _ Ho).
  - apply TrimRight_start, TrimLeft_start.
  - apply TrimRight_end.
Qed.

(** X21.  The proxy and the status endpoint derive the same client id from
    a request whose X-Forwarded-For is absent or empty, and also when it is a
    single entry: no comma, and an ASCII character other than white space at
    either end, as in an IP address. *)
Theorem X21_client_ids_agree (r : Request) :
  Header_Get (Header r) "X-Forwarded-For" = "" \/
  (~ occurs "," (Header_Get (Header r) "X-Forwarded-For") /\
   starts_plain (Header_Get (Header r) "X-Forwarded-For") = true /\
   ends_plain (Header_Get (Header r) "X-Forwarded-For") = true) ->
  proxy.getClientIP SplitHostPort r = ratelimit.getClientIP SplitHostPort r.
Proof.
  unfold proxy.getClientIP, ratelimit.getClientIP.
  intros [He|(Hc & Hs & Hend)].
  - rewrite He. reflexivity.
  - destruct (String.eqb (Header_Get (Header r) "X-Forwarded-For") ""); [reflexivity|].
    cbn [negb]. rewrite Split_no_sep by exact Hc. cbn [hd].
    unfold TrimSpace. rewrite TrimLeft_id by exact Hs. apply TrimRight_id. exact Hend.
Qed.

(** With a list in X-Forwarded-For the two ids differ: the one has no comma,
    the other is the whole list. *)
Lemma client_ids_differ_on_a_list (r : Request) :
  occurs "," (Header_Get (Header r) "X-Forwarded-For") ->
  proxy.getClientIP SplitHostPort r <> ratelimit.getClientIP SplitHostPort r.
Proof.
  intros Ho Heq.
  assert (Hne : Header_Get (Header r) "X-Forwarded-For" <> "")
    by (intros He; rewrite He in Ho; exact Ho).
  assert (Hp : ~ occurs "," (proxy.getClientIP SplitHostPort r)).
  { unfold proxy.getClientIP.
    destruct (String.eqb_spec (Header_Get (Header r) "X-Forwarded-For") "");
      [contradiction|].
    cbn [negb]. unfold TrimSpace. intros Hi.
    apply TrimRight_occurs in Hi. apply TrimLeft_from_occurs in Hi.
    exact (Split_hd_no_sep _ _ Hi). }
  apply Hp. rewrite Heq. unfold ratelimit.getClientIP.
  destruct (String.eqb_spec (Header_Get (Header r) "X-Forwarded-For") "");
    [contradiction|exact Ho].
Qed.

End ClientIPMore.

Lemma X20_forwarded_client_id_is_clean_witness :
  ~ occurs "," (proxy.getClientIP (fun _ => None) forwarded_request) /\
  starts_with_space (proxy.getClientIP (fun _ => None) forwarded_request) = false /\
  ends_with_space (proxy.getClientIP (fun _ => None) forwarded_request) = false.
Proof.
  apply (X20_forwarded_client_id_is_clean (fun _ => None) forwarded_request).
  vm_compute. discriminate.
Defined.

Lemma X21_client_ids_agree_witness :
  proxy.getClientIP (fun _ => None) forwarded_once
  = ratelimit.getClientIP (fun _ => None) forwarded_once.
Proof.
  apply (X21_client_ids_agree (fun _ => None) forwarded_once).
  right. vm_compute. repeat apply conj; [|reflexivity|reflexivity].
  intros [H|[H|[H|[H|[H|[H|[H|[H|[]]]]]]]]]; discriminate H.
Defined.

(** White space need not be ASCII: the proxy trims a no-break space in front
    of the entry, and the status endpoint does not. *)
Example no_break_space_is_trimmed :
  proxy.getClientIP (fun _ => None) forwarded_nbsp = "10.0.0.1" /\
  ratelimit.getClientIP (fun _ => None) forwarded_nbsp
  = String (ascii_of_nat 194) (String (ascii_of_nat 160) "10.0.0.1").
Proof. split; vm_compute; reflexivity. Qed.

(** ** The health loop, continued *)

Lemma Check_frozen (hc : health.HTTPHealthChecker) (r : health.probe)
    (b : balancer.Backend) :
  frozen (health.Check hc r b).1 = frozen b.
Proof.
  assert (Hc : frozen (health.count_failure hc b).1 = frozen b).
  { unfold health.count_failure. destruct (balancer.IsAvailable b); [|reflexivity].
    destruct (_ <=? _); reflexivity. }
  destruct r as [| |code]; simpl; [reflexivity|exact Hc|].
  destruct ((200 <=? code) && (code <? 400)); [reflexivity|exact Hc].
Qed.

Lemma probe_one_frozen (check : nat -> balancer.Backend -> balancer.Backend * bool)
    (now : Z) (bal : balancer.BaseBalancer) (p : nat) :
  (forall q b, frozen (check q b).1 = frozen b) ->
  frozen <$> balancer.backends (healthloop.probe_one check now bal p)
  = frozen <$> balancer.backends bal.
Proof.
  intros Hcheck. unfold healthloop.probe_one.
  destruct (balancer.deref bal p) as [b|] eqn:Hb; [|reflexivity].
  specialize (Hcheck p b). destruct (check p b) as [b' ok]. simpl in Hcheck.
  assert (Hup : frozen <$> balancer.backends (balancer.update bal p (fun _ => b'))
                = frozen <$> balancer.backends bal).
  { unfold balancer.update. simpl. apply fmap_alter_same.
    intros a Ha. unfold balancer.deref in Hb. congruence. }
  destruct ok.
  - unfold balancer.MarkBackendUp.
    destruct (balancer.find_by_URL _ b') as [i|]; [|exact Hup].
    rewrite <- Hup. unfold balancer.update at 1. simpl.
    apply fmap_alter_same. reflexivity.
  - unfold balancer.MarkBackendDown.
    destruct (balancer.find_by_URL _ b') as [i|]; [|exact Hup].
    rewrite <- Hup. unfold balancer.update at 1. simpl.
    apply fmap_alter_same. reflexivity.
Qed.

Lemma tick_frozen (check : nat -> balancer.Backend -> balancer.Backend * bool)
    (now : Z) (bal : balancer.BaseBalancer) :
  (forall q b, frozen (check q b).1 = frozen b) ->
  frozen <$> balancer.backends (healthloop.tick check now bal)
  = frozen <$> balancer.backends bal.
Proof.
  intros Hcheck. unfold healthloop.tick.
  generalize (balancer.GetAllBackends bal) as ps.
  intros ps. revert bal. induction ps as [|p ps IH]; intros bal; [reflexivity|].
  simpl. rewrite IH. apply probe_one_frozen. exact Hcheck.
Qed.

(** X22.  Health checking with the HTTP checker only ever changes liveness,
    the failure count and the time of the last check: after any number of
    ticks, whatever the probes come back with, the registry holds the same
    backends in the same order, with the URL, the active connections and the
    request counters they had. *)
Theorem X22_health_loop_keeps_registry (cfg : config.HealthCheckConfig)
    (hc : health.HTTPHealthChecker) (ticks : list (Z * (nat -> health.probe)))
    (bal : balancer.BaseBalancer) :
  frozen <$> balancer.backends
               (healthloop.StartHealthChecks cfg (http_tick hc <$> ticks) bal)
  = frozen <$> balancer.backends bal.
Proof.
  unfold healthloop.StartHealthChecks.
  destruct (negb (config.Enabled cfg)); [reflexivity|].
  revert bal. induction ticks as [|t ticks IH]; intros bal; [reflexivity|].
  simpl. rewrite IH. apply tick_frozen. intros q b. apply Check_frozen.
Qed.

(** *** A registry with distinct URLs

    [MarkBackendUp] and [MarkBackendDown] look the probed backend up by its
    URL.  When the URLs of the registry are distinct they find the backend
    that was probed. *)

Lemma find_by_URL_distinct (bs : list balancer.Backend) (x y : balancer.Backend)
    (p : nat) :
  NoDup (url_of <$> bs) -> bs !! p = Some y -> url_of y = url_of x ->
  balancer.find_by_URL bs x = Some p.
Proof.
  intros Hnd Hp Hu.
  destruct (balancer.find_by_URL bs x) as [i|] eqn:Hf.
  - apply find_by_URL_Some in Hf as (z & Hi & Hz). f_equal.
    apply (NoDup_lookup (url_of <$> bs) i p (url_of x) Hnd);
      rewrite list_lookup_fmap; [rewrite Hi|rewrite Hp]; simpl; congruence.
  - apply find_by_URL_None in Hf. exfalso. apply Hf. rewrite <- Hu.
    apply list_elem_of_fmap. exists y. split; [reflexivity|].
    apply list_elem_of_lookup. eauto.
Qed.

Lemma Check_url (hc : health.HTTPHealthChecker) (r : health.probe)
    (b : balancer.Backend) :
  url_of (health.Check hc r b).1 = url_of b.
Proof. pose proof (Check_frozen hc r b) as Hf. unfold frozen in Hf. congruence. Qed.

(** One probe: the backend behind [p] is checked and marked, every other
    backend stays as it is. *)
Lemma probe_one_distinct (check : nat -> balancer.Backend -> balancer.Backend * bool)
    (now : Z) (bal : balancer.BaseBalancer) (p : nat) (b : balancer.Backend) :
  NoDup (urls bal) ->
  balancer.deref bal p = Some b ->
  url_of (check p b).1 = url_of b ->
  balancer.backends (healthloop.probe_one check now bal p)
  = <[p := if (check p b).2 then balancer.MarkUp now (check p b).1
           else balancer.MarkDown now (check p b).1]> (balancer.backends bal).
Proof.
  intros Hnd Hb Hu. unfold healthloop.probe_one. rewrite Hb.
  destruct (check p b) as [b' ok]. cbn [fst snd] in *.
  unfold balancer.deref in Hb. unfold urls in Hnd.
  assert (Hlt : (p < length (balancer.backends bal))%nat)
    by (apply lookup_lt_is_Some; eauto).
  assert (Hup : balancer.backends (balancer.update bal p (fun _ => b'))
                = <[p := b']> (balancer.backends bal)).
  { unfold balancer.update. cbn [balancer.backends]. apply list_eq. intros j.
    destruct (decide (j = p)) as [->|Hne].
    - rewrite list_lookup_alter_eq, list_lookup_insert_eq by exact Hlt.
      rewrite Hb. reflexivity.
    - rewrite list_lookup_alter_ne, list_lookup_insert_ne by congruence. reflexivity. }
  assert (Hfind : balancer.find_by_URL
                    (balancer.backends (balancer.update bal p (fun _ => b'))) b'
                  = Some p).
  { rewrite Hup. apply (find_by_URL_distinct _ b' b').
    - rewrite list_fmap_insert, Hu, list_insert_id; [exact Hnd|].
      rewrite list_lookup_fmap, Hb. reflexivity.
    - apply list_lookup_insert_eq. exact Hlt.
    - reflexivity. }
  assert (Hmark : forall f : balancer.Backend -> balancer.Backend,
            balancer.backends
              (balancer.update (balancer.update bal p (fun _ => b')) p f)
            = <[p := f b']> (balancer.backends bal)).
  { intros f. unfold balancer.update at 1. cbn [balancer.backends]. rewrite Hup.
    apply list_eq. intros j. destruct (decide (j = p)) as [->|Hne].
    - rewrite list_lookup_alter_eq, !list_lookup_insert_eq by exact Hlt. reflexivity.
    - rewrite list_lookup_alter_ne, !list_lookup_insert_ne by congruence. reflexivity. }
  destruct ok.
  - unfold balancer.MarkBackendUp. rewrite Hfind. apply Hmark.
  - unfold balancer.MarkBackendDown. rewrite Hfind. apply Hmark.
Qed.

Lemma mark_url (now : Z) (ok : bool) (b : balancer.Backend) :
  url_of (if ok then balancer.MarkUp now b else balancer.MarkDown now b) = url_of b.
Proof. destruct ok; reflexivity. Qed.

(** The probes of a tick, one after the other: the backends behind the
    pointers of [ps] are checked and marked, the others are left alone. *)
Lemma probes_distinct (check : nat -> balancer.Backend -> balancer.Backend * bool)
    (now : Z) (ps : list nat) :
  (forall q b, url_of (check q b).1 = url_of b) ->
  NoDup ps ->
  forall (bal : balancer.BaseBalancer) (q : nat) (b : balancer.Backend),
    NoDup (urls bal) ->
    balancer.deref bal q = Some b ->
    balancer.deref (fold_left (healthloop.probe_one check now) ps bal) q
    = Some (if decide (q ∈ ps)
            then if (check q b).2 then balancer.MarkUp now (check q b).1
                 else balancer.MarkDown now (check q b).1
            else b).
Proof.
  intros Hcheck Hps. induction Hps as [|p ps Hp Hps IH]; intros bal q b Hnd Hq.
  - simpl. destruct (decide (q ∈ [])) as [Hin|_]; [inversion Hin|exact Hq].
  - cbn [fold_left].
    assert (Hmem : forall (x y : balancer.Backend),
              q <> p ->
              (if decide (q ∈ ps) then x else y)
              = (if decide (q ∈ p :: ps) then x else y)).
    { intros x y Hne. destruct (decide (q ∈ ps)) as [Hin|Hnin];
        destruct (decide (q ∈ p :: ps)) as [Hin'|Hnin']; try reflexivity.
      - exfalso. apply Hnin'. apply elem_of_cons. right. exact Hin.
      - apply elem_of_cons in Hin' as [Heq|Hin']; contradiction. }
    destruct (balancer.deref bal p) as [bp|] eqn:Hbp.
    + pose proof (probe_one_distinct check now bal p bp Hnd Hbp (Hcheck p bp)) as Hone.
      assert (Hnd1 : NoDup (urls (healthloop.probe_one check now bal p))).
      { unfold urls. rewrite Hone, list_fmap_insert, mark_url, Hcheck.
        rewrite list_insert_id; [exact Hnd|].
        unfold balancer.deref in Hbp. rewrite list_lookup_fmap, Hbp. reflexivity. }
      destruct (decide (q = p)) as [->|Hne].
      * rewrite (IH _ p (if (check p bp).2 then balancer.MarkUp now (check p bp).1
                         else balancer.MarkDown now (check p bp).1) Hnd1).
        -- destruct (decide (p ∈ ps)) as [Hin|_]; [contradiction|].
           assert (bp = b) by congruence. subst bp.
           destruct (decide (p ∈ p :: ps)) as [_|Hnin]; [reflexivity|].
           exfalso. apply Hnin. apply elem_of_cons. left. reflexivity.
        -- unfold balancer.deref. rewrite Hone. apply list_lookup_insert_eq.
           apply lookup_lt_is_Some. unfold balancer.deref in Hbp. eauto.
      * rewrite (IH _ q b Hnd1).
        -- f_equal. apply Hmem. exact Hne.
        -- unfold balancer.deref. rewrite Hone.
           rewrite list_lookup_insert_ne by congruence. exact Hq.
    + assert (Hsame : healthloop.probe_one check now bal p = bal)
        by (unfold healthloop.probe_one; rewrite Hbp; reflexivity).
      rewrite Hsame. rewrite (IH bal q b Hnd Hq).
      f_equal. apply Hmem. congruence.
Qed.

(** A tick on a registry with distinct URLs: every backend is checked once
    and marked by its own verdict. *)
Lemma tick_distinct (check : nat -> balancer.Backend -> balancer.Backend * bool)
    (now : Z) (bal : balancer.BaseBalancer) (p : nat) (b : balancer.Backend) :
  (forall q x, url_of (check q x).1 = url_of x) ->
  NoDup (urls bal) ->
  balancer.deref bal p = Some b ->
  balancer.deref (healthloop.tick check now bal) p
  = Some (if (check p b).2 then balancer.MarkUp now (check p b).1
          else balancer.MarkDown now (check p b).1).
Proof.
  intros Hcheck Hnd Hp. unfold healthloop.tick, balancer.GetAllBackends.
  rewrite (probes_distinct check now _ Hcheck (NoDup_seq _ _) bal p b Hnd Hp).
  destruct (decide (p ∈ seq 0 (length (balancer.backends bal)))) as [_|Hnin];
    [reflexivity|].
  exfalso. apply Hnin. apply elem_of_seq. unfold balancer.deref in Hp.
  apply lookup_lt_Some in Hp. lia.
Qed.

(** X23.  In a registry with distinct URLs, a backend that is DOWN comes back
    at a tick of the HTTP checker exactly when its probe is answered with a
    status from 200 to 399, and then with a failure count of 0; any other
    probe leaves it DOWN with the failure count it had, so failures are not
    counted while a backend is DOWN. *)
Theorem X23_down_backend_recovers_on_healthy_response (hc : health.HTTPHealthChecker)
    (now : Z) (probes : nat -> health.probe) (bal : balancer.BaseBalancer)
    (p : nat) (b : balancer.Backend) :
  NoDup (urls bal) ->
  balancer.deref bal p = Some b ->
  balancer.IsAlive b = false ->
  exists b',
    balancer.deref (healthloop.tick (http_tick hc (now, probes)).2 now bal) p = Some b' /\
    (balancer.IsAlive b' = true
     <-> exists code, probes p = health.Status code /\ 200 <= code < 400) /\
    balancer.FailureCount b'
    = (if balancer.IsAlive b' then 0 else balancer.FailureCount b).
Proof.
  intros Hnd Hp Hdown. eexists. split.
  { apply tick_distinct; [|exact Hnd|exact Hp]. intros q x. apply Check_url. }
  cbn [http_tick snd fst].
  assert (Hfail : health.count_failure hc b = (b, false)).
  { unfold health.count_failure, balancer.IsAvailable. rewrite Hdown. reflexivity. }
  destruct (probes p) as [| |code]; simpl.
  - split; [|reflexivity]. split; [discriminate|intros [code [[=] _]]].
  - rewrite Hfail. simpl. split; [|reflexivity].
    split; [discriminate|intros [code [[=] _]]].
  - destruct (Z.leb_spec 200 code) as [H1|H1]; destruct (Z.ltb_spec code 400) as [H2|H2];
      simpl; try rewrite Hfail; simpl.
    + split; [|reflexivity].
      split; [intros _; exists code; split; [reflexivity|lia]|reflexivity].
    + split; [|reflexivity]. split; [discriminate|intros [c' [[= <-] Hr]]; lia].
    + split; [|reflexivity]. split; [discriminate|intros [c' [[= <-] Hr]]; lia].
    + split; [|reflexivity]. split; [discriminate|intros [c' [[= <-] Hr]]; lia].
Qed.

(** Two backends, the second one DOWN; the probe of the first is answered
    500 and that of the second 204. *)
Lemma X23_down_backend_recovers_on_healthy_response_witness :
  exists b',
    balancer.deref
      (healthloop.tick
         (http_tick checker3
            (1, fun p => if (p =? 1)%nat then health.Status 204 else health.Status 500)).2
         1 (balancer.NewBaseBalancer
              [backendA; balancer.MarkDown 0 (backend_at "b" 0)])) 1
    = Some b' /\
    (balancer.IsAlive b' = true
     <-> exists code, health.Status 204 = health.Status code /\ 200 <= code < 400) /\
    balancer.FailureCount b'
    = (if balancer.IsAlive b' then 0
       else balancer.FailureCount (balancer.MarkDown 0 (backend_at "b" 0))).
Proof.
  apply (X23_down_backend_recovers_on_healthy_response checker3 1
           (fun p => if (p =? 1)%nat then health.Status 204 else health.Status 500)
           (balancer.NewBaseBalancer [backendA; balancer.MarkDown 0 (backend_at "b" 0)])
           1%nat (balancer.MarkDown 0 (backend_at "b" 0))).
  - apply NoDup_cons. split; [|apply NoDup_singleton].
    intros Hin. apply list_elem_of_singleton in Hin. discriminate Hin.
  - reflexivity.
  - reflexivity.
Defined.

(** The URLs must be distinct.  [BalancerFactory] does not check it: when the
    same URL is configured twice, the first entry DOWN and the second UP, a
    tick in which every probe is answered 500 brings the first entry up,
    through the verdict on the second. *)
Example duplicate_url_revives_on_failure :
  let a_down := balancer.MarkDown 0 backendA in
  let bal := balancer.NewBaseBalancer [a_down; backendA] in
  liveness bal 0 = Some (false, 0) /\
  liveness (healthloop.tick (http_tick checker3 (1, fun _ => health.Status 500)).2 1 bal) 0
  = Some (true, 0).
Proof. cbv zeta. split; vm_compute; reflexivity. Qed.

(** ** Retries against the networked store *)

Lemma retry_loop_spec (maxRetries : Z) (fn : Z -> redisclient.fn_result)
    (ctxDone : Z -> bool) (fuel : nat) :
  forall (i : Z) (err : redisclient.retry_error),
    0 <= i <= maxRetries ->
    fuel = Z.to_nat (maxRetries + 1 - i) ->
    (1 <= redisclient.calls (redisclient.retry_loop fuel i maxRetries fn ctxDone err))%nat /\
    i + Z.of_nat (redisclient.calls (redisclient.retry_loop fuel i maxRetries fn ctxDone err))
    <= maxRetries + 1 /\
    (forall j, 0 <= j < Z.of_nat (redisclient.calls
                        (redisclient.retry_loop fuel i maxRetries fn ctxDone err)) - 1 ->
       fn (i + j) = redisclient.FnConnError /\ ctxDone (i + j) = false) /\
    redisclient.slept (redisclient.retry_loop fuel i maxRetries fn ctxDone err)
    = (fun j => redisclient.backoff (i + j))
        <$> iterations (redisclient.calls
                          (redisclient.retry_loop fuel i maxRetries fn ctxDone err) - 1) /\
    explains maxRetries fn ctxDone
      (i + Z.of_nat (redisclient.calls
                       (redisclient.retry_loop fuel i maxRetries fn ctxDone err)) - 1)
      (redisclient.returned (redisclient.retry_loop fuel i maxRetries fn ctxDone err)).
Proof.
  induction fuel as [|fuel IH]; intros i err Hi Hfuel; [lia|].
  cbn [redisclient.retry_loop].
  destruct (Z.leb_spec i maxRetries) as [_|Hgt]; [|lia]. cbn [negb].
  destruct (fn i) eqn:Hfn.
  - cbn. change (Z.of_nat 1) with 1. replace (i + 1 - 1) with i by lia.
    repeat apply conj; try lia; try reflexivity; exact Hfn.
  - destruct (Z.eqb_spec i maxRetries) as [He|Hne].
    + cbn. change (Z.of_nat 1) with 1. replace (i + 1 - 1) with i by lia.
      repeat apply conj; try lia; try reflexivity; exact Hfn.
    + destruct (ctxDone i) eqn:Hctx.
      * cbn. change (Z.of_nat 1) with 1. replace (i + 1 - 1) with i by lia.
        repeat apply conj; try lia; try reflexivity; assumption.
      * specialize (IH (i + 1) (redisclient.LastError true) ltac:(lia) ltac:(lia)).
        destruct IH as (I1 & I2 & I3 & I4 & I5).
        set (rest := redisclient.retry_loop fuel (i + 1) maxRetries fn ctxDone
                       (redisclient.LastError true)) in *.
        cbn [redisclient.calls redisclient.slept redisclient.returned].
        repeat apply conj.
        -- lia.
        -- lia.
        -- intros j Hj. destruct (Z.eq_dec j 0) as [->|Hj0].
           ++ rewrite Z.add_0_r. split; assumption.
           ++ replace (i + j) with (i + 1 + (j - 1)) by lia. apply I3. lia.
        -- replace (S (redisclient.calls rest) - 1)%nat
             with (S (redisclient.calls rest - 1)) by lia.
           unfold iterations in *. cbn [seq fmap list_fmap].
           change (Z.of_nat 0) with 0. rewrite Z.add_0_r. f_equal.
           rewrite I4, <- fmap_S_seq, <- !list_fmap_compose.
           apply list_fmap_ext. intros _ j _. simpl. f_equal. lia.
        -- replace (i + Z.of_nat (S (redisclient.calls rest)) - 1)
             with (i + 1 + Z.of_nat (redisclient.calls rest) - 1) by lia.
           exact I5.
  - cbn. change (Z.of_nat 1) with 1. replace (i + 1 - 1) with i by lia.
    repeat apply conj; try lia; try reflexivity; exact Hfn.
Qed.

(** X24.  [WithRetry] with maxRetries >= 0.  It calls [fn] at least once and
    at most maxRetries + 1 times; every call but the last returned a
    connection error and was followed by a full wait of [backoff], the waits
    being those of iterations 0, 1, 2, ...; and the error returned is nil
    only if the last call returned nil, the last error if that call failed
    otherwise or the retries ran out, [ctx.Err()] only after a connection
    error whose wait was cut short by the context. *)
Theorem X24_WithRetry_runs (maxRetries : Z) (fn : Z -> redisclient.fn_result)
    (ctxDone : Z -> bool) :
  0 <= maxRetries ->
  (1 <= redisclient.calls (redisclient.WithRetry maxRetries fn ctxDone))%nat /\
  Z.of_nat (redisclient.calls (redisclient.WithRetry maxRetries fn ctxDone))
  <= maxRetries + 1 /\
  (forall j, 0 <= j < Z.of_nat (redisclient.calls
                      (redisclient.WithRetry maxRetries fn ctxDone)) - 1 ->
     fn j = redisclient.FnConnError /\ ctxDone j = false) /\
  redisclient.slept (redisclient.WithRetry maxRetries fn ctxDone)
  = redisclient.backoff
      <$> iterations (redisclient.calls (redisclient.WithRetry maxRetries fn ctxDone) - 1) /\
  explains maxRetries fn ctxDone
    (Z.of_nat (redisclient.calls (redisclient.WithRetry maxRetries fn ctxDone)) - 1)
    (redisclient.returned (redisclient.WithRetry maxRetries fn ctxDone)).
Proof.
  intros Hm. unfold redisclient.WithRetry.
  destruct (retry_loop_spec maxRetries fn ctxDone (Z.to_nat (maxRetries + 1)) 0
              redisclient.NoError ltac:(lia) ltac:(f_equal; lia))
    as (H1 & H2 & H3 & H4 & H5).
  repeat apply conj.
  - exact H1.
  - lia.
  - intros j Hj. exact (H3 j Hj).
  - rewrite H4. apply list_fmap_ext. intros _ j _. reflexivity.
  - exact H5.
Qed.

Lemma X24_WithRetry_runs_witness :
  let fn := fun i : Z => if i <? 2 then redisclient.FnConnError else redisclient.FnNil in
  let ctxDone := fun _ : Z => false in
  (1 <= redisclient.calls (redisclient.WithRetry 3 fn ctxDone))%nat /\
  Z.of_nat (redisclient.calls (redisclient.WithRetry 3 fn ctxDone)) <= 3 + 1 /\
  (forall j, 0 <= j < Z.of_nat (redisclient.calls (redisclient.WithRetry 3 fn ctxDone)) - 1 ->
     fn j = redisclient.FnConnError /\ ctxDone j = false) /\
  redisclient.slept (redisclient.WithRetry 3 fn ctxDone)
  = redisclient.backoff
      <$> iterations (redisclient.calls (redisclient.WithRetry 3 fn ctxDone) - 1) /\
  explains 3 fn ctxDone
    (Z.of_nat (redisclient.calls (redisclient.WithRetry 3 fn ctxDone)) - 1)
    (redisclient.returned (redisclient.WithRetry 3 fn ctxDone)).
Proof.
  cbv zeta.
  apply (X24_WithRetry_runs 3
           (fun i : Z => if i <? 2 then redisclient.FnConnError else redisclient.FnNil)
           (fun _ : Z => false)).
  lia.
Defined.

Example WithRetry_two_failures_then_success :
  redisclient.WithRetry 3
    (fun i : Z => if i <? 2 then redisclient.FnConnError else redisclient.FnNil)
    (fun _ : Z => false)
  = {| redisclient.returned := redisclient.NoError; redisclient.calls := 3;
       redisclient.slept := [100000000; 200000000] |}.
Proof. vm_compute. reflexivity. Qed.

(** With a negative maxRetries the loop body never runs: [fn] is not called
    and nil is returned. *)
Example WithRetry_negative (maxRetries : Z) (fn : Z -> redisclient.fn_result)
    (ctxDone : Z -> bool) :
  maxRetries < 0 ->
  redisclient.WithRetry maxRetries fn ctxDone
  = {| redisclient.returned := redisclient.NoError; redisclient.calls := 0;
       redisclient.slept := [] |}.
Proof.
  intros Hm. unfold redisclient.WithRetry.
  destruct (Z.to_nat (maxRetries + 1)) as [|fuel] eqn:Hf; [reflexivity|].
  cbn [redisclient.retry_loop].
  destruct (Z.leb_spec 0 maxRetries); [lia|reflexivity].
Qed.

Lemma backoff_small (i : Z) :
  0 <= i <= 36 ->
  redisclient.backoff i = Z.min (2 ^ i * 100000000) 2000000000.
Proof.
  intros Hi. unfold redisclient.backoff.
  assert (H1 : 1 <= 2 ^ i) by (change 1 with (2 ^ 0); apply Z.pow_le_mono_r; lia).
  assert (H2 : 2 ^ i <= 2 ^ 36) by (apply Z.pow_le_mono_r; lia).
  change (2 ^ 36) with 68719476736 in H2.
  rewrite (wrap64_small (2 ^ i)) by lia.
  rewrite (wrap64_small (2 ^ i * 100)) by lia.
  rewrite wrap64_small by lia.
  change (2 * 1000000000) with 2000000000.
  destruct (Z.ltb_spec 2000000000 (2 ^ i * 100 * 1000000)); lia.
Qed.

(** X25.  The waits of [WithRetry].  For the first 37 retries the wait of
    iteration i is 0.1 s doubled i times and capped at 2 s, so between 0.1 s
    and 2 s.  As the stores call it, with maxRetries = 3, [fn] is called at
    most 4 times and all waits together take at most 0.7 s. *)
Theorem X25_WithRetry_waits (fn : Z -> redisclient.fn_result) (ctxDone : Z -> bool) :
  (forall i, 0 <= i <= 36 ->
     redisclient.backoff i = Z.min (2 ^ i * 100000000) 2000000000 /\
     100000000 <= redisclient.backoff i <= 2000000000) /\
  (redisclient.calls (redisclient.WithRetry 3 fn ctxDone) <= 4)%nat /\
  0 <= total_sleep (redisclient.WithRetry 3 fn ctxDone) <= 700000000.
Proof.
  split.
  - intros i Hi. rewrite backoff_small by exact Hi. split; [reflexivity|].
    assert (H1 : 1 <= 2 ^ i) by (change 1 with (2 ^ 0); apply Z.pow_le_mono_r; lia).
    lia.
  - unfold redisclient.WithRetry, total_sleep.
    change (Z.to_nat (3 + 1)) with 4%nat. cbn [redisclient.retry_loop].
    change (0 <=? 3) with true. change (0 + 1 <=? 3) with true.
    change (0 + 1 + 1 <=? 3) with true. change (0 + 1 + 1 + 1 <=? 3) with true.
    change (0 =? 3) with false. change (0 + 1 =? 3) with false.
    change (0 + 1 + 1 =? 3) with false. change (0 + 1 + 1 + 1 =? 3) with true.
    cbn [negb].
    change (redisclient.backoff 0) with 100000000.
    change (redisclient.backoff (0 + 1)) with 200000000.
    change (redisclient.backoff (0 + 1 + 1)) with 400000000.
    destruct (fn 0); try (cbn; lia);
    destruct (ctxDone 0); try (cbn; lia);
    destruct (fn (0 + 1)); try (cbn; lia);
    destruct (ctxDone (0 + 1)); try (cbn; lia);
    destruct (fn (0 + 1 + 1)); try (cbn; lia);
    destruct (ctxDone (0 + 1 + 1)); try (cbn; lia);
    destruct (fn (0 + 1 + 1 + 1)); cbn; lia.
Qed.

(** ** Validation and the factory *)

Lemma has_validAlgorithms (alg : string) :
  configcheck.has configcheck.validAlgorithms alg = true ->
  alg = "round_robin" \/ alg = "least_connections" \/ alg = "random".
Proof.
  unfold configcheck.has, configcheck.validAlgorithms.
  destruct (decide (alg = "round_robin")) as [->|H1]; [auto|].
  destruct (decide (alg = "least_connections")) as [->|H2]; [auto|].
  destruct (decide (alg = "random")) as [->|H3]; [auto|].
  rewrite !lookup_insert_ne by congruence. rewrite lookup_empty. discriminate.
Qed.

Section ValidatedConfig.
Variable ToLower : string -> string.
Variable Parse : string -> option URL.

(** X26.  A configuration that [validateConfig] accepts has a port from 1 to
    65535 and at least one backend, and [BalancerFactory] then builds the
    balancer of the configured algorithm, or fails with ErrNoValidBackends
    when no URL parses: its fallback to round robin for an unknown algorithm
    is never taken. *)
Theorem X26_validated_config_gets_its_algorithm (c : configcheck.Settings) (now : Z) :
  configcheck.validateConfig ToLower c = None ->
  1 <= configcheck.Port c <= 65535 /\
  config.Backends (configcheck.Rest c) <> [] /\
  match balancer.BalancerFactory Parse (configcheck.Rest c) now with
  | Ok bal => balancer.Name bal = config.Algorithm (configcheck.Rest c)
  | Err e => e = ErrNoValidBackends
  | Panic => False
  end.
Proof.
  unfold configcheck.validateConfig.
  destruct (Z.leb_spec (configcheck.Port c) 0) as [Hp|Hp]; [discriminate|].
  destruct (Z.ltb_spec 65535 (configcheck.Port c)) as [Hq|Hq]; [discriminate|].
  cbn [orb].
  destruct (config.Backends (configcheck.Rest c)) as [|b0 bs] eqn:Hb; [discriminate|].
  cbn [length Nat.eqb].
  destruct (configcheck.has configcheck.validAlgorithms
              (config.Algorithm (configcheck.Rest c))) eqn:Ha; [|discriminate].
  intros _. apply has_validAlgorithms in Ha.
  repeat apply conj; try lia; try discriminate.
  unfold balancer.BalancerFactory.
  destruct (_ =? 0)%nat; [reflexivity|].
  destruct Ha as [-> | [-> | ->]]; reflexivity.
Qed.

End ValidatedConfig.

Lemma X26_validated_config_gets_its_algorithm_witness :
  let c := {| configcheck.Port := 8080;
              configcheck.Logging :=
                {| configcheck.Level := "info"; configcheck.Format := "json";
                   configcheck.Output := "stdout";
                   configcheck.FilePath := "./logs/balancer.log" |};
              configcheck.Rest :=
                {| config.Backends := [ {| config.URL := "http://backend1" |} ];
                   config.Algorithm := "least_connections" |} |} in
  1 <= configcheck.Port c <= 65535 /\
  config.Backends (configcheck.Rest c) <> [] /\
  match balancer.BalancerFactory split_scheme (configcheck.Rest c) 0 with
  | Ok bal => balancer.Name bal = config.Algorithm (configcheck.Rest c)
  | Err e => e = ErrNoValidBackends
  | Panic => False
  end.
Proof.
  cbv zeta.
  apply (X26_validated_config_gets_its_algorithm (fun s => s) split_scheme
           {| configcheck.Port := 8080;
              configcheck.Logging :=
                {| configcheck.Level := "info"; configcheck.Format := "json";
                   configcheck.Output := "stdout";
                   configcheck.FilePath := "./logs/balancer.log" |};
              configcheck.Rest :=
                {| config.Backends := [ {| config.URL := "http://backend1" |} ];
                   config.Algorithm := "least_connections" |} |} 0).
  vm_compute. reflexivity.
Defined.

(** ** Buckets and configurations in the networked store *)

Lemma redis_config_fields (d1 d2 : gmap string (gmap string Z)) (key : string)
    (online : bool) :
  (d1 !! ConfigKey key = None \/ d1 !! ConfigKey key = Some ∅ ->
   RedisStorage.HGET d2 (ConfigKey key) "capacity" = None /\
   RedisStorage.HGET d2 (ConfigKey key) "refillRate" = None) ->
  (forall h, d1 !! ConfigKey key = Some h -> h <> ∅ ->
     exists h', d2 !! ConfigKey key = Some h' /\ h' <> ∅ /\
                h' !! "capacity" = h !! "capacity" /\
                h' !! "refillRate" = h !! "refillRate") ->
  RedisStorage.GetClientConfig {| RedisStorage.db := d2; RedisStorage.online := online |} key
  = RedisStorage.GetClientConfig {| RedisStorage.db := d1; RedisStorage.online := online |} key.
Proof.
  intros Hempty Hfull. unfold RedisStorage.GetClientConfig. simpl.
  destruct online; [|reflexivity].
  destruct (d1 !! ConfigKey key) as [h|] eqn:H1.
  - destruct (decide (h = ∅)) as [->|Hne].
    + destruct (Hempty (or_intror eq_refl)) as [Hc Hr].
      unfold RedisStorage.HGET in Hc, Hr.
      destruct (d2 !! ConfigKey key) as [h2|]; [|reflexivity]. simpl in Hc, Hr.
      destruct (decide (h2 = ∅)); [reflexivity|]. rewrite Hc, Hr. reflexivity.
    + destruct (Hfull h eq_refl Hne) as (h' & H2 & Hne' & Hc & Hr).
      rewrite H2. destruct (decide (h' = ∅)); [contradiction|].
      rewrite Hc, Hr. reflexivity.
  - destruct (Hempty (or_introl eq_refl)) as [Hc Hr].
    unfold RedisStorage.HGET in Hc, Hr.
    destruct (d2 !! ConfigKey key) as [h2|]; [|reflexivity]. simpl in Hc, Hr.
    destruct (decide (h2 = ∅)); [reflexivity|]. rewrite Hc, Hr. reflexivity.
Qed.

Lemma HSET_other_field (d : gmap string (gmap string Z)) (k k' f f' : string) (v : Z) :
  f' <> f ->
  RedisStorage.HGET (RedisStorage.HSET d k f v) k' f' = RedisStorage.HGET d k' f'.
Proof.
  intros Hf. unfold RedisStorage.HGET, RedisStorage.HSET.
  destruct (decide (k' = k)) as [->|Hk].
  - rewrite lookup_insert_eq. simpl. rewrite lookup_insert_ne by congruence.
    destruct (d !! k); reflexivity.
  - rewrite lookup_insert_ne by congruence. reflexivity.
Qed.

Lemma HSET_lookup (d : gmap string (gmap string Z)) (k k' f : string) (v : Z) (h : gmap string Z) :
  d !! k' = Some h -> h <> ∅ ->
  exists h', RedisStorage.HSET d k f v !! k' = Some h' /\ h' <> ∅ /\
             forall f', f' <> f -> h' !! f' = h !! f'.
Proof.
  intros Hd Hne. unfold RedisStorage.HSET.
  destruct (decide (k' = k)) as [->|Hk].
  - rewrite lookup_insert_eq, Hd. simpl. eexists. split; [reflexivity|].
    split; [apply insert_non_empty|]. intros f' Hf. apply lookup_insert_ne. congruence.
  - rewrite lookup_insert_ne by congruence. exists h. repeat apply conj; auto.
Qed.

(** X27.  In the networked store a bucket and a configuration can share a
    key (the bucket of the client named "config:x" lives in the hash that
    holds the configuration of client x), yet they never disturb each other:
    taking tokens, for any client, changes no client's configuration as
    [GetClientConfig] reads it, and writing a configuration changes no
    client's token count or refill stamp. *)
Theorem X27_redis_buckets_and_configs_apart (s : RedisStorage.t)
    (key other : string) (now n c r : Z) :
  RateLimitKey (String.append ConfigPrefix other) = ConfigKey other /\
  RedisStorage.GetClientConfig (RedisStorage.TakeTokens s now key n c r).1 other
  = RedisStorage.GetClientConfig s other /\
  redis_tokens (RedisStorage.SetClientConfig s key c r).1 other = redis_tokens s other /\
  redis_lastRefill (RedisStorage.SetClientConfig s key c r).1 other
  = redis_lastRefill s other.
Proof.
  split; [reflexivity|]. split.
  - unfold RedisStorage.TakeTokens. destruct s as [d on]. simpl.
    destruct on; [|reflexivity].
    unfold RedisStorage.tokenBucketScript. simpl.
    apply redis_config_fields.
    + intros Hd. rewrite !HSET_other_field by discriminate.
      unfold RedisStorage.HGET. destruct Hd as [-> | ->]; split; reflexivity.
    + intros h Hh Hne.
      match goal with
      | |- context [RedisStorage.HSET (RedisStorage.HSET d ?k "tokens" ?v) ?k "lastRefill" ?v2] =>
          destruct (HSET_lookup d k (ConfigKey other) "tokens" v h Hh Hne)
            as (h1 & H1 & Hne1 & Hf1);
          destruct (HSET_lookup (RedisStorage.HSET d k "tokens" v) k (ConfigKey other)
                      "lastRefill" v2 h1 H1 Hne1) as (h2 & H2 & Hne2 & Hf2)
      end.
      exists h2. repeat apply conj; [exact H2|exact Hne2| |].
      * rewrite Hf2, Hf1 by discriminate. reflexivity.
      * rewrite Hf2, Hf1 by discriminate. reflexivity.
  - unfold redis_tokens, redis_lastRefill, RedisStorage.SetClientConfig.
    destruct (RedisStorage.online s); [|split; reflexivity]. simpl.
    rewrite !HSET_other_field by discriminate. split; reflexivity.
Qed.
